(** * Hefty: a claim-check wrapper around the SQS and SNS clients

    A shallow embedding of the Hefty client wrappers ([sqs.go], the SNS
    wrapper and [types/reference_message.go]) and of the parts of the Go
    standard library they call, followed by the properties of the send,
    receive and delete flows.

    Conventions.
    - A Go [string] is a [string] (a sequence of 8-bit characters), a
      [[]byte] is a [list byte]; [[]byte(s)] is [list_byte_of_string] and
      [string(b)] is [string_of_list_byte].
    - A Go [int] is a [Z] kept in the signed 64-bit range by [Go.int_wrap].
    - A pointer that may be [nil] is an [option]; a [nil] map reads like
      the empty map and is modelled as [∅].
    - A call to a network client (SQS, S3, SNS) or to the random source is
      a node of a [prog] tree; running a tree against a handler yields the
      result, the final state of the handler and the list of calls made. *)

From Stdlib Require Import ZArith String Ascii List Lia.
From Stdlib.Strings Require Import Byte.
From stdpp Require Import base gmap strings list.

Local Open Scope Z_scope.

(** ** Go built-ins and the [strings] package *)

Module Go.

(** Wrap-around of a signed 64-bit [int]. *)
Definition int_wrap (z : Z) : Z := (z + 2 ^ 63) mod 2 ^ 64 - 2 ^ 63.

Definition MaxInt : Z := 2 ^ 63 - 1.

(** [a + b] on [int]. *)
Definition int_add (a b : Z) : Z := int_wrap (a + b).

(** [len(s)] for a string and for a byte slice. *)
Definition len (s : string) : Z := Z.of_nat (String.length s).
Definition len_bytes (b : list byte) : Z := Z.of_nat (List.length b).

(** [strings.HasPrefix(s, prefix)]. *)
Fixpoint HasPrefix (s prefix : string) {struct prefix} : bool :=
  match prefix with
  | EmptyString => true
  | String p prefix' =>
      match s with
      | EmptyString => false
      | String c s' => if Ascii.eqb c p then HasPrefix s' prefix' else false
      end
  end.

(** [strings.Split(s, sep)] for a separator of one byte: the pieces
    between the occurrences of [sep], one more than there are
    occurrences. *)
Fixpoint Split (s : string) (sep : ascii) : list string :=
  match s with
  | EmptyString => [EmptyString]
  | String c s' =>
      if Ascii.eqb c sep then EmptyString :: Split s' sep
      else match Split s' sep with
           | [] => [String c EmptyString]
           | t :: ts => String c t :: ts
           end
  end.

(** [strings.ReplaceAll(s, old, new)] for a non-empty [old]: the
    occurrences of [old] are replaced from left to right and do not
    overlap. [skip] counts the bytes of a matched occurrence still to be
    dropped. *)
Fixpoint ReplaceAll_from (skip : nat) (s old new : string) : string :=
  match s with
  | EmptyString => EmptyString
  | String c s' =>
      match skip with
      | S n => ReplaceAll_from n s' old new
      | O =>
          if HasPrefix s old
          then new +:+ ReplaceAll_from (String.length old - 1) s' old new
          else String c (ReplaceAll_from O s' old new)
      end
  end.

Definition ReplaceAll (s old new : string) : string :=
  ReplaceAll_from O s old new.

(** [b[lo:hi]]; [None] stands for the panic of a slice out of range. *)
Definition slice (b : list byte) (lo hi : Z) : option (list byte) :=
  if (0 <=? lo) && (lo <=? hi) && (hi <=? len_bytes b)
  then Some (firstn (Z.to_nat (hi - lo)) (skipn (Z.to_nat lo) b))
  else None.

(** [aws.ToString(p)]: the string [p] points to, or the empty string
    for [nil]. *)
Definition ToString (p : option string) : string :=
  match p with Some s => s | None => EmptyString end.

End Go.

(** ** [encoding/base64], the standard encoding with padding *)

Module Base64.

Definition byte_val (b : byte) : Z := Z.of_N (Byte.to_N b).
Definition char_val (c : ascii) : Z := Z.of_N (N_of_ascii c).
Definition chr (z : Z) : ascii := ascii_of_N (Z.to_N z).
Definition to_byte (z : Z) : byte := byte_of_ascii (chr z).

(** The alphabet [A-Z a-z 0-9 + /]. *)
Definition enc_char (v : Z) : ascii :=
  if v <? 26 then chr (65 + v)
  else if v <? 52 then chr (71 + v)
  else if v <? 62 then chr (v - 4)
  else if v =? 62 then "+"%char
  else "/"%char.

Definition dec_char (c : ascii) : option Z :=
  let n := char_val c in
  if (65 <=? n) && (n <=? 90) then Some (n - 65)
  else if (97 <=? n) && (n <=? 122) then Some (n - 71)
  else if (48 <=? n) && (n <=? 57) then Some (n + 4)
  else if n =? 43 then Some 62
  else if n =? 47 then Some 63
  else None.

Definition pad : ascii := "="%char.

(** The four 6-bit digits of a group of 24 bits. *)
Definition digit (val : Z) (i : Z) : ascii :=
  enc_char ((val / 64 ^ (3 - i)) mod 64).

(** [StdEncoding.EncodeToString(src)]: three bytes give four characters;
    a last group of one or two bytes is padded with [=]. *)
Fixpoint EncodeToString (src : list byte) : string :=
  match src with
  | [] => EmptyString
  | [a] =>
      let val := byte_val a * 65536 in
      String (digit val 0) (String (digit val 1) (String pad (String pad EmptyString)))
  | [a; b] =>
      let val := byte_val a * 65536 + byte_val b * 256 in
      String (digit val 0) (String (digit val 1) (String (digit val 2)
        (String pad EmptyString)))
  | a :: b :: c :: rest =>
      let val := byte_val a * 65536 + byte_val b * 256 + byte_val c in
      String (digit val 0) (String (digit val 1) (String (digit val 2)
        (String (digit val 3) (EncodeToString rest))))
  end.

(** The decoder skips carriage returns and line feeds wherever they
    stand. *)
Fixpoint strip_newlines (s : string) : string :=
  match s with
  | EmptyString => EmptyString
  | String c s' =>
      if Ascii.eqb c "010"%char || Ascii.eqb c "013"%char
      then strip_newlines s'
      else String c (strip_newlines s')
  end.

Definition quantum (s0 s1 s2 s3 : Z) : Z :=
  s0 * 262144 + s1 * 4096 + s2 * 64 + s3.

(** [byte(val >> shift)]. *)
Definition out_byte (val shift : Z) : byte :=
  to_byte ((val / 2 ^ shift) mod 256).

(** Groups of four characters; padding is accepted in the last group
    only, and the bits that a padded group leaves over are dropped
    (the standard encoding is not strict). [None] is a
    [CorruptInputError]. *)
Fixpoint decode_quanta (s : string) : option (list byte) :=
  match s with
  | EmptyString => Some []
  | String c0 (String c1 (String c2 (String c3 rest))) =>
      match dec_char c0, dec_char c1 with
      | Some s0, Some s1 =>
          if Ascii.eqb c2 pad then
            if Ascii.eqb c3 pad then
              match rest with
              | EmptyString => Some [out_byte (quantum s0 s1 0 0) 16]
              | _ => None
              end
            else None
          else
            match dec_char c2 with
            | None => None
            | Some s2 =>
                if Ascii.eqb c3 pad then
                  match rest with
                  | EmptyString =>
                      let val := quantum s0 s1 s2 0 in
                      Some [out_byte val 16; out_byte val 8]
                  | _ => None
                  end
                else
                  match dec_char c3 with
                  | None => None
                  | Some s3 =>
                      match decode_quanta rest with
                      | None => None
                      | Some out =>
                          let val := quantum s0 s1 s2 s3 in
                          Some (out_byte val 16 :: out_byte val 8 :: out_byte val 0 :: out)
                      end
                  end
            end
      | _, _ => None
      end
  | _ => None
  end.

(** [StdEncoding.DecodeString(s)]. *)
Definition DecodeString (s : string) : option (list byte) :=
  decode_quanta (strip_newlines s).

End Base64.

(** ** [unicode/utf8] and [encoding/json], as far as strings need them *)

Module Json.

Import Base64.

Definition quote : string := String "034"%char EmptyString.
Definition newline : string := String "010"%char EmptyString.
Definition tab : string := String "009"%char EmptyString.

Definition hex_digit (v : Z) : ascii :=
  if v <? 10 then chr (48 + v) else chr (87 + v).

(** The continuation byte at the head of [s], when it lies in [lo..hi]. *)
Definition cont (s : string) (lo hi : Z) : option (Z * string) :=
  match s with
  | EmptyString => None
  | String c s' =>
      let n := char_val c in
      if (lo <=? n) && (n <=? hi) then Some (n, s') else None
  end.

Definition RuneError : Z := 65533.

(** [utf8.DecodeRuneInString(s)] for [s] starting with a byte of 128 or
    more: the rune and its width; an encoding that is not valid gives
    [(RuneError, 1)]. *)
Definition DecodeRune (s0 : Z) (s' : string) : Z * nat :=
  let invalid := (RuneError, 1%nat) in
  let two := 2%nat in
  if (194 <=? s0) && (s0 <=? 223) then
    match cont s' 128 191 with
    | Some (s1, _) => (Z.lor (Z.shiftl (Z.land s0 31) 6) (Z.land s1 63), two)
    | None => invalid
    end
  else if (224 <=? s0) && (s0 <=? 239) then
    let lo := if s0 =? 224 then 160 else 128 in
    let hi := if s0 =? 237 then 159 else 191 in
    match cont s' lo hi with
    | Some (s1, r1) =>
        match cont r1 128 191 with
        | Some (s2, _) =>
            (Z.lor (Z.lor (Z.shiftl (Z.land s0 15) 12) (Z.shiftl (Z.land s1 63) 6))
               (Z.land s2 63), 3%nat)
        | None => invalid
        end
    | None => invalid
    end
  else if (240 <=? s0) && (s0 <=? 244) then
    let lo := if s0 =? 240 then 144 else 128 in
    let hi := if s0 =? 244 then 143 else 191 in
    match cont s' lo hi with
    | Some (s1, r1) =>
        match cont r1 128 191 with
        | Some (s2, r2) =>
            match cont r2 128 191 with
            | Some (s3, _) =>
                (Z.lor (Z.lor (Z.lor (Z.shiftl (Z.land s0 7) 18)
                                 (Z.shiftl (Z.land s1 63) 12))
                          (Z.shiftl (Z.land s2 63) 6))
                   (Z.land s3 63), 4%nat)
            | None => invalid
            end
        | None => invalid
        end
    | None => invalid
    end
  else invalid.

(** The bytes that [encoding/json] copies unchanged when it escapes for
    HTML, as [json.Marshal] and [json.MarshalIndent] do: printable ASCII
    but for the double quote, the backslash, [&], [<] and [>]. *)
Definition htmlSafe (n : Z) : bool :=
  (32 <=? n) && negb ((n =? 34) || (n =? 38) || (n =? 60) || (n =? 62) || (n =? 92)).

Definition backslash : ascii := "\"%char.

Definition escape_ascii (c : ascii) (n : Z) : string :=
  if (n =? 92) || (n =? 34) then String backslash (String c EmptyString)
  else if n =? 8 then "\b"
  else if n =? 12 then "\f"
  else if n =? 10 then "\n"
  else if n =? 13 then "\r"
  else if n =? 9 then "\t"
  else "\u00" +:+ String (hex_digit (Z.shiftr n 4)) (String (hex_digit (Z.land n 15)) EmptyString).

(** The body of a JSON string (Go 1.22 and later). [copy] bytes of a
    rune under way are copied, [drop] bytes of a replaced rune are
    dropped. *)
Fixpoint escape_from (copy drop : nat) (s : string) : string :=
  match s with
  | EmptyString => EmptyString
  | String c s' =>
      match copy, drop with
      | S n, _ => String c (escape_from n drop s')
      | O, S n => escape_from O n s'
      | O, O =>
          let b := char_val c in
          if b <? 128 then
            if htmlSafe b then String c (escape_from O O s')
            else escape_ascii c b +:+ escape_from O O s'
          else
            let '(r, size) := DecodeRune b s' in
            if (r =? RuneError) && Nat.eqb size 1 then "\ufffd" +:+ escape_from O O s'
            else if (r =? 8232) || (r =? 8233) then
              "\u202" +:+ String (hex_digit (Z.land r 15)) (escape_from O (size - 1) s')
            else String c (escape_from (size - 1) O s')
      end
  end.

(** A Go string as a JSON string. *)
Definition encodeString (s : string) : string :=
  quote +:+ escape_from O O s +:+ quote.

(** [json.Marshal] of a struct whose fields are strings, given as the
    list of its keys and values in declaration order. It has no error
    case. *)
Fixpoint members (sep colon : string) (fields : list (string * string)) : string :=
  match fields with
  | [] => EmptyString
  | [(k, v)] => quote +:+ k +:+ quote +:+ colon +:+ encodeString v
  | (k, v) :: rest =>
      quote +:+ k +:+ quote +:+ colon +:+ encodeString v +:+ sep +:+ members sep colon rest
  end.

Definition Marshal (fields : list (string * string)) : string :=
  "{" +:+ members "," ":" fields +:+ "}".

(** [json.MarshalIndent(v, "", "\t")] of such a struct with at least one
    field. *)
Definition MarshalIndent (fields : list (string * string)) : string :=
  "{" +:+ newline +:+ tab +:+ members ("," +:+ newline +:+ tab) ": " fields
      +:+ newline +:+ "}".

End Json.

(** ** [crypto/md5] and [encoding/hex] *)

Module Md5.

Import Base64.

Definition mask32 (z : Z) : Z := Z.land z 4294967295.
Definition add32 (a b : Z) : Z := mask32 (a + b).
Definition not32 (a : Z) : Z := Z.lxor a 4294967295.
Definition rotl32 (x c : Z) : Z :=
  mask32 (Z.lor (Z.shiftl x c) (Z.shiftr x (32 - c))).

Definition shifts : list Z :=
  [7; 12; 17; 22; 7; 12; 17; 22; 7; 12; 17; 22; 7; 12; 17; 22;
   5; 9; 14; 20; 5; 9; 14; 20; 5; 9; 14; 20; 5; 9; 14; 20;
   4; 11; 16; 23; 4; 11; 16; 23; 4; 11; 16; 23; 4; 11; 16; 23;
   6; 10; 15; 21; 6; 10; 15; 21; 6; 10; 15; 21; 6; 10; 15; 21].

Definition K : list Z :=
  [0xd76aa478; 0xe8c7b756; 0x242070db; 0xc1bdceee;
   0xf57c0faf; 0x4787c62a; 0xa8304613; 0xfd469501;
   0x698098d8; 0x8b44f7af; 0xffff5bb1; 0x895cd7be;
   0x6b901122; 0xfd987193; 0xa679438e; 0x49b40821;
   0xf61e2562; 0xc040b340; 0x265e5a51; 0xe9b6c7aa;
   0xd62f105d; 0x02441453; 0xd8a1e681; 0xe7d3fbc8;
   0x21e1cde6; 0xc33707d6; 0xf4d50d87; 0x455a14ed;
   0xa9e3e905; 0xfcefa3f8; 0x676f02d9; 0x8d2a4c8a;
   0xfffa3942; 0x8771f681; 0x6d9d6122; 0xfde5380c;
   0xa4beea44; 0x4bdecfa9; 0xf6bb4b60; 0xbebfbc70;
   0x289b7ec6; 0xeaa127fa; 0xd4ef3085; 0x04881d05;
   0xd9d4d039; 0xe6db99e5; 0x1fa27cf8; 0xc4ac5665;
   0xf4292244; 0x432aff97; 0xab9423a7; 0xfc93a039;
   0x655b59c3; 0x8f0ccc92; 0xffeff47d; 0x85845dd1;
   0x6fa87e4f; 0xfe2ce6e0; 0xa3014314; 0x4e0811a1;
   0xf7537e82; 0xbd3af235; 0x2ad7d2bb; 0xeb86d391].

(** The message followed by the byte 128, zero bytes up to 56 modulo 64
    and the length in bits as 8 little-endian bytes. *)
Definition le_bytes (n : nat) (z : Z) : list Z :=
  List.map (fun i => Z.land (Z.shiftr z (8 * Z.of_nat i)) 255) (seq 0 n).

Definition padding (msg : list Z) : list Z :=
  let n := Z.of_nat (List.length msg) in
  let zeros := (55 - n) mod 64 in
  msg ++ [128] ++ repeat 0 (Z.to_nat zeros) ++ le_bytes 8 (Z.land (8 * n) (2 ^ 64 - 1)).

Fixpoint le_words (fuel : nat) (bs : list Z) : list Z :=
  match fuel, bs with
  | S f, b0 :: b1 :: b2 :: b3 :: rest =>
      (b0 + Z.shiftl b1 8 + Z.shiftl b2 16 + Z.shiftl b3 24) :: le_words f rest
  | _, _ => []
  end.

Definition state : Type := Z * Z * Z * Z.

Definition step (M : list Z) (st : state) (i : nat) : state :=
  let '(A, B, C, D) := st in
  let zi := Z.of_nat i in
  let '(F, g) :=
    if zi <? 16 then (Z.lor (Z.land B C) (Z.land (not32 B) D), zi)
    else if zi <? 32 then (Z.lor (Z.land D B) (Z.land (not32 D) C), (5 * zi + 1) mod 16)
    else if zi <? 48 then (Z.lxor (Z.lxor B C) D, (3 * zi + 5) mod 16)
    else (Z.lxor C (Z.lor B (not32 D)), (7 * zi) mod 16) in
  let F := add32 (add32 (add32 F A) (nth i K 0)) (nth (Z.to_nat g) M 0) in
  (D, add32 B (rotl32 F (nth i shifts 0)), B, C).

Definition block (st : state) (M : list Z) : state :=
  let '(a0, b0, c0, d0) := st in
  let '(A, B, C, D) := fold_left (step M) (seq 0 64) st in
  (add32 a0 A, add32 b0 B, add32 c0 C, add32 d0 D).

Fixpoint blocks (fuel : nat) (st : state) (words : list Z) : state :=
  match fuel, words with
  | S f, _ :: _ => blocks f (block st (firstn 16 words)) (skipn 16 words)
  | _, _ => st
  end.

Definition init : state := (0x67452301, 0xefcdab89, 0x98badcfe, 0x10325476).

(** [md5.Sum(data)]. *)
Definition Sum (data : list byte) : list Z :=
  let padded := padding (List.map byte_val data) in
  let words := le_words (List.length padded) padded in
  let '(a, b, c, d) := blocks (List.length words) init words in
  le_bytes 4 a ++ le_bytes 4 b ++ le_bytes 4 c ++ le_bytes 4 d.

(** [hex.EncodeToString]. *)
Fixpoint hex (bs : list Z) : string :=
  match bs with
  | [] => EmptyString
  | b :: rest =>
      String (Json.hex_digit (Z.shiftr b 4)) (String (Json.hex_digit (Z.land b 15)) (hex rest))
  end.

End Md5.

(** ** Errors

    [fmt.Errorf] and [errors.New] values keep their format string and
    arguments as written in the source; they are not rendered to text. *)

Inductive fmt_arg (E : Type) : Type :=
| ArgInt (n : Z)
| ArgString (s : string)
| ArgError (e : E).

Arguments ArgInt {E} n.
Arguments ArgString {E} s.
Arguments ArgError {E} e.

#[warnings="-register-all"] Inductive error : Type :=
| ClientError (msg : string)     (* returned by an SQS, S3 or SNS client call *)
| CorruptInputError              (* returned by [base64.StdEncoding.DecodeString] *)
| JsonError (msg : string)       (* returned by [json.Unmarshal] *)
| CodecError (msg : string)      (* returned by the payload codec *)
| ErrorsNew (text : string)
| Errorf (format : string) (args : list (fmt_arg error)).

(** Go's [(value, error)] pair of return values. *)
Definition ret (T : Type) : Type := (option T * option error)%type.

(** ** The AWS SDK types, with the fields the wrappers read or write *)

Module sqsTypes.

(** [types.MessageAttributeValue]. The SNS struct of the same name and
    the normalized one of package [messages] have the same three fields
    and share this record. *)
Record MessageAttributeValue : Type := {
  DataType : option string;
  StringValue : option string;
  BinaryValue : list byte;
}.

Record Message : Type := {
  Body : option string;
  MessageAttributes : gmap string MessageAttributeValue;
  MD5OfBody : option string;
  MD5OfMessageAttributes : option string;
  ReceiptHandle : option string;
  MessageId : option string;
}.

End sqsTypes.

Abbreviation MessageAttributeValue := sqsTypes.MessageAttributeValue.
Abbreviation attributes := (gmap string sqsTypes.MessageAttributeValue).

Module sqs.

Record SendMessageInput : Type := {
  MessageBody : option string;
  MessageAttributes : attributes;
  QueueUrl : option string;
}.

Record SendMessageOutput : Type := {
  MD5OfMessageBody : option string;
  MD5OfMessageAttributes : option string;
  MessageId : option string;
}.

Record ReceiveMessageInput : Type := {
  rQueueUrl : option string;
  MessageAttributeNames : list string;
}.

Record ReceiveMessageOutput : Type := {
  Messages : list sqsTypes.Message;
}.

Record DeleteMessageInput : Type := {
  dQueueUrl : option string;
  ReceiptHandle : option string;
}.

Record DeleteMessageOutput : Type := { }.

End sqs.

Module sns.

Record PublishInput : Type := {
  Message : option string;
  MessageAttributes : attributes;
  TopicArn : option string;
}.

Record PublishOutput : Type := {
  MessageId : option string;
}.

End sns.

(** ** Programs that call the collaborators *)

Inductive call : Type -> Type :=
| SqsSendMessage (params : option sqs.SendMessageInput) : call (ret sqs.SendMessageOutput)
| SqsReceiveMessage (params : sqs.ReceiveMessageInput) : call (ret sqs.ReceiveMessageOutput)
| SqsDeleteMessage (params : sqs.DeleteMessageInput) : call (ret sqs.DeleteMessageOutput)
| SnsPublish (params : option sns.PublishInput) : call (ret sns.PublishOutput)
| S3Upload (bucket key : string) (body : list byte) : call (option error)
| S3Download (bucket key : string) : call (list byte * option error)
| S3DeleteObject (bucket key : string) : call (option error)
| UuidNewString : call string.

(** A program returns, calls a collaborator and goes on with its answer,
    or panics (a [nil] dereference or a slice out of range). *)
Inductive prog (R : Type) : Type :=
| Ret (r : R)
| Panic
| Vis {A : Type} (c : call A) (k : A -> prog R).

Arguments Ret {R} r.
Arguments Panic {R}.
Arguments Vis {R A} c k.

Fixpoint bind {A B : Type} (m : prog A) (f : A -> prog B) : prog B :=
  match m with
  | Ret a => f a
  | Panic => Panic
  | Vis c k => Vis c (fun x => bind (k x) f)
  end.

#[global] Instance prog_ret : MRet prog := @Ret.
#[global] Instance prog_bind : MBind prog := fun A B f m => bind m f.

Definition trigger {A : Type} (c : call A) : prog A := Vis c Ret.

(** One call and its answer. *)
Inductive event : Type :=
| EvSqsSendMessage (params : option sqs.SendMessageInput) (a : ret sqs.SendMessageOutput)
| EvSqsReceiveMessage (params : sqs.ReceiveMessageInput) (a : ret sqs.ReceiveMessageOutput)
| EvSqsDeleteMessage (params : sqs.DeleteMessageInput) (a : ret sqs.DeleteMessageOutput)
| EvSnsPublish (params : option sns.PublishInput) (a : ret sns.PublishOutput)
| EvS3Upload (bucket key : string) (body : list byte) (a : option error)
| EvS3Download (bucket key : string) (a : list byte * option error)
| EvS3DeleteObject (bucket key : string) (a : option error)
| EvUuidNewString (a : string).

Definition Event {A : Type} (c : call A) : A -> event :=
  match c in call A return A -> event with
  | SqsSendMessage p => EvSqsSendMessage p
  | SqsReceiveMessage p => EvSqsReceiveMessage p
  | SqsDeleteMessage p => EvSqsDeleteMessage p
  | SnsPublish p => EvSnsPublish p
  | S3Upload b k body => EvS3Upload b k body
  | S3Download b k => EvS3Download b k
  | S3DeleteObject b k => EvS3DeleteObject b k
  | UuidNewString => EvUuidNewString
  end.

(** The collaborators: a state and an answer to every call. *)
Definition handler (W : Type) : Type := forall A : Type, call A -> W -> A * W.

(** [run h p w]: the value [p] returns ([None] for a panic), the final
    state of the collaborators and the calls made, in order. *)
Fixpoint run {W R : Type} (h : handler W) (p : prog R) (w : W)
  : option R * W * list event :=
  match p with
  | Ret r => (Some r, w, [])
  | Panic => (None, w, [])
  | Vis c k =>
      let '(a, w1) := h _ c w in
      let '(r, w2, tr) := run h (k a) w1 in
      (r, w2, Event c a :: tr)
  end.

(** Classification of events. *)
Definition is_queue_send (e : event) : bool :=
  match e with EvSqsSendMessage _ _ => true | _ => false end.

Definition is_queue_delete (e : event) : bool :=
  match e with EvSqsDeleteMessage _ _ => true | _ => false end.

Definition is_blob_delete (e : event) : bool :=
  match e with EvS3DeleteObject _ _ _ => true | _ => false end.

Definition is_blob_get (e : event) : bool :=
  match e with EvS3Download _ _ _ => true | _ => false end.

Definition is_blob_put (e : event) : bool :=
  match e with EvS3Upload _ _ _ _ => true | _ => false end.

(** The error a collaborator answered with, if any. *)
Definition answered_error (e : event) : option error :=
  match e with
  | EvSqsSendMessage _ a => snd a
  | EvSqsReceiveMessage _ a => snd a
  | EvSqsDeleteMessage _ a => snd a
  | EvSnsPublish _ a => snd a
  | EvS3Upload _ _ _ a => a
  | EvS3Download _ _ a => snd a
  | EvS3DeleteObject _ _ a => a
  | EvUuidNewString _ => None
  end.

(** ** Package [types]: the reference message of the SNS wrapper *)

Module types.

Definition referenceMsgIdentifierKey : string := "d3131a62e0224688b77a506fd333dac4".

(** Set once by [init]: an opening brace, the key [identifier] in
    quotes, a colon, the identifier key in quotes and a comma, with no
    white space. *)
Definition jsonReferenceMsgPrefix : string :=
  "{" +:+ Json.quote +:+ "identifier" +:+ Json.quote +:+ ":" +:+ Json.quote
      +:+ referenceMsgIdentifierKey +:+ Json.quote +:+ ",".

Record ReferenceMsg : Type := {
  Identifier : string;
  S3Region : string;
  S3Bucket : string;
  S3Key : string;
  Md5DigestMsgBody : string;
  Md5DigestMsgAttr : string;
}.

Record SNSMessage : Type := { snsMessage : string }.   (* json:"default" *)
Record SQSMessage : Type := { sqsMessage : string }.   (* json:"Message" *)

Definition NewReferenceMsg (s3Region s3Bucket s3Key md5Body md5Attr : string) : ReferenceMsg :=
  {| Identifier := referenceMsgIdentifierKey;
     S3Region := s3Region;
     S3Bucket := s3Bucket;
     S3Key := s3Key;
     Md5DigestMsgBody := md5Body;
     Md5DigestMsgAttr := md5Attr |}.

Definition IsReferenceMsg (msg : string) : bool :=
  Go.HasPrefix msg jsonReferenceMsgPrefix.

(** The struct tags, in declaration order. *)
Definition ReferenceMsg_fields (m : ReferenceMsg) : list (string * string) :=
  [("identifier", Identifier m); ("s3_region", S3Region m); ("s3_bucket", S3Bucket m);
   ("s3_key", S3Key m); ("md5_digest_msg_body", Md5DigestMsgBody m);
   ("md5_digest_msg_attr", Md5DigestMsgAttr m)].

Definition SNSMessage_fields (m : SNSMessage) : list (string * string) :=
  [("default", snsMessage m)].

Definition SQSMessage_fields (m : SQSMessage) : list (string * string) :=
  [("Message", sqsMessage m)].

End types.

(** ** Package [messages]: size, payload codec and digests

    The package is not among the sources at hand; what the wrappers use of
    it follows the specification. *)

Module messages.

Import sqsTypes.

(** Modelled from the spec: the message the codec works on, body and
    attribute mapping, with the size computed for it
    ([messages.HeftyMessage], built by [messages.NewHeftyMessage]). *)
Record HeftyMessage : Type := {
  hBody : option string;
  hMessageAttributes : attributes;
  hSize : Z;
}.

Definition NewHeftyMessage (body : option string) (msgAttributes : attributes) (size : Z)
  : HeftyMessage :=
  {| hBody := body; hMessageAttributes := msgAttributes; hSize := size |}.

(** Modelled from the spec: [messages.MapFromSnsMessageAttributeValues]
    normalizes the attribute values; the fields are the same on both
    sides. *)
Definition MapFromSnsMessageAttributeValues (m : attributes) : attributes := m.

(** Modelled from the spec: the value-kind of an attribute is chosen by
    the leading token of its dataType, string-like for [String] and
    [Number], binary otherwise. *)
Definition stringLike (v : MessageAttributeValue) : bool :=
  let dataType := Go.ToString (DataType v) in
  Go.HasPrefix dataType "String" || Go.HasPrefix dataType "Number".

Definition valueBytes (v : MessageAttributeValue) : list byte :=
  if stringLike v then list_byte_of_string (Go.ToString (StringValue v))
  else BinaryValue v.

Definition transportType (v : MessageAttributeValue) : byte :=
  if stringLike v then "001"%byte else "002"%byte.

(** A length as 4 big-endian bytes. *)
Definition be32 (n : nat) : list byte :=
  let z := Z.of_nat n in
  [Base64.out_byte z 24; Base64.out_byte z 16; Base64.out_byte z 8; Base64.out_byte z 0].

Definition lengthPrefixed (b : list byte) : list byte := be32 (length b) ++ b.

(** Modelled from the spec: [messages.MessageSize], the SizeCalculator
    (section 4.1): the body length plus, for every attribute, the
    lengths of its name, its dataType and its value; it fails on a
    dataType with none of the leading tokens. *)
Fixpoint MessageSize_range (kvs : list (string * MessageAttributeValue)) (size : Z)
  : Z * option error :=
  match kvs with
  | [] => (size, None)
  | (k, v) :: rest =>
      let dataType := Go.ToString (DataType v) in
      let size := Go.int_add (Go.int_add size (Go.len k)) (Go.len dataType) in
      if Go.HasPrefix dataType "String" || Go.HasPrefix dataType "Number" then
        MessageSize_range rest (Go.int_add size (Go.len (Go.ToString (StringValue v))))
      else if Go.HasPrefix dataType "Binary" then
        MessageSize_range rest (Go.int_add size (Go.len_bytes (BinaryValue v)))
      else (-1, Some (Errorf "encountered unexpected data type for message: %s"
                        [ArgString dataType]))
  end.

Definition MessageSize (body : option string) (msgAttributes : attributes)
  : Z * option error :=
  MessageSize_range (map_to_list msgAttributes) (Go.len (Go.ToString body)).

(** Modelled from the spec: the PayloadCodec (section 4.3). The body
    bytes come first, then one record per attribute: name length, name,
    dataType length, dataType, the value-kind byte, value length, value.
    The offsets are the start of the body section and the start of the
    attribute section. *)
Definition attributeRecord (kv : string * MessageAttributeValue) : list byte :=
  let '(k, v) := kv in
  lengthPrefixed (list_byte_of_string k)
    ++ lengthPrefixed (list_byte_of_string (Go.ToString (DataType v)))
    ++ [transportType v]
    ++ lengthPrefixed (valueBytes v).

Definition Serialize (msg : HeftyMessage) : list byte * Z * Z * option error :=
  let body := list_byte_of_string (Go.ToString (hBody msg)) in
  let attrs := List.concat (List.map attributeRecord (map_to_list (hMessageAttributes msg))) in
  (body ++ attrs, 0, Go.len_bytes body, None).

(** Modelled from the spec: [messages.Md5Digest] and BodyDigest
    (section 4.4), the MD5 checksum of the bytes in hexadecimal. *)
Definition Md5Digest (b : list byte) : string := Md5.hex (Md5.Sum b).

Definition BodyDigest (body : list byte) : string := Md5Digest body.

(** Insertion sort of the attributes by name, in ascending byte order. *)
Fixpoint insertByName (kv : string * MessageAttributeValue)
    (l : list (string * MessageAttributeValue)) : list (string * MessageAttributeValue) :=
  match l with
  | [] => [kv]
  | kv' :: l' =>
      if String.leb (fst kv) (fst kv') then kv :: l else kv' :: insertByName kv l'
  end.

Definition sortByName (l : list (string * MessageAttributeValue))
  : list (string * MessageAttributeValue) :=
  fold_right insertByName [] l.

(** Modelled from the spec: AttributeDigest (section 4.4). For each
    attribute, sorted by name: name length, name, the transport-type
    byte, value length, value; the digest of the concatenation, and the
    empty string when there are no attributes. *)
Definition digestRecord (kv : string * MessageAttributeValue) : list byte :=
  let '(k, v) := kv in
  lengthPrefixed (list_byte_of_string k) ++ [transportType v] ++ lengthPrefixed (valueBytes v).

Definition AttributeDigest (attrs : attributes) : string :=
  match map_to_list attrs with
  | [] => EmptyString
  | kvs => Md5Digest (List.concat (List.map digestRecord (sortByName kvs)))
  end.

(** *** [ErrorMsg]

    The error message of the package; its source is at hand. *)

Definition errorMsgIdentifierKey : string := "b58c8bae78504da3a2e32cceeb77d342".

Definition referenceMsgIdentifierKey : string := "d3131a62e0224688b77a506fd333dac4".

(** Set once by [init]: an opening brace, a line feed, a tab, the key
    [identifier] in quotes, a colon, a space, the identifier key in
    quotes and a comma. *)
Definition jsonErrorMsgPrefix : string :=
  "{" +:+ Json.newline +:+ Json.tab +:+ Json.quote +:+ "identifier" +:+ Json.quote +:+ ": "
      +:+ Json.quote +:+ errorMsgIdentifierKey +:+ Json.quote +:+ ",".

Record ErrorMsg : Type := {
  Identifier : string;                        (* json:"identifier" *)
  Error : string;                             (* json:"error" *)
  ReferenceMsg : option types.ReferenceMsg;   (* json:"reference_msg" *)
}.

Section ErrorText.

(** [err.Error()], the text of an error value. *)
Variable ErrorText : error -> string.

(** [None] stands for the panic of [err.Error()] on a [nil] error. *)
Definition NewErrorMsg (err : option error) (refMsg : option types.ReferenceMsg)
  : option ErrorMsg :=
  match err with
  | None => None
  | Some e =>
      Some {| Identifier := errorMsgIdentifierKey;
              Error := ErrorText e;
              ReferenceMsg := refMsg |}
  end.

End ErrorText.

(** [json.MarshalIndent(msg, "", "\t")]: the reference message, when
    there is one, is an object one level deeper, and a [nil] pointer is
    encoded as [null]. Encoding strings has no error case. *)
Definition ToJson (msg : option ErrorMsg) : list byte * option error :=
  let line := Json.newline +:+ Json.tab in
  let deeper := line +:+ Json.tab in
  let text :=
    match msg with
    | None => "null"
    | Some msg =>
        "{" +:+ line
          +:+ Json.members ("," +:+ line) ": "
                [("identifier", Identifier msg); ("error", Error msg)]
          +:+ "," +:+ line +:+ Json.quote +:+ "reference_msg" +:+ Json.quote +:+ ": "
          +:+ match ReferenceMsg msg with
              | None => "null"
              | Some refMsg =>
                  "{" +:+ deeper
                    +:+ Json.members ("," +:+ deeper) ": " (types.ReferenceMsg_fields refMsg)
                    +:+ line +:+ "}"
              end
          +:+ Json.newline +:+ "}"
    end in
  (list_byte_of_string text, None).

Definition IsErrorMsg (msg : string) : bool :=
  Go.HasPrefix msg jsonErrorMsgPrefix.

End messages.

(** ** Package [hefty]: the SQS wrapper ([sqs.go]) *)

Module SqsClientWrapper.
(** The configuration of the wrapper; the clients it holds are reached
    through [call]. [Region] is [client.Options().Region]. *)
Record t : Type := { bucket : string; Region : string }.
End SqsClientWrapper.

Module SnsClientWrapper.
Record t : Type := { bucket : string; Region : string; alwaysSendToS3 : bool }.
End SnsClientWrapper.

Module hefty.

Import sqsTypes.

Definition MaxSqsMessageLengthBytes : Z := 262144.
Definition MaxHeftyMessageLengthBytes : Z := 26214400.
Definition heftyClientVersionMessageKey : string := "hefty-client-version".
Definition receiptHandlePrefix : string := "hefty-message".
Definition expectedReceiptHandleTokenCount : Z := 4.

(** Modelled from the spec: the inline threshold of the SNS wrapper,
    the constant [MaxAwsMessageLengthBytes], is 262 144 bytes
    (section 6). *)
Definition MaxAwsMessageLengthBytes : Z := 262144.

(** Modelled from the spec: the declaration of [referenceMsg]. The
    source names the fields [S3Region], [S3Bucket], [S3Key],
    [SqsMd5HashBody] and [SqsMd5HashMsgAttr]; the serialized form has
    the keys [identifier], [s3_region], [s3_bucket], [s3_key],
    [md5_digest_msg_body] and [md5_digest_msg_attr] in this order
    (section 6). *)
Record referenceMsg : Type := {
  Identifier : string;
  S3Region : string;
  S3Bucket : string;
  S3Key : string;
  SqsMd5HashBody : string;
  SqsMd5HashMsgAttr : string;
}.

Definition referenceMsg_fields (m : referenceMsg) : list (string * string) :=
  [("identifier", Identifier m); ("s3_region", S3Region m); ("s3_bucket", S3Bucket m);
   ("s3_key", S3Key m); ("md5_digest_msg_body", SqsMd5HashBody m);
   ("md5_digest_msg_attr", SqsMd5HashMsgAttr m)].

(** Modelled from the spec: the declaration of [largeSqsMsg], a body
    and an attribute mapping. *)
Record largeSqsMsg : Type := {
  Body : option string;
  MessageAttributes : attributes;
}.

(** Modelled from the spec: [largeSqsMsg.Serialize(size)] returns the
    payload of the PayloadCodec with the BodyDigest of the body and the
    AttributeDigest of the attributes (sections 4.3 and 4.4). *)
Definition Serialize (msg : largeSqsMsg) (size : Z) : list byte * string * string :=
  let '(serialized, _, _, _) :=
    messages.Serialize (messages.NewHeftyMessage (Body msg) (MessageAttributes msg) size) in
  (serialized,
   messages.BodyDigest (list_byte_of_string (Go.ToString (Body msg))),
   messages.AttributeDigest (MessageAttributes msg)).

(** *** [msgSize] *)

(** The body of the loop over [params.MessageAttributes], for the
    attributes in the order the iteration visits them. *)
Fixpoint msgSize_range (kvs : list (string * MessageAttributeValue)) (size : Z)
  : Z * option error :=
  match kvs with
  | [] => (size, None)
  | (k, v) :: rest =>
      let dataType := Go.ToString (DataType v) in
      let size := Go.int_add size (Go.len k) in
      let size := Go.int_add size (Go.len dataType) in
      if Go.HasPrefix dataType "String" || Go.HasPrefix dataType "Number" then
        msgSize_range rest (Go.int_add size (Go.len (Go.ToString (StringValue v))))
      else if Go.HasPrefix dataType "Binary" then
        msgSize_range rest (Go.int_add size (Go.len_bytes (BinaryValue v)))
      else
        (-1, Some (Errorf "encountered unexpected data type for message: %s"
                     [ArgString dataType]))
  end.

Definition msgSize (params : sqs.SendMessageInput) : prog (Z * option error) :=
  match sqs.MessageBody params with
  | None => Panic
  | Some body =>
      let size := Go.int_add 0 (Go.len body) in
      Ret (msgSize_range (map_to_list (sqs.MessageAttributes params)) size)
  end.

(** *** [newSqsReferenceMessage] *)

Definition newSqsReferenceMessage (queueUrl : option string)
    (bucketName region bodyHash attributesHash : string) : prog (ret referenceMsg) :=
  match queueUrl with
  | Some url =>
      let tokens := Go.Split url "/" in
      if negb (Z.of_nat (length tokens) =? 5) then
        Ret (None, Some (Errorf
               "expected 5 tokens when splitting queueUrl by '/' but only received %d"
               [ArgInt (Z.of_nat (length tokens))]))
      else
        uuid ← trigger UuidNewString;
        Ret (Some {| Identifier := EmptyString;
                     S3Region := region;
                     S3Bucket := bucketName;
                     S3Key := nth 4 tokens EmptyString +:+ "/" +:+ uuid;
                     SqsMd5HashBody := bodyHash;
                     SqsMd5HashMsgAttr := attributesHash |}, None)
  | None => Ret (None, Some (ErrorsNew "queueUrl is nil"))
  end.

(** *** [SendHeftyMessage] *)

Definition set_MessageBody (body : option string) (p : sqs.SendMessageInput)
  : sqs.SendMessageInput :=
  {| sqs.MessageBody := body;
     sqs.MessageAttributes := sqs.MessageAttributes p;
     sqs.QueueUrl := sqs.QueueUrl p |}.

Definition set_MessageAttributes (attrs : attributes) (p : sqs.SendMessageInput)
  : sqs.SendMessageInput :=
  {| sqs.MessageBody := sqs.MessageBody p;
     sqs.MessageAttributes := attrs;
     sqs.QueueUrl := sqs.QueueUrl p |}.

Definition set_MD5 (bodyHash attributesHash : string) (out : sqs.SendMessageOutput)
  : sqs.SendMessageOutput :=
  {| sqs.MD5OfMessageBody := Some bodyHash;
     sqs.MD5OfMessageAttributes := Some attributesHash;
     sqs.MessageId := sqs.MessageId out |}.

Definition heftyMarker : MessageAttributeValue :=
  {| DataType := Some "String"; StringValue := Some "v0.1"; BinaryValue := [] |}.

(** The SDK's [SendMessage] on [params], whose answer is returned as
    it is. *)
Definition SendMessage (params : option sqs.SendMessageInput)
  : prog (option sqs.SendMessageInput * ret sqs.SendMessageOutput) :=
  r ← trigger (SqsSendMessage params); Ret (params, r).

(** The result is the pair of the struct [params] points to when the
    call returns and of the values returned. *)
Definition SendHeftyMessage (client : SqsClientWrapper.t)
    (params : option sqs.SendMessageInput)
  : prog (option sqs.SendMessageInput * ret sqs.SendMessageOutput) :=
  match params with
  | None => SendMessage params
  | Some p =>
  match sqs.MessageBody p with
  | None => SendMessage params
  | Some body =>
  if Go.len body =? 0 then SendMessage params else
  (* calculate message size *)
  '(size, err) ← msgSize p;
  match err with
  | Some e => Ret (params, (None, Some (Errorf "unable to check message size. %v" [ArgError e])))
  | None =>
  (* validate message size *)
  if size <=? MaxSqsMessageLengthBytes then SendMessage params
  else if size >? MaxHeftyMessageLengthBytes then
    Ret (params, (None, Some (Errorf
           "message size of %d bytes greater than allowed message size of %d bytes"
           [ArgInt size; ArgInt MaxHeftyMessageLengthBytes])))
  else
  (* create and serialize large message *)
  let largeMsg := {| Body := sqs.MessageBody p;
                     MessageAttributes := sqs.MessageAttributes p |} in
  let '(serialized, bodyHash, attributesHash) := Serialize largeMsg size in
  (* create reference message *)
  '(refMsg, err) ← newSqsReferenceMessage (sqs.QueueUrl p) (SqsClientWrapper.bucket client)
                     (SqsClientWrapper.Region client) bodyHash attributesHash;
  match err with
  | Some e =>
      Ret (params, (None, Some (Errorf
             "unable to create reference message from queueUrl. %v" [ArgError e])))
  | None =>
  match refMsg with
  | None => Panic
  | Some refMsg =>
  (* upload large message to s3 *)
  err ← trigger (S3Upload (SqsClientWrapper.bucket client) (S3Key refMsg) serialized);
  match err with
  | Some e =>
      Ret (params, (None, Some (Errorf "unable to upload large message to s3. %v" [ArgError e])))
  | None =>
  (* replace incoming message body with reference message; encoding a
     struct of strings has no error *)
  let jsonRefMsg := Json.MarshalIndent (referenceMsg_fields refMsg) in
  let p := set_MessageBody (Some jsonRefMsg) p in
  (* overwrite message attributes (if any) with hefty message attributes *)
  let p := set_MessageAttributes (<[heftyClientVersionMessageKey := heftyMarker]> ∅) p in
  '(out, err) ← trigger (SqsSendMessage (Some p));
  match err with
  | Some e => Ret (Some p, (out, Some e))
  | None =>
  (* overwrite md5 values *)
  match out with
  | None => Panic
  | Some out => Ret (Some p, (Some (set_MD5 bodyHash attributesHash out), None))
  end end end end end end end end.

(** *** [ReceiveHeftyMessage] *)

(** The receipt handle of an offloaded message: the prefix, the queue's
    handle, the bucket and the key, separated by [|] and encoded in
    base64. *)
Definition newReceiptHandle (receiptHandle s3Bucket s3Key : string) : string :=
  Base64.EncodeToString (list_byte_of_string
    (receiptHandlePrefix +:+ "|" +:+ receiptHandle +:+ "|" +:+ s3Bucket +:+ "|" +:+ s3Key)).

Definition set_MessageAttributeNames (names : list string) (p : sqs.ReceiveMessageInput)
  : sqs.ReceiveMessageInput :=
  {| sqs.rQueueUrl := sqs.rQueueUrl p; sqs.MessageAttributeNames := names |}.

Definition set_ReceiptHandle (h : option string) (p : sqs.DeleteMessageInput)
  : sqs.DeleteMessageInput :=
  {| sqs.dQueueUrl := sqs.dQueueUrl p; sqs.ReceiptHandle := h |}.

Section Receive.

(** [json.Unmarshal(data, &refMsg)] on a zero [referenceMsg], and
    [largeSqsMsg.Deserialize] on a zero [largeSqsMsg]: the value
    after the call and the error returned. The receive flow holds
    for every decoder. *)
Variable Unmarshal : list byte -> referenceMsg * option error.
Variable Deserialize : list byte -> largeSqsMsg * option error.

(** What the body of the loop does to a message that carries the
    marker attribute. *)
Definition substitute (m : Message) : prog (Message + error) :=
  match sqsTypes.Body m with
  | None => Panic
  | Some body =>
  (* deserialize message body *)
  let '(refMsg, err) := Unmarshal (list_byte_of_string body) in
  match err with
  | Some e => Ret (inr (Errorf "unable to unmarshal reference message. %v" [ArgError e]))
  | None =>
  (* make call to s3 to get message *)
  '(buf, err) ← trigger (S3Download (S3Bucket refMsg) (S3Key refMsg));
  match err with
  | Some e => Ret (inr (Errorf "unable to get message from s3. %v" [ArgError e]))
  | None =>
  (* decode message from s3 *)
  let '(largeMsg, err) := Deserialize buf in
  match err with
  | Some e =>
      Ret (inr (Errorf "unable to decode bytes into large message type. %v" [ArgError e]))
  | None =>
  match sqsTypes.ReceiptHandle m with
  | None => Panic
  | Some receiptHandle =>
      Ret (inl {| (* replace message body and attributes with s3 message *)
                  sqsTypes.Body := Body largeMsg;
                  sqsTypes.MessageAttributes := MessageAttributes largeMsg;
                  (* replace md5 hashes *)
                  sqsTypes.MD5OfBody := Some (SqsMd5HashBody refMsg);
                  sqsTypes.MD5OfMessageAttributes := Some (SqsMd5HashMsgAttr refMsg);
                  (* modify receipt handle to contain s3 bucket and key info *)
                  sqsTypes.ReceiptHandle :=
                    Some (newReceiptHandle receiptHandle (S3Bucket refMsg) (S3Key refMsg));
                  sqsTypes.MessageId := sqsTypes.MessageId m |})
  end end end end end.

(** The loop over [out.Messages]: the messages after the loop, or the
    error it returned with. *)
Fixpoint receive_range (msgs : list Message) : prog (list Message + error) :=
  match msgs with
  | [] => Ret (inl [])
  | m :: rest =>
      match sqsTypes.MessageAttributes m !! heftyClientVersionMessageKey with
      | None =>
          r ← receive_range rest;
          Ret (match r with inl rest' => inl (m :: rest') | inr e => inr e end)
      | Some _ =>
          r ← substitute m;
          match r with
          | inr e => Ret (inr e)
          | inl m' =>
              r ← receive_range rest;
              Ret (match r with inl rest' => inl (m' :: rest') | inr e => inr e end)
          end
      end
  end.

Definition ReceiveHeftyMessage (client : SqsClientWrapper.t)
    (params : option sqs.ReceiveMessageInput)
  : prog (sqs.ReceiveMessageInput * ret sqs.ReceiveMessageOutput) :=
  match params with
  | None => Panic
  | Some p =>
  (* request hefty message attribute *)
  let p :=
    match sqs.MessageAttributeNames p with
    | [] => set_MessageAttributeNames [heftyClientVersionMessageKey] p
    | names => set_MessageAttributeNames (names ++ [heftyClientVersionMessageKey]) p
    end in
  '(out, err) ← trigger (SqsReceiveMessage p);
  match err with
  | Some e => Ret (p, (out, Some e))
  | None =>
  match out with
  | None => Panic
  | Some o =>
  if Z.of_nat (length (sqs.Messages o)) =? 0 then Ret (p, (out, None)) else
  r ← receive_range (sqs.Messages o);
  match r with
  | inr e => Ret (p, (None, Some e))
  | inl msgs => Ret (p, (Some {| sqs.Messages := msgs |}, None))
  end end end end.

End Receive.

(** *** [DeleteHeftyMessage] *)

Definition DeleteMessage (params : sqs.DeleteMessageInput)
  : prog (sqs.DeleteMessageInput * ret sqs.DeleteMessageOutput) :=
  r ← trigger (SqsDeleteMessage params); Ret (params, r).

Definition DeleteHeftyMessage (client : SqsClientWrapper.t)
    (params : option sqs.DeleteMessageInput)
  : prog (sqs.DeleteMessageInput * ret sqs.DeleteMessageOutput) :=
  match params with
  | None => Panic
  | Some p =>
  match sqs.ReceiptHandle p with
  | None => DeleteMessage p
  | Some handle =>
  (* decode receipt handle *)
  match Base64.DecodeString handle with
  | None =>
      Ret (p, (None, Some (Errorf "could not decode receipt handle. %v"
                             [ArgError CorruptInputError])))
  | Some decoded =>
  let decodedStr := string_of_list_byte decoded in
  (* check if decoded receipt handle is for a hefty message *)
  if negb (Go.HasPrefix decodedStr receiptHandlePrefix) then DeleteMessage p else
  (* get tokens from receipt handle *)
  let tokens := Go.Split decodedStr "|" in
  if negb (Z.of_nat (length tokens) =? expectedReceiptHandleTokenCount) then
    Ret (p, (None, Some (Errorf
               "expected number of tokens (%d) not available in receipt handle"
               [ArgInt expectedReceiptHandleTokenCount])))
  else
  (* delete hefty message from s3 *)
  let receiptHandle := nth 1 tokens EmptyString in
  let s3Bucket := nth 2 tokens EmptyString in
  let s3Key := nth 3 tokens EmptyString in
  err ← trigger (S3DeleteObject s3Bucket s3Key);
  match err with
  | Some e =>
      Ret (p, (None, Some (Errorf "could not delete s3 object for large message. %v"
                             [ArgError e])))
  | None =>
  (* replace receipt handle with real one to delete sqs message *)
  DeleteMessage (set_ReceiptHandle (Some receiptHandle) p)
  end end end end.

(** *** The SNS wrapper: [newSnsReferenceMessage] and [PublishHeftyMessage] *)

Definition expectedTokenCount : Z := 6.

Definition newSnsReferenceMessage (topicArn : option string)
    (bucketName region msgBodyHash msgAttrHash : string) : prog (ret types.ReferenceMsg) :=
  match topicArn with
  | Some arn =>
      let tokens := Go.Split arn ":" in
      if negb (Z.of_nat (length tokens) =? expectedTokenCount) then
        Ret (None, Some (Errorf
               "expected %d tokens when splitting topicArn by ':' but received %d"
               [ArgInt expectedTokenCount; ArgInt (Z.of_nat (length tokens))]))
      else
        uuid ← trigger UuidNewString;
        Ret (Some (types.NewReferenceMsg region bucketName
                     (nth 4 tokens EmptyString +:+ "/" +:+ uuid)
                     msgBodyHash msgAttrHash), None)
  | None => Ret (None, Some (ErrorsNew "topicArn is nil"))
  end.

Definition set_Message (m : option string) (p : sns.PublishInput) : sns.PublishInput :=
  {| sns.Message := m;
     sns.MessageAttributes := sns.MessageAttributes p;
     sns.TopicArn := sns.TopicArn p |}.

Definition set_snsMessageAttributes (attrs : attributes) (p : sns.PublishInput)
  : sns.PublishInput :=
  {| sns.Message := sns.Message p;
     sns.MessageAttributes := attrs;
     sns.TopicArn := sns.TopicArn p |}.

Definition Publish (params : option sns.PublishInput)
  : prog (option sns.PublishInput * ret sns.PublishOutput) :=
  r ← trigger (SnsPublish params); Ret (params, r).

Definition PublishHeftyMessage (wrapper : SnsClientWrapper.t)
    (params : option sns.PublishInput)
  : prog (option sns.PublishInput * ret sns.PublishOutput) :=
  match params with
  | None => Publish params
  | Some p =>
  match sns.Message p with
  | None => Publish params
  | Some message =>
  if Go.len message =? 0 then Publish params else
  (* normalize message attributes *)
  let msgAttributes := messages.MapFromSnsMessageAttributeValues (sns.MessageAttributes p) in
  (* calculate message size *)
  let '(msgSize, err) := messages.MessageSize (sns.Message p) msgAttributes in
  match err with
  | Some e => Ret (params, (None, Some (Errorf "unable to get size of message. %v" [ArgError e])))
  | None =>
  (* validate message size *)
  if negb (SnsClientWrapper.alwaysSendToS3 wrapper) && (msgSize <=? MaxAwsMessageLengthBytes)
  then Publish params
  else if msgSize >? MaxHeftyMessageLengthBytes then
    Ret (params, (None, Some (Errorf
           "message size of %d bytes greater than allowed message size of %d bytes"
           [ArgInt msgSize; ArgInt MaxHeftyMessageLengthBytes])))
  else
  let sqsRefMsg := {| types.sqsMessage := message |} in
  let jsonSQSRefMsgString := Json.Marshal (types.SQSMessage_fields sqsRefMsg) in
  let p := set_Message (Some jsonSQSRefMsgString) p in
  (* create and serialize hefty message *)
  let heftyMsg := messages.NewHeftyMessage (sns.Message p) msgAttributes msgSize in
  let '(serialized, bodyOffset, msgAttrOffset, err) := messages.Serialize heftyMsg in
  match err with
  | Some e => Ret (Some p, (None, Some (Errorf "unable to serialize message. %v" [ArgError e])))
  | None =>
  (* create md5 digests *)
  match Go.slice serialized bodyOffset msgAttrOffset,
        Go.slice serialized msgAttrOffset (Go.len_bytes serialized) with
  | Some bodySection, Some attrSection =>
  let msgBodyHash := messages.Md5Digest bodySection in
  let msgAttrHash :=
    if 0 <? Z.of_nat (size (messages.hMessageAttributes heftyMsg))
    then messages.Md5Digest attrSection
    else EmptyString in
  (* create reference message *)
  '(refMsg, err) ← newSnsReferenceMessage (sns.TopicArn p) (SnsClientWrapper.bucket wrapper)
                     (SnsClientWrapper.Region wrapper) msgBodyHash msgAttrHash;
  match err with
  | Some e =>
      Ret (Some p, (None, Some (Errorf
             "unable to create reference message from topicArn. %v" [ArgError e])))
  | None =>
  match refMsg with
  | None => Panic
  | Some refMsg =>
  (* upload hefty message to s3 *)
  err ← trigger (S3Upload (SnsClientWrapper.bucket wrapper) (types.S3Key refMsg) serialized);
  match err with
  | Some e =>
      Ret (Some p, (None, Some (Errorf "unable to upload hefty message to s3. %v" [ArgError e])))
  | None =>
  (* replace incoming message body with reference message *)
  let jsonRefMsg := Json.Marshal (types.ReferenceMsg_fields refMsg) in
  let snsRefMsg := {| types.snsMessage := jsonRefMsg |} in
  let jsonSNSRefMsg := Json.Marshal (types.SNSMessage_fields snsRefMsg) in
  (* correctly reformat JSON that has been serialised twice *)
  let refMsgStr := Go.ReplaceAll jsonSNSRefMsg Json.newline EmptyString in
  let refMsgStr :=
    Go.ReplaceAll refMsgStr (String Json.backslash Json.quote) Json.quote in
  let refMsgStr := Go.ReplaceAll refMsgStr "\\" "\" in
  let p := set_Message (Some refMsgStr) p in
  (* clear out all message attributes *)
  let orgMsgAttr := sns.MessageAttributes p in
  let p := set_snsMessageAttributes ∅ p in
  '(out, err) ← trigger (SnsPublish (Some p));
  (* the deferred function runs when the call returns *)
  let p := set_Message (messages.hBody heftyMsg) p in
  let p := set_snsMessageAttributes orgMsgAttr p in
  Ret (Some p, (out, err))
  end end end
  | _, _ => Panic
  end end end end end.

End hefty.

(** * Vocabulary of the properties

    The definitions below are not part of the program: they name what the
    properties speak about. *)

(** [contains s c]: the byte [c] occurs in [s]. *)
Fixpoint contains (s : string) (c : ascii) : bool :=
  match s with
  | EmptyString => false
  | String d s' => Ascii.eqb d c || contains s' c
  end.

Definition valid (s : string) : Prop := contains s "|" = false.

(** ** The size of a message, in the words of the specification *)

Module Spec.
Import sqsTypes.

(** The dataType starts with one of the tokens [String], [Number] and
    [Binary]. *)
Definition supported (v : MessageAttributeValue) : bool :=
  let dataType := Go.ToString (DataType v) in
  Go.HasPrefix dataType "String" || Go.HasPrefix dataType "Number"
    || Go.HasPrefix dataType "Binary".

(** The length of the value: of the string value under [String] and
    [Number], of the binary value under [Binary]. *)
Definition valueLength (v : MessageAttributeValue) : Z :=
  if messages.stringLike v then Go.len (Go.ToString (StringValue v))
  else Go.len_bytes (BinaryValue v).

(** Name, dataType and value of one attribute. *)
Definition attributeSize (kv : string * MessageAttributeValue) : Z :=
  Go.len (fst kv) + Go.len (Go.ToString (DataType (snd kv))) + valueLength (snd kv).

Definition attributesSize (kvs : list (string * MessageAttributeValue)) : Z :=
  fold_right (fun kv acc => attributeSize kv + acc) 0 kvs.

(** The size of a message: the body and all the attributes. *)
Definition size (body : string) (attrs : attributes) : Z :=
  Go.len body + attributesSize (map_to_list attrs).
End Spec.

Definition unexpectedDataType (v : MessageAttributeValue) : error :=
  Errorf "encountered unexpected data type for message: %s"
    [ArgString (Go.ToString (sqsTypes.DataType v))].

(** ** Runs *)

Definition trace {W R : Type} (x : option R * W * list event) : list event := x.2.
Definition result {W R : Type} (x : option R * W * list event) : option R := x.1.1.

(** ** The send of the SQS wrapper *)

(** Vocabulary for the send flow *)
Module Flow.

Definition tooLarge (size : Z) : error :=
  Errorf "message size of %d bytes greater than allowed message size of %d bytes"
    [ArgInt size; ArgInt hefty.MaxHeftyMessageLengthBytes].

(** The payload stored for the message of [p]. *)
Definition largeMsg (p : sqs.SendMessageInput) : hefty.largeSqsMsg :=
  {| hefty.Body := sqs.MessageBody p; hefty.MessageAttributes := sqs.MessageAttributes p |}.

Definition payload (p : sqs.SendMessageInput) (size : Z) : list byte :=
  (hefty.Serialize (largeMsg p) size).1.1.

Definition bodyHash (p : sqs.SendMessageInput) (size : Z) : string :=
  (hefty.Serialize (largeMsg p) size).1.2.

Definition attributesHash (p : sqs.SendMessageInput) (size : Z) : string :=
  (hefty.Serialize (largeMsg p) size).2.

(** The queue name is the fifth piece of a queue URL cut at its
    slashes. *)
Definition queueName (url : string) : string := nth 4 (Go.Split url "/") EmptyString.

(** The reference message of an offloaded send, for the token [uuid]. *)
Definition reference (client : SqsClientWrapper.t) (p : sqs.SendMessageInput) (size : Z)
    (url uuid : string) : hefty.referenceMsg :=
  {| hefty.Identifier := EmptyString;
     hefty.S3Region := SqsClientWrapper.Region client;
     hefty.S3Bucket := SqsClientWrapper.bucket client;
     hefty.S3Key := queueName url +:+ "/" +:+ uuid;
     hefty.SqsMd5HashBody := bodyHash p size;
     hefty.SqsMd5HashMsgAttr := attributesHash p size |}.

(** The queue message that carries a reference: its body is the
    reference in JSON and its only attribute is the marker. *)
Definition referenceInput (refMsg : hefty.referenceMsg) (p : sqs.SendMessageInput)
  : sqs.SendMessageInput :=
  {| sqs.MessageBody := Some (Json.MarshalIndent (hefty.referenceMsg_fields refMsg));
     sqs.MessageAttributes := <[hefty.heftyClientVersionMessageKey := hefty.heftyMarker]> ∅;
     sqs.QueueUrl := sqs.QueueUrl p |}.

(** The offload of the message of [p]: a token, the upload of the
    payload, the send of the reference. *)
Definition offload (client : SqsClientWrapper.t) (p : sqs.SendMessageInput) (size : Z)
    (url : string) : prog (option sqs.SendMessageInput * ret sqs.SendMessageOutput) :=
  uuid ← trigger UuidNewString;
  let refMsg := reference client p size url uuid in
  err ← trigger (S3Upload (SqsClientWrapper.bucket client) (hefty.S3Key refMsg) (payload p size));
  match err with
  | Some e =>
      Ret (Some p, (None, Some (Errorf "unable to upload large message to s3. %v" [ArgError e])))
  | None =>
      '(out, err) ← trigger (SqsSendMessage (Some (referenceInput refMsg p)));
      match err with
      | Some e => Ret (Some (referenceInput refMsg p), (out, Some e))
      | None =>
          match out with
          | None => Panic
          | Some out =>
              Ret (Some (referenceInput refMsg p),
                   (Some (hefty.set_MD5 (bodyHash p size) (attributesHash p size) out), None))
          end
      end
  end.

End Flow.

Definition uploadError (e : error) : error :=
  Errorf "unable to upload large message to s3. %v" [ArgError e].

(** What the send of the reference [q] returns for the answer [a] of
    the queue. *)
Definition sendOutcome (q : sqs.SendMessageInput) (bodyHash attributesHash : string)
    (a : ret sqs.SendMessageOutput)
  : option (option sqs.SendMessageInput * ret sqs.SendMessageOutput) :=
  match a with
  | (out, Some e) => Some (Some q, (out, Some e))
  | (Some out, None) => Some (Some q, (Some (hefty.set_MD5 bodyHash attributesHash out), None))
  | (None, None) => None
  end.

(** Every send to the queue in [tr] carries a reference to the payload of
    the message of [p], and the calls before it include the upload of
    that payload, answered without error. *)
Definition sendsOnlyReferences (client : SqsClientWrapper.t) (p : sqs.SendMessageInput)
    (size : Z) (tr : list event) : Prop :=
  forall (i : nat) q a, tr !! i = Some (EvSqsSendMessage q a) ->
    exists url uuid (j : nat),
      sqs.QueueUrl p = Some url /\
      q = Some (Flow.referenceInput (Flow.reference client p size url uuid) p) /\
      (j < i)%nat /\
      tr !! j = Some (EvS3Upload (SqsClientWrapper.bucket client)
                        (Flow.queueName url +:+ "/" +:+ uuid) (Flow.payload p size) None).

(** The upload of the payload is attempted. *)
Definition uploads (bucket : string) (payload : list byte) (tr : list event) : Prop :=
  exists key a, In (EvS3Upload bucket key payload a) tr.

(** The error [e'] returned is the error [e] of a collaborator, as it is
    or as the argument of the message that reports it. *)
Definition carries (e' e : error) : Prop :=
  e' = e \/ exists format, e' = Errorf format [ArgError e].

(** The outcome of a send hides no error and deletes no blob: every
    error a collaborator answered with is carried by the error returned,
    and no call is a blob delete. *)
Definition reports {W : Type}
    (x : option (option sqs.SendMessageInput * ret sqs.SendMessageOutput) * W * list event)
  : Prop :=
  (forall ev, In ev (trace x) -> is_blob_delete ev = false) /\
  (forall q out err, result x = Some (q, (out, err)) ->
     forall ev e, In ev (trace x) -> answered_error ev = Some e ->
       exists e', err = Some e' /\ carries e' e) /\
  (forall (i j : nat) bucket key payload q out e,
     trace x !! i = Some (EvS3Upload bucket key payload None) ->
     trace x !! j = Some (EvSqsSendMessage q (out, Some e)) ->
     result x = Some (q, (out, Some e))).

(** ** The publish of the SNS wrapper *)

Module SnsFlow.

(** The JSON object with the one key [Message] that wraps the message
    of the caller. *)
Definition envelope (message : string) : string :=
  Json.Marshal (types.SQSMessage_fields {| types.sqsMessage := message |}).

Definition heftyMsg (p : sns.PublishInput) (message : string) (size : Z)
  : messages.HeftyMessage :=
  messages.NewHeftyMessage (Some (envelope message))
    (messages.MapFromSnsMessageAttributeValues (sns.MessageAttributes p)) size.

Definition payload (p : sns.PublishInput) (message : string) (size : Z) : list byte :=
  (messages.Serialize (heftyMsg p message size)).1.1.1.

Definition attributeSection (p : sns.PublishInput) : list byte :=
  List.concat (List.map messages.attributeRecord (map_to_list (sns.MessageAttributes p))).

Definition msgBodyHash (message : string) : string :=
  messages.Md5Digest (list_byte_of_string (envelope message)).

Definition msgAttrHash (p : sns.PublishInput) : string :=
  if 0 <? Z.of_nat (size (sns.MessageAttributes p))
  then messages.Md5Digest (attributeSection p)
  else EmptyString.

Definition reference (wrapper : SnsClientWrapper.t) (p : sns.PublishInput)
    (message arn uuid : string) : types.ReferenceMsg :=
  types.NewReferenceMsg (SnsClientWrapper.Region wrapper) (SnsClientWrapper.bucket wrapper)
    (nth 4 (Go.Split arn ":") EmptyString +:+ "/" +:+ uuid)
    (msgBodyHash message) (msgAttrHash p).

(** The text published for a reference message. *)
Definition wire (refMsg : types.ReferenceMsg) : string :=
  let jsonRefMsg := Json.Marshal (types.ReferenceMsg_fields refMsg) in
  let jsonSNSRefMsg := Json.Marshal (types.SNSMessage_fields {| types.snsMessage := jsonRefMsg |}) in
  Go.ReplaceAll
    (Go.ReplaceAll (Go.ReplaceAll jsonSNSRefMsg Json.newline EmptyString)
       (String Json.backslash Json.quote) Json.quote)
    "\\" "\".

Definition published (refMsg : types.ReferenceMsg) (p : sns.PublishInput) : sns.PublishInput :=
  {| sns.Message := Some (wire refMsg);
     sns.MessageAttributes := ∅;
     sns.TopicArn := sns.TopicArn p |}.

(** The input of the caller once the message has been wrapped. *)
Definition wrapped (p : sns.PublishInput) (message : string) : sns.PublishInput :=
  {| sns.Message := Some (envelope message);
     sns.MessageAttributes := sns.MessageAttributes p;
     sns.TopicArn := sns.TopicArn p |}.

Definition offload (wrapper : SnsClientWrapper.t) (p : sns.PublishInput)
    (message : string) (size : Z) (arn : string)
  : prog (option sns.PublishInput * ret sns.PublishOutput) :=
  uuid ← trigger UuidNewString;
  let refMsg := reference wrapper p message arn uuid in
  err ← trigger (S3Upload (SnsClientWrapper.bucket wrapper) (types.S3Key refMsg)
                   (payload p message size));
  match err with
  | Some e =>
      Ret (Some (wrapped p message),
           (None, Some (Errorf "unable to upload hefty message to s3. %v" [ArgError e])))
  | None =>
      '(out, err) ← trigger (SnsPublish (Some (published refMsg p)));
      Ret (Some (wrapped p message), (out, err))
  end.

End SnsFlow.

Definition publishError (e : error) : error :=
  Errorf "unable to upload hefty message to s3. %v" [ArgError e].

(** The same for a publish of the SNS wrapper. *)
Definition publishesOnlyReferences (wrapper : SnsClientWrapper.t) (p : sns.PublishInput)
    (message : string) (size : Z) (tr : list event) : Prop :=
  forall (i : nat) q a, tr !! i = Some (EvSnsPublish q a) ->
    exists arn uuid (j : nat),
      sns.TopicArn p = Some arn /\
      q = Some (SnsFlow.published (SnsFlow.reference wrapper p message arn uuid) p) /\
      (j < i)%nat /\
      tr !! j = Some (EvS3Upload (SnsClientWrapper.bucket wrapper)
                        (types.S3Key (SnsFlow.reference wrapper p message arn uuid))
                        (SnsFlow.payload p message size) None).

(** ** Receive *)

(** The message handed to the receiver in place of the reference [m]. *)
Definition substituted (m : sqsTypes.Message) (refMsg : hefty.referenceMsg)
    (largeMsg : hefty.largeSqsMsg) (receiptHandle : string) : sqsTypes.Message :=
  {| sqsTypes.Body := hefty.Body largeMsg;
     sqsTypes.MessageAttributes := hefty.MessageAttributes largeMsg;
     sqsTypes.MD5OfBody := Some (hefty.SqsMd5HashBody refMsg);
     sqsTypes.MD5OfMessageAttributes := Some (hefty.SqsMd5HashMsgAttr refMsg);
     sqsTypes.ReceiptHandle :=
       Some (hefty.newReceiptHandle receiptHandle (hefty.S3Bucket refMsg) (hefty.S3Key refMsg));
     sqsTypes.MessageId := sqsTypes.MessageId m |}.

Definition marked (m : sqsTypes.Message) : bool :=
  bool_decide (is_Some (sqsTypes.MessageAttributes m !! hefty.heftyClientVersionMessageKey)).

(** The request that [ReceiveHeftyMessage] passes on: the marker
    attribute is asked for after the attributes the caller asks for. *)
Definition requested (p : sqs.ReceiveMessageInput) : sqs.ReceiveMessageInput :=
  hefty.set_MessageAttributeNames
    (sqs.MessageAttributeNames p ++ [hefty.heftyClientVersionMessageKey]) p.

Section Decoders.

Variable Unmarshal : list byte -> hefty.referenceMsg * option error.
Variable Deserialize : list byte -> hefty.largeSqsMsg * option error.


(** The receive once the request is settled. *)
Definition receiveFrom (q : sqs.ReceiveMessageInput)
  : prog (sqs.ReceiveMessageInput * ret sqs.ReceiveMessageOutput) :=
  '(out, err) ← trigger (SqsReceiveMessage q);
  match err with
  | Some e => Ret (q, (out, Some e))
  | None =>
      match out with
      | None => Panic
      | Some o =>
          if Z.of_nat (List.length (sqs.Messages o)) =? 0 then Ret (q, (out, None)) else
          r ← hefty.receive_range Unmarshal Deserialize (sqs.Messages o);
          match r with
          | inr e => Ret (q, (None, Some e))
          | inl msgs => Ret (q, (Some {| sqs.Messages := msgs |}, None))
          end
      end
  end.

End Decoders.

(** ** Delete *)

Module DeleteFlow.

(** The text under the base64 of the receipt handle of an offloaded
    message. *)
Definition wire (receiptHandle s3Bucket s3Key : string) : string :=
  hefty.receiptHandlePrefix +:+ "|" +:+ receiptHandle +:+ "|" +:+ s3Bucket +:+ "|" +:+ s3Key.

Definition undecodable : error :=
  Errorf "could not decode receipt handle. %v" [ArgError CorruptInputError].

Definition malformed : error :=
  Errorf "expected number of tokens (%d) not available in receipt handle"
    [ArgInt hefty.expectedReceiptHandleTokenCount].

Definition blobDeleteError (e : error) : error :=
  Errorf "could not delete s3 object for large message. %v" [ArgError e].

(** The delete of an offloaded message: the blob first, then the queue
    message under the handle of the queue. *)
Definition offloaded (p : sqs.DeleteMessageInput) (receiptHandle s3Bucket s3Key : string)
  : prog (sqs.DeleteMessageInput * ret sqs.DeleteMessageOutput) :=
  err ← trigger (S3DeleteObject s3Bucket s3Key);
  match err with
  | Some e => Ret (p, (None, Some (blobDeleteError e)))
  | None => hefty.DeleteMessage (hefty.set_ReceiptHandle (Some receiptHandle) p)
  end.

End DeleteFlow.

(** ** The claims that fail, as they are stated *)

(** C1, as the claim states it for the SNS wrapper: a message of a size
    up to the inline limit is published as it is. *)
Definition small_messages_are_published_inline : Prop :=
  forall (wrapper : SnsClientWrapper.t) (p : sns.PublishInput) (message : string) (size : Z),
    sns.Message p = Some message -> message <> EmptyString ->
    messages.MessageSize (Some message)
      (messages.MapFromSnsMessageAttributeValues (sns.MessageAttributes p)) = (size, None) ->
    size <= hefty.MaxAwsMessageLengthBytes ->
    hefty.PublishHeftyMessage wrapper (Some p) = hefty.Publish (Some p).


(** C5, as the claim states it for a handle that does not decode: the
    delete goes to the queue with the handle of the caller. *)
Definition undecodable_handles_go_to_the_queue : Prop :=
  forall (client : SqsClientWrapper.t) (p : sqs.DeleteMessageInput) (handle : string),
    sqs.ReceiptHandle p = Some handle ->
    Base64.DecodeString handle = None ->
    hefty.DeleteHeftyMessage client (Some p) = hefty.DeleteMessage p.

(** C6, as the claim states it for the message the SQS wrapper sends. *)
Definition sent_references_are_recognized : Prop :=
  forall (refMsg : hefty.referenceMsg) (p : sqs.SendMessageInput) (body : string),
    sqs.MessageBody (Flow.referenceInput refMsg p) = Some body ->
    types.IsReferenceMsg body = true.

(** ** An in-memory queue and blob store

    A concrete handler: the blob store is a map from bucket and key to
    the object, the queue keeps the messages sent, and three switches make
    the upload, the queue send and the blob delete fail. *)

Module Sample.

Record world : Type := {
  store : gmap (string * string) (list byte);
  queue : list sqs.SendMessageInput;
  published : list sns.PublishInput;
  delivery : list sqsTypes.Message;
  deleted : list string;
  upload_fails : bool;
  send_fails : bool;
  blob_delete_fails : bool;
}.

Definition set_store (st : gmap (string * string) (list byte)) (w : world) : world :=
  {| store := st; queue := queue w; published := published w; delivery := delivery w;
     deleted := deleted w; upload_fails := upload_fails w; send_fails := send_fails w;
     blob_delete_fails := blob_delete_fails w |}.

Definition set_queue (q : list sqs.SendMessageInput) (w : world) : world :=
  {| store := store w; queue := q; published := published w; delivery := delivery w;
     deleted := deleted w; upload_fails := upload_fails w; send_fails := send_fails w;
     blob_delete_fails := blob_delete_fails w |}.

Definition set_published (q : list sns.PublishInput) (w : world) : world :=
  {| store := store w; queue := queue w; published := q; delivery := delivery w;
     deleted := deleted w; upload_fails := upload_fails w; send_fails := send_fails w;
     blob_delete_fails := blob_delete_fails w |}.

Definition set_deleted (d : list string) (w : world) : world :=
  {| store := store w; queue := queue w; published := published w; delivery := delivery w;
     deleted := d; upload_fails := upload_fails w; send_fails := send_fails w;
     blob_delete_fails := blob_delete_fails w |}.

Definition sent : sqs.SendMessageOutput :=
  {| sqs.MD5OfMessageBody := Some "md5-of-the-queue-message";
     sqs.MD5OfMessageAttributes := Some "md5-of-the-queue-attributes";
     sqs.MessageId := Some "message-1" |}.

Definition respond : handler world :=
  fun A c =>
    match c in call A return world -> A * world with
    | SqsSendMessage p => fun w =>
        if send_fails w then ((None, Some (ClientError "queue send failed")), w)
        else match p with
             | Some p => ((Some sent, None), set_queue (queue w ++ [p]) w)
             | None => ((None, Some (ClientError "missing input")), w)
             end
    | SqsReceiveMessage _ => fun w =>
        ((Some {| sqs.Messages := delivery w |}, None), w)
    | SqsDeleteMessage p => fun w =>
        match sqs.ReceiptHandle p with
        | Some handle => ((Some sqs.Build_DeleteMessageOutput, None), set_deleted (deleted w ++ [handle]) w)
        | None => ((None, Some (ClientError "missing receipt handle")), w)
        end
    | SnsPublish p => fun w =>
        if send_fails w then ((None, Some (ClientError "publish failed")), w)
        else match p with
             | Some p => ((Some {| sns.MessageId := Some "message-1" |}, None),
                          set_published (published w ++ [p]) w)
             | None => ((None, Some (ClientError "missing input")), w)
             end
    | S3Upload bucket key body => fun w =>
        if upload_fails w then (Some (ClientError "upload failed"), w)
        else (None, set_store (<[(bucket, key) := body]> (store w)) w)
    | S3Download bucket key => fun w =>
        match store w !! (bucket, key) with
        | Some body => ((body, None), w)
        | None => (([], Some (ClientError "no such key")), w)
        end
    | S3DeleteObject bucket key => fun w =>
        if blob_delete_fails w then (Some (ClientError "blob delete failed"), w)
        else (None, set_store (delete (bucket, key) (store w)) w)
    | UuidNewString => fun w => ("123e4567-e89b-12d3-a456-426614174000", w)
    end.

Definition idle : world :=
  {| store := ∅; queue := []; published := []; delivery := []; deleted := [];
     upload_fails := false; send_fails := false; blob_delete_fails := false |}.

Definition client : SqsClientWrapper.t :=
  {| SqsClientWrapper.bucket := "bucketX"; SqsClientWrapper.Region := "us-west-2" |}.

Definition queueUrl : string :=
  "https://sqs.us-west-2.amazonaws.com/765908583888/MyTestQueue".

(** Scenario A: a body of 300 000 zero bytes and no attributes. *)
Definition zeros (n : nat) : string := string_of_list_byte (repeat "000"%byte n).

Definition scenarioA : sqs.SendMessageInput :=
  {| sqs.MessageBody := Some (zeros (Z.to_nat 300000));
     sqs.MessageAttributes := ∅;
     sqs.QueueUrl := Some queueUrl |}.

(** Scenario B: the body [hi] and one [String] attribute [k] of value [v]. *)
Definition scenarioB : sqs.SendMessageInput :=
  {| sqs.MessageBody := Some "hi";
     sqs.MessageAttributes :=
       <["k" := {| sqsTypes.DataType := Some "String";
                   sqsTypes.StringValue := Some "v";
                   sqsTypes.BinaryValue := [] |}]> ∅;
     sqs.QueueUrl := Some queueUrl |}.

(** An SNS wrapper with the override that sends every message to S3. *)
Definition wrapper : SnsClientWrapper.t :=
  {| SnsClientWrapper.bucket := "bucketX"; SnsClientWrapper.Region := "us-west-2";
     SnsClientWrapper.alwaysSendToS3 := true |}.

Definition topicArn : string := "arn:aws:sns:us-west-2:765908583888:MyTopic".

Definition notice : sns.PublishInput :=
  {| sns.Message := Some "hi"; sns.MessageAttributes := ∅; sns.TopicArn := Some topicArn |}.

(** The queue is down: the upload succeeds and the send fails. *)
Definition queue_down : world :=
  {| store := ∅; queue := []; published := []; delivery := [];
     deleted := []; upload_fails := false; send_fails := true;
     blob_delete_fails := false |}.

(** A message with an attribute of a dataType that is not supported. *)
Definition flag : MessageAttributeValue :=
  {| sqsTypes.DataType := Some "Bool"; sqsTypes.StringValue := Some "true";
     sqsTypes.BinaryValue := [] |}.

Definition scenarioU : sqs.SendMessageInput :=
  {| sqs.MessageBody := Some "hi";
     sqs.MessageAttributes := <["k" := flag]> ∅;
     sqs.QueueUrl := Some queueUrl |}.

(** A delivery of two messages: a reference with the marker and a plain
    message. *)
Definition reference : hefty.referenceMsg :=
  {| hefty.Identifier := EmptyString;
     hefty.S3Region := "us-west-2";
     hefty.S3Bucket := "bucketX";
     hefty.S3Key := "MyTestQueue/123e4567-e89b-12d3-a456-426614174000";
     hefty.SqsMd5HashBody := "0123456789abcdef0123456789abcdef";
     hefty.SqsMd5HashMsgAttr := EmptyString |}.

Definition referenceJson : string := Json.MarshalIndent (hefty.referenceMsg_fields reference).

Definition marker : sqsTypes.Message :=
  {| sqsTypes.Body := Some referenceJson;
     sqsTypes.MessageAttributes :=
       <[hefty.heftyClientVersionMessageKey := hefty.heftyMarker]> ∅;
     sqsTypes.MD5OfBody := Some "md5-of-the-reference";
     sqsTypes.MD5OfMessageAttributes := Some "md5-of-the-marker";
     sqsTypes.ReceiptHandle := Some "rh1";
     sqsTypes.MessageId := Some "message-1" |}.

Definition hello : sqsTypes.Message :=
  {| sqsTypes.Body := Some "hello";
     sqsTypes.MessageAttributes := ∅;
     sqsTypes.MD5OfBody := Some "5d41402abc4b2a76b9719d911017c592";
     sqsTypes.MD5OfMessageAttributes := None;
     sqsTypes.ReceiptHandle := Some "rh2";
     sqsTypes.MessageId := Some "message-2" |}.

Definition stocked : world :=
  {| store := <[("bucketX", hefty.S3Key reference) := list_byte_of_string "a large body"]> ∅;
     queue := []; published := []; delivery := [marker; hello];
     deleted := []; upload_fails := false; send_fails := false;
     blob_delete_fails := false |}.

(** Decoders for the delivery above: the one reference parses, and a
    payload is read as a body without attributes. *)
Definition Unmarshal (data : list byte) : hefty.referenceMsg * option error :=
  if String.eqb (string_of_list_byte data) referenceJson then (reference, None)
  else ({| hefty.Identifier := EmptyString; hefty.S3Region := EmptyString;
           hefty.S3Bucket := EmptyString; hefty.S3Key := EmptyString;
           hefty.SqsMd5HashBody := EmptyString; hefty.SqsMd5HashMsgAttr := EmptyString |},
        Some (JsonError "invalid character")).

Definition Deserialize (data : list byte) : hefty.largeSqsMsg * option error :=
  ({| hefty.Body := Some (string_of_list_byte data); hefty.MessageAttributes := ∅ |}, None).

Definition request : sqs.ReceiveMessageInput :=
  {| sqs.rQueueUrl := Some queueUrl; sqs.MessageAttributeNames := [] |}.

(** Delete requests: a handle that is not base64, a handle of the queue
    and a wrapped handle. *)
Definition plain : sqs.DeleteMessageInput :=
  {| sqs.dQueueUrl := Some queueUrl; sqs.ReceiptHandle := Some "rh1" |}.

Definition native : sqs.DeleteMessageInput :=
  {| sqs.dQueueUrl := Some queueUrl; sqs.ReceiptHandle := Some "AQEBwJnKyrHigUMZj6ry" |}.

Definition wrapped : sqs.DeleteMessageInput :=
  {| sqs.dQueueUrl := Some queueUrl;
     sqs.ReceiptHandle := Some (hefty.newReceiptHandle "rh1" "bucketX" "key/123") |}.

(** The body of scenario A and the reference of its send. *)
Definition bodyA : string := zeros (Z.to_nat 300000).

Definition referenceA : hefty.referenceMsg :=
  Flow.reference client scenarioA 300000 queueUrl
    "123e4567-e89b-12d3-a456-426614174000".

End Sample.

(** * Vocabulary of the further properties *)

(** ** Pieces of a text cut at a separator *)

(** The number of bytes of [s] that are [c]. *)
Fixpoint occurrences (s : string) (c : ascii) : nat :=
  match s with
  | EmptyString => O
  | String d s' => if Ascii.eqb d c then S (occurrences s' c) else occurrences s' c
  end.

(** The text after the last [c] of [s]; the whole of [s] when [c] does
    not occur. *)
Fixpoint afterLast (s : string) (c : ascii) : string :=
  match s with
  | EmptyString => EmptyString
  | String d s' => if contains s c then afterLast s' c else s
  end.

(** ** The calls of one send, publish or delete *)

(** The calls a send can make, in order: none; the native send alone;
    a UUID and an upload that fails; a UUID, an upload and the send. *)
Inductive sendCalls : list event -> Prop :=
| sc_none : sendCalls []
| sc_native q a : sendCalls [EvSqsSendMessage q a]
| sc_upload_failed uuid bucket key body e :
    sendCalls [EvUuidNewString uuid; EvS3Upload bucket key body (Some e)]
| sc_offloaded uuid bucket key body q a :
    sendCalls [EvUuidNewString uuid; EvS3Upload bucket key body None; EvSqsSendMessage q a].

Inductive publishCalls : list event -> Prop :=
| pc_none : publishCalls []
| pc_native q a : publishCalls [EvSnsPublish q a]
| pc_upload_failed uuid bucket key body e :
    publishCalls [EvUuidNewString uuid; EvS3Upload bucket key body (Some e)]
| pc_offloaded uuid bucket key body q a :
    publishCalls [EvUuidNewString uuid; EvS3Upload bucket key body None; EvSnsPublish q a].

(** A message the wrappers do not look into: no input, no body or an
    empty body. *)
Definition unsized (body : option (option string)) : Prop :=
  body = None \/ body = Some None \/ body = Some (Some EmptyString).

(** The calls a delete can make, in order: none; the queue delete
    alone; a blob delete that fails; a blob delete and the queue
    delete. *)
Inductive deleteCalls : list event -> Prop :=
| dc_none : deleteCalls []
| dc_native d a : deleteCalls [EvSqsDeleteMessage d a]
| dc_blob_failed bucket key e : deleteCalls [EvS3DeleteObject bucket key (Some e)]
| dc_both bucket key d a :
    deleteCalls [EvS3DeleteObject bucket key None; EvSqsDeleteMessage d a].

(** ** What a receive does to the messages of a delivery *)

Section Fetch.

Variable Unmarshal : list byte -> hefty.referenceMsg * option error.
Variable Deserialize : list byte -> hefty.largeSqsMsg * option error.

(** The download [ev] made for the message [m] with the marker, and
    the message [m'] handed over for it: the download goes to the bucket
    and key that the reference in the body of [m] names, and [m'] holds
    what the bytes downloaded decode to. *)
Definition fetched (m : sqsTypes.Message) (ev : event) (m' : sqsTypes.Message) : Prop :=
  exists body refMsg buf largeMsg receiptHandle,
    sqsTypes.Body m = Some body /\
    Unmarshal (list_byte_of_string body) = (refMsg, None) /\
    ev = EvS3Download (hefty.S3Bucket refMsg) (hefty.S3Key refMsg) (buf, None) /\
    Deserialize buf = (largeMsg, None) /\
    sqsTypes.ReceiptHandle m = Some receiptHandle /\
    m' = substituted m refMsg largeMsg receiptHandle.

(** [received msgs tr msgs']: the loop over the messages [msgs] makes
    the calls [tr] and leaves the messages [msgs']. *)
Inductive received : list sqsTypes.Message -> list event -> list sqsTypes.Message -> Prop :=
| received_nil : received [] [] []
| received_unmarked m rest tr rest' :
    marked m = false -> received rest tr rest' -> received (m :: rest) tr (m :: rest')
| received_marked m ev m' rest tr rest' :
    marked m = true -> fetched m ev m' -> received rest tr rest' ->
    received (m :: rest) (ev :: tr) (m' :: rest').

(** The message [m] with the marker cannot be fetched: its body is not
    a reference, the download fails, or the bytes downloaded do not
    decode. [tr] holds the calls made for it and [e] is the error the
    receive returns. *)
Definition failing (m : sqsTypes.Message) (tr : list event) (e : error) : Prop :=
  exists body,
    sqsTypes.Body m = Some body /\
    match Unmarshal (list_byte_of_string body) with
    | (_, Some e0) =>
        tr = [] /\ e = Errorf "unable to unmarshal reference message. %v" [ArgError e0]
    | (refMsg, None) =>
        exists a,
          tr = [EvS3Download (hefty.S3Bucket refMsg) (hefty.S3Key refMsg) a] /\
          match a with
          | (_, Some e0) => e = Errorf "unable to get message from s3. %v" [ArgError e0]
          | (buf, None) =>
              exists e0,
                (Deserialize buf).2 = Some e0 /\
                e = Errorf "unable to decode bytes into large message type. %v" [ArgError e0]
          end
    end.

(** A caller that polls [n] times with the same input struct. *)
Fixpoint poll (client : SqsClientWrapper.t) (n : nat) (p : sqs.ReceiveMessageInput)
  : prog sqs.ReceiveMessageInput :=
  match n with
  | O => Ret p
  | S n =>
      '(p', _) ← hefty.ReceiveHeftyMessage Unmarshal Deserialize client (Some p);
      poll client n p'
  end.

End Fetch.

(** The answer of the queue to a receive that the loop can work on: an
    error, or an output in which every message with the marker has a body
    and a receipt handle. *)
Definition wellFormed (a : ret sqs.ReceiveMessageOutput) : Prop :=
  match a with
  | (_, Some _) => True
  | (None, None) => False
  | (Some o, None) =>
      Forall (fun m => marked m = true ->
                       is_Some (sqsTypes.Body m) /\ is_Some (sqsTypes.ReceiptHandle m))
        (sqs.Messages o)
  end.

(** ** Texts that JSON leaves as they are *)

(** A byte that [encoding/json] copies into a string as it is: ASCII
    from the space on, but for the double quote, the backslash, [&], [<]
    and [>]. *)
Definition plainByte (c : ascii) : bool :=
  let n := Base64.char_val c in (n <? 128) && Json.htmlSafe n.

Fixpoint plain (s : string) : bool :=
  match s with
  | EmptyString => true
  | String c s' => plainByte c && plain s'
  end.

(** Plain bytes and double quotes. *)
Fixpoint mild (s : string) : bool :=
  match s with
  | EmptyString => true
  | String c s' => (plainByte c || Ascii.eqb c "034") && mild s'
  end.

(** A reference message whose six fields are plain. *)
Definition plainReference (refMsg : types.ReferenceMsg) : bool :=
  forallb plain (types.ReferenceMsg_fields refMsg).*2.

(** ** The size of a reference *)

(** The bytes of the six fields of a reference of the SQS wrapper. *)
Definition fieldsLength (refMsg : hefty.referenceMsg) : Z :=
  fold_right (fun kv acc => Go.len kv.2 + acc) 0 (hefty.referenceMsg_fields refMsg).

(** ** Further samples *)

(** The delivery of [Sample.stocked] when the blob is gone from the
    store. *)
Definition emptied : Sample.world := Sample.set_store ∅ Sample.stocked.

(** Collaborators that answer every call with neither a value nor an
    error. *)
Definition mute : handler unit :=
  fun A c =>
    match c in call A return unit -> A * unit with
    | SqsSendMessage _ => fun w => ((None, None), w)
    | SqsReceiveMessage _ => fun w => ((None, None), w)
    | SqsDeleteMessage _ => fun w => ((None, None), w)
    | SnsPublish _ => fun w => ((None, None), w)
    | S3Upload _ _ _ => fun w => (None, w)
    | S3Download _ _ => fun w => (([], None), w)
    | S3DeleteObject _ _ => fun w => (None, w)
    | UuidNewString => fun w => ("123e4567-e89b-12d3-a456-426614174000", w)
    end.

(** A reference as the SNS wrapper builds it in the region [us-west-2]
    for the bucket [bucketX] and the topic of [Sample.topicArn]. *)
Definition plainSample : types.ReferenceMsg :=
  types.NewReferenceMsg "us-west-2" "bucketX"
    "765908583888/123e4567-e89b-12d3-a456-426614174000"
    "c42ea23b564c97dfd543745a501eb0b4" EmptyString.

(** A message with a [Number] and a [Binary] attribute. *)
Definition tagged : sqs.SendMessageInput :=
  {| sqs.MessageBody := Some "hi";
     sqs.MessageAttributes :=
       <["a" := {| sqsTypes.DataType := Some "Number";
                   sqsTypes.StringValue := Some "12";
                   sqsTypes.BinaryValue := [] |}]>
       (<["b" := {| sqsTypes.DataType := Some "Binary";
                    sqsTypes.StringValue := None;
                    sqsTypes.BinaryValue := ["001"%byte; "002"%byte; "003"%byte] |}]> ∅);
     sqs.QueueUrl := Some Sample.queueUrl |}.

(** * Properties *)

(** ** Strings and integers *)

Lemma int_wrap_small z : - 2 ^ 63 <= z <= Go.MaxInt -> Go.int_wrap z = z.
Proof.
  unfold Go.int_wrap, Go.MaxInt. intros H.
  rewrite Z.mod_small; lia.
Qed.

Lemma int_wrap_add_l a b : Go.int_wrap (Go.int_wrap a + b) = Go.int_wrap (a + b).
Proof.
  unfold Go.int_wrap.
  replace ((a + 2 ^ 63) mod 2 ^ 64 - 2 ^ 63 + b + 2 ^ 63)
    with ((a + 2 ^ 63) mod 2 ^ 64 + b) by lia.
  rewrite Zplus_mod_idemp_l. f_equal. f_equal. lia.
Qed.

Lemma append_String c s t : String c s +:+ t = String c (s +:+ t).
Proof. reflexivity. Qed.

Lemma append_Empty t : EmptyString +:+ t = t.
Proof. reflexivity. Qed.

Ltac push_append := rewrite ?append_String, ?append_Empty.

Lemma len_nonneg s : 0 <= Go.len s.
Proof. unfold Go.len. lia. Qed.

Lemma len_app s t : Go.len (s +:+ t) = Go.len s + Go.len t.
Proof.
  unfold Go.len. induction s as [|c s IH]; push_append; cbn [String.length]; lia.
Qed.

Lemma append_assoc (s t u : string) : (s +:+ t) +:+ u = s +:+ (t +:+ u).
Proof. induction s as [|c s IH]; push_append; [reflexivity | now rewrite IH]. Qed.

Lemma HasPrefix_app p r : Go.HasPrefix (p +:+ r) p = true.
Proof.
  induction p as [|c p IH]; push_append; simpl; [reflexivity|].
  now rewrite Ascii.eqb_refl.
Qed.

(** [strings.HasPrefix(s, p)] holds exactly when [s] is [p] followed by
    some string. *)
Lemma HasPrefix_spec s p : Go.HasPrefix s p = true <-> exists r, s = p +:+ r.
Proof.
  split.
  - revert s. induction p as [|c p IH]; intros s H.
    + exists s. reflexivity.
    + destruct s as [|d s]; simpl in H; [discriminate|].
      destruct (Ascii.eqb d c) eqn:E; [|discriminate].
      apply Ascii.eqb_eq in E. subst d.
      destruct (IH _ H) as [r ->]. exists r. reflexivity.
  - intros [r ->]. apply HasPrefix_app.
Qed.

Lemma Split_without s sep : contains s sep = false -> Go.Split s sep = [s].
Proof.
  induction s as [|c s IH]; simpl; [reflexivity|].
  intros H. apply orb_false_iff in H as [H1 H2].
  rewrite H1, (IH H2). reflexivity.
Qed.

Lemma Split_cons s sep t :
  contains s sep = false ->
  Go.Split (s +:+ String sep t) sep = s :: Go.Split t sep.
Proof.
  induction s as [|c s IH]; push_append; simpl.
  - intros _. now rewrite Ascii.eqb_refl.
  - intros H. apply orb_false_iff in H as [H1 H2].
    rewrite H1, (IH H2). reflexivity.
Qed.

(** ** Base64: decoding undoes encoding *)

Lemma byte_val_range b : 0 <= Base64.byte_val b < 256.
Proof.
  unfold Base64.byte_val. pose proof (Byte.to_N_bounded b). lia.
Qed.

Lemma to_byte_val b : Base64.to_byte (Base64.byte_val b) = b.
Proof.
  unfold Base64.to_byte, Base64.chr, Base64.byte_val.
  rewrite N2Z.id, <- ascii_of_byte_via_N. apply byte_of_ascii_of_byte.
Qed.

Lemma char_val_chr z : 0 <= z < 256 -> Base64.char_val (Base64.chr z) = z.
Proof.
  intros H. unfold Base64.char_val, Base64.chr.
  rewrite N_ascii_embedding; lia.
Qed.

Lemma char_val_enc v :
  0 <= v < 64 ->
  let n := Base64.char_val (Base64.enc_char v) in
  (v < 26 /\ n = 65 + v) \/ (26 <= v < 52 /\ n = 71 + v) \/
  (52 <= v < 62 /\ n = v - 4) \/ (v = 62 /\ n = 43) \/ (v = 63 /\ n = 47).
Proof.
  intros H. cbv zeta. unfold Base64.enc_char.
  destruct (Z.ltb_spec v 26); [rewrite char_val_chr by lia; lia|].
  destruct (Z.ltb_spec v 52); [rewrite char_val_chr by lia; lia|].
  destruct (Z.ltb_spec v 62); [rewrite char_val_chr by lia; lia|].
  destruct (Z.eqb_spec v 62).
  - do 3 right. left. split; [lia | reflexivity].
  - do 4 right. split; [lia | reflexivity].
Qed.

Lemma dec_enc v : 0 <= v < 64 -> Base64.dec_char (Base64.enc_char v) = Some v.
Proof.
  intros H. pose proof (char_val_enc v H) as E. cbv zeta in E.
  unfold Base64.dec_char.
  destruct E as [[? ->]|[[? ->]|[[? ->]|[[? ->]|[? ->]]]]];
    repeat match goal with
      | |- context [?a <=? ?b] => destruct (Z.leb_spec a b); try lia
      | |- context [?a =? ?b] => destruct (Z.eqb_spec a b); try lia
      end; simpl; f_equal; lia.
Qed.

Lemma enc_char_plain v c :
  0 <= v < 64 -> Base64.char_val c < 43 \/ Base64.char_val c = 61 ->
  Ascii.eqb (Base64.enc_char v) c = false.
Proof.
  intros H Hc. apply Ascii.eqb_neq. intros <-.
  pose proof (char_val_enc v H) as E. cbv zeta in E. lia.
Qed.

Lemma digit_range val i : 0 <= (val / 64 ^ (3 - i)) mod 64 < 64.
Proof. apply Z.mod_pos_bound. lia. Qed.

Lemma dec_digit val i :
  Base64.dec_char (Base64.digit val i) = Some ((val / 64 ^ (3 - i)) mod 64).
Proof. apply dec_enc, digit_range. Qed.

Lemma digit_not_pad val i : Ascii.eqb (Base64.digit val i) Base64.pad = false.
Proof. apply enc_char_plain; [apply digit_range | right; reflexivity]. Qed.

Lemma digit_not_newline val i :
  Ascii.eqb (Base64.digit val i) "010"%char || Ascii.eqb (Base64.digit val i) "013"%char
  = false.
Proof.
  unfold Base64.digit.
  rewrite !enc_char_plain; [reflexivity | apply digit_range | left; reflexivity
                           | apply digit_range | left; reflexivity].
Qed.

(** Induction over a list taken three elements at a time. *)
Lemma list_ind3 {A : Type} (P : list A -> Prop) :
  P [] -> (forall a, P [a]) -> (forall a b, P [a; b]) ->
  (forall a b c rest, P rest -> P (a :: b :: c :: rest)) ->
  forall l, P l.
Proof.
  intros H0 H1 H2 H3 l.
  assert (G : forall n l, (List.length l <= n)%nat -> P l).
  { induction n as [|n IH]; intros l' Hl.
    - destruct l'; [exact H0 | simpl in Hl; lia].
    - destruct l' as [|a [|b [|c rest]]]; auto.
      apply H3, IH. simpl in Hl. lia. }
  apply (G (List.length l)). lia.
Qed.

Lemma strip_newlines_encode src :
  Base64.strip_newlines (Base64.EncodeToString src) = Base64.EncodeToString src.
Proof.
  induction src as [|a|a b|a b c rest IH] using list_ind3;
    cbn [Base64.EncodeToString Base64.strip_newlines].
  - reflexivity.
  - rewrite !digit_not_newline. reflexivity.
  - rewrite !digit_not_newline. reflexivity.
  - rewrite !digit_not_newline, IH. reflexivity.
Qed.

Lemma group_digits a b c :
  0 <= a < 256 -> 0 <= b < 256 -> 0 <= c < 256 ->
  let val := a * 65536 + b * 256 + c in
  let q := Base64.quantum ((val / 64 ^ (3 - 0)) mod 64) ((val / 64 ^ (3 - 1)) mod 64)
             ((val / 64 ^ (3 - 2)) mod 64) ((val / 64 ^ (3 - 3)) mod 64) in
  q = val.
Proof.
  intros Ha Hb Hc val q. subst q. unfold Base64.quantum.
  change (64 ^ (3 - 0)) with 262144. change (64 ^ (3 - 1)) with 4096.
  change (64 ^ (3 - 2)) with 64. change (64 ^ (3 - 3)) with 1.
  assert (0 <= val < 16777216) by (subst val; lia).
  clearbody val. Z.div_mod_to_equations. lia.
Qed.

Lemma out_bytes a b c :
  0 <= a < 256 -> 0 <= b < 256 -> 0 <= c < 256 ->
  let val := a * 65536 + b * 256 + c in
  (val / 2 ^ 16) mod 256 = a /\ (val / 2 ^ 8) mod 256 = b /\ (val / 2 ^ 0) mod 256 = c.
Proof.
  intros Ha Hb Hc val. subst val.
  change (2 ^ 16) with 65536. change (2 ^ 8) with 256. change (2 ^ 0) with 1.
  Z.div_mod_to_equations. lia.
Qed.

Lemma one_byte a :
  0 <= a < 256 ->
  let val := a * 65536 in
  (Base64.quantum ((val / 64 ^ (3 - 0)) mod 64) ((val / 64 ^ (3 - 1)) mod 64) 0 0 / 2 ^ 16)
    mod 256 = a.
Proof.
  intros Ha val. subst val. unfold Base64.quantum.
  change (64 ^ (3 - 0)) with 262144. change (64 ^ (3 - 1)) with 4096.
  change (2 ^ 16) with 65536.
  Z.div_mod_to_equations. lia.
Qed.

Lemma two_bytes a b :
  0 <= a < 256 -> 0 <= b < 256 ->
  let val := a * 65536 + b * 256 in
  let q := Base64.quantum ((val / 64 ^ (3 - 0)) mod 64) ((val / 64 ^ (3 - 1)) mod 64)
             ((val / 64 ^ (3 - 2)) mod 64) 0 in
  (q / 2 ^ 16) mod 256 = a /\ (q / 2 ^ 8) mod 256 = b.
Proof.
  intros Ha Hb val q. subst q val. unfold Base64.quantum.
  change (64 ^ (3 - 0)) with 262144. change (64 ^ (3 - 1)) with 4096.
  change (64 ^ (3 - 2)) with 64.
  change (2 ^ 16) with 65536. change (2 ^ 8) with 256.
  Z.div_mod_to_equations. lia.
Qed.

Lemma decode_quanta_encode src :
  Base64.decode_quanta (Base64.EncodeToString src) = Some src.
Proof.
  induction src as [|a|a b|a b c rest IH] using list_ind3;
    cbn [Base64.EncodeToString Base64.decode_quanta].
  - reflexivity.
  - rewrite !dec_digit, Ascii.eqb_refl. unfold Base64.out_byte.
    rewrite (one_byte _ (byte_val_range a)), to_byte_val. reflexivity.
  - rewrite !dec_digit, digit_not_pad, Ascii.eqb_refl. unfold Base64.out_byte.
    destruct (two_bytes _ _ (byte_val_range a) (byte_val_range b)) as [-> ->].
    rewrite !to_byte_val. reflexivity.
  - rewrite !dec_digit, !digit_not_pad, IH. unfold Base64.out_byte.
    pose proof (group_digits _ _ _ (byte_val_range a) (byte_val_range b) (byte_val_range c)) as G.
    cbv zeta in G. rewrite G.
    destruct (out_bytes _ _ _ (byte_val_range a) (byte_val_range b) (byte_val_range c))
      as (-> & -> & ->).
    rewrite !to_byte_val. reflexivity.
Qed.

Lemma DecodeString_EncodeToString src :
  Base64.DecodeString (Base64.EncodeToString src) = Some src.
Proof.
  unfold Base64.DecodeString. rewrite strip_newlines_encode. apply decode_quanta_encode.
Qed.

Lemma attributeSize_nonneg kv : 0 <= Spec.attributeSize kv.
Proof.
  unfold Spec.attributeSize, Spec.valueLength, Go.len, Go.len_bytes.
  destruct (messages.stringLike (snd kv)); lia.
Qed.

Lemma attributesSize_cons kv kvs :
  Spec.attributesSize (kv :: kvs) = Spec.attributeSize kv + Spec.attributesSize kvs.
Proof. reflexivity. Qed.

Lemma attributesSize_nonneg kvs : 0 <= Spec.attributesSize kvs.
Proof.
  induction kvs as [|kv kvs IH]; [simpl; lia|].
  rewrite attributesSize_cons. pose proof (attributeSize_nonneg kv). lia.
Qed.

(** The loop adds the sizes of the attributes it visits to the size it
    starts from, whatever the order of the visit. *)
Lemma msgSize_range_supported kvs s :
  forallb Spec.supported kvs.*2 = true ->
  hefty.msgSize_range kvs (Go.int_wrap s) = (Go.int_wrap (s + Spec.attributesSize kvs), None).
Proof.
  revert s. induction kvs as [|[k v] kvs IH]; intros s H.
  - simpl. now rewrite Z.add_0_r.
  - cbn [fmap list_fmap forallb snd] in H. apply andb_true_iff in H as [Hv H].
    cbn [hefty.msgSize_range]. rewrite attributesSize_cons.
    unfold Spec.attributeSize, Spec.valueLength, messages.stringLike, Go.int_add.
    cbn [fst snd]. unfold Spec.supported in Hv.
    rewrite (int_wrap_add_l s), (int_wrap_add_l (s + Go.len k)).
    destruct (Go.HasPrefix _ "String" || Go.HasPrefix _ "Number") eqn:E.
    + rewrite int_wrap_add_l, (IH _ H). do 2 f_equal. lia.
    + cbn [orb] in Hv. rewrite Hv.
      rewrite int_wrap_add_l, (IH _ H). do 2 f_equal. lia.
Qed.

Lemma msgSize_range_unsupported kvs s :
  forallb Spec.supported kvs.*2 = false ->
  exists v, In v kvs.*2 /\ Spec.supported v = false /\
    hefty.msgSize_range kvs s = (-1, Some (unexpectedDataType v)).
Proof.
  revert s. induction kvs as [|[k v] kvs IH]; intros s H; [discriminate|].
  cbn [fmap list_fmap forallb snd] in H.
  cbn [hefty.msgSize_range].
  destruct (Spec.supported v) eqn:Hv.
  - simpl in H. destruct (IH (Go.int_add (Go.int_add (Go.int_add s (Go.len k))
      (Go.len (Go.ToString (sqsTypes.DataType v))))
      (if Go.HasPrefix (Go.ToString (sqsTypes.DataType v)) "String"
          || Go.HasPrefix (Go.ToString (sqsTypes.DataType v)) "Number"
       then Go.len (Go.ToString (sqsTypes.StringValue v))
       else Go.len_bytes (sqsTypes.BinaryValue v))) H) as (v' & Hin & Hs & E).
    exists v'. split; [right; exact Hin|]. split; [exact Hs|].
    unfold Spec.supported in Hv.
    destruct (Go.HasPrefix _ "String" || Go.HasPrefix _ "Number") eqn:E1.
    + exact E.
    + cbn [orb] in Hv. rewrite Hv. exact E.
  - exists v. split; [left; reflexivity|]. split; [exact Hv|].
    unfold Spec.supported in Hv.
    apply orb_false_iff in Hv as [Hv1 Hv2]. rewrite Hv1, Hv2. reflexivity.
Qed.

(** C3. The computed size is the length of the body plus, for each
    attribute, the lengths of its name, its dataType and its value, the
    string value under [String] and [Number] and the binary value under
    [Binary]; an attribute whose dataType starts with none of the three
    tokens makes the calculation fail with the error that names the
    dataType. The body [hi] with the attribute [k], [String], [v] has
    size 2+1+6+1. *)
Theorem msgSize_is_sum_of_lengths (params : sqs.SendMessageInput) (body : string) :
  sqs.MessageBody params = Some body ->
  let attrs := sqs.MessageAttributes params in
  (forallb Spec.supported (map_to_list attrs).*2 = true ->
     hefty.msgSize params = Ret (Go.int_wrap (Spec.size body attrs), None) /\
     (Spec.size body attrs <= Go.MaxInt -> Go.int_wrap (Spec.size body attrs) = Spec.size body attrs)) /\
  (forallb Spec.supported (map_to_list attrs).*2 = false ->
     exists k v, attrs !! k = Some v /\ Spec.supported v = false /\
       hefty.msgSize params = Ret (-1, Some (unexpectedDataType v))) /\
  hefty.msgSize Sample.scenarioB = Ret (2 + 1 + 6 + 1, None).
Proof.
  intros Hbody attrs. unfold hefty.msgSize. rewrite Hbody. fold attrs.
  split; [|split].
  - intros H. split.
    + unfold Go.int_add. rewrite Z.add_0_l.
      rewrite (msgSize_range_supported _ _ H). reflexivity.
    + intros Hmax. apply int_wrap_small. unfold Spec.size in *.
      pose proof (len_nonneg body). pose proof (attributesSize_nonneg (map_to_list attrs)).
      lia.
  - intros H.
    destruct (msgSize_range_unsupported _ (Go.int_add 0 (Go.len body)) H) as (v & Hin & Hv & E).
    apply list_elem_of_In, list_elem_of_fmap in Hin as [[k v'] [-> Hin]].
    exists k, v'. split; [now apply elem_of_map_to_list|]. split; [exact Hv|].
    now rewrite E.
  - vm_compute. reflexivity.
Qed.

Lemma len_nonempty (s : string) : s <> EmptyString -> (Go.len s =? 0) = false.
Proof.
  intros H. apply Z.eqb_neq. unfold Go.len. destruct s; [congruence|].
  cbn [String.length]. lia.
Qed.

Section SendFlow.

Variables (client : SqsClientWrapper.t) (p : sqs.SendMessageInput) (body : string) (size : Z).
Hypothesis Hbody : sqs.MessageBody p = Some body.
Hypothesis Hnonempty : body <> EmptyString.
Hypothesis Hsize : hefty.msgSize p = Ret (size, None).

Lemma send_inline :
  size <= hefty.MaxSqsMessageLengthBytes ->
  hefty.SendHeftyMessage client (Some p) = hefty.SendMessage (Some p).
Proof.
  intros H. unfold hefty.SendHeftyMessage.
  rewrite Hbody, (len_nonempty body Hnonempty), Hsize. cbn [mbind prog_bind bind].
  apply Z.leb_le in H. now rewrite H.
Qed.

Lemma send_reject :
  size > hefty.MaxHeftyMessageLengthBytes ->
  hefty.SendHeftyMessage client (Some p) = Ret (Some p, (None, Some (Flow.tooLarge size))).
Proof.
  intros H. unfold hefty.SendHeftyMessage.
  rewrite Hbody, (len_nonempty body Hnonempty), Hsize. cbn [mbind prog_bind bind].
  assert (H1 : (size <=? hefty.MaxSqsMessageLengthBytes) = false)
    by (apply Z.leb_gt; unfold hefty.MaxSqsMessageLengthBytes, hefty.MaxHeftyMessageLengthBytes in *; lia).
  assert (H2 : (size >? hefty.MaxHeftyMessageLengthBytes) = true)
    by (apply Z.gtb_gt; lia).
  now rewrite H1, H2.
Qed.

Hypothesis Hbetween :
  hefty.MaxSqsMessageLengthBytes < size <= hefty.MaxHeftyMessageLengthBytes.

Lemma between_tests :
  (size <=? hefty.MaxSqsMessageLengthBytes) = false /\
  (size >? hefty.MaxHeftyMessageLengthBytes) = false.
Proof.
  split; [apply Z.leb_gt; lia|].
  rewrite Z.gtb_ltb. apply Z.ltb_ge. lia.
Qed.

Lemma send_offload url :
  sqs.QueueUrl p = Some url -> List.length (Go.Split url "/") = 5%nat ->
  hefty.SendHeftyMessage client (Some p) = Flow.offload client p size url.
Proof.
  intros Hurl Htokens. unfold hefty.SendHeftyMessage.
  rewrite Hbody, (len_nonempty body Hnonempty), Hsize. cbn [mbind prog_bind bind].
  destruct between_tests as [-> ->].
  rewrite <- Hbody. fold (Flow.largeMsg p).
  unfold Flow.offload, Flow.reference, Flow.payload, Flow.bodyHash, Flow.attributesHash.
  destruct (hefty.Serialize (Flow.largeMsg p) size) as [[serialized bodyHash] attributesHash].
  unfold hefty.newSqsReferenceMessage. rewrite Hurl, Htokens.
  reflexivity.
Qed.

Lemma send_no_reference :
  (sqs.QueueUrl p = None \/
   exists url, sqs.QueueUrl p = Some url /\ List.length (Go.Split url "/") <> 5%nat) ->
  exists e,
    hefty.SendHeftyMessage client (Some p) =
      Ret (Some p, (None, Some (Errorf "unable to create reference message from queueUrl. %v"
                                  [ArgError e]))).
Proof.
  intros H. unfold hefty.SendHeftyMessage.
  rewrite Hbody, (len_nonempty body Hnonempty), Hsize. cbn [mbind prog_bind bind].
  destruct between_tests as [-> ->].
  destruct (hefty.Serialize _ size) as [[serialized bodyHash] attributesHash].
  unfold hefty.newSqsReferenceMessage.
  destruct H as [-> | (url & -> & Hn)].
  - eexists. reflexivity.
  - assert (E : (Z.of_nat (List.length (Go.Split url "/")) =? 5) = false)
      by (apply Z.eqb_neq; lia).
    rewrite E. eexists. reflexivity.
Qed.

End SendFlow.

Lemma len_bytes_app (a b : list byte) : Go.len_bytes (a ++ b) = Go.len_bytes a + Go.len_bytes b.
Proof. unfold Go.len_bytes. rewrite length_app. lia. Qed.

Lemma slice_body (body attrs : list byte) :
  Go.slice (body ++ attrs) 0 (Go.len_bytes body) = Some body.
Proof.
  unfold Go.slice. rewrite len_bytes_app.
  assert (0 <= Go.len_bytes body) by (unfold Go.len_bytes; lia).
  assert (0 <= Go.len_bytes attrs) by (unfold Go.len_bytes; lia).
  replace ((0 <=? 0) && (0 <=? Go.len_bytes body)
           && (Go.len_bytes body <=? Go.len_bytes body + Go.len_bytes attrs)) with true
    by (symmetry; rewrite !andb_true_iff, !Z.leb_le; lia).
  f_equal. rewrite Z.sub_0_r. unfold Go.len_bytes. rewrite Nat2Z.id.
  change (Z.to_nat 0) with 0%nat. rewrite skipn_O. apply take_app_length.
Qed.

Lemma slice_attrs (body attrs : list byte) :
  Go.slice (body ++ attrs) (Go.len_bytes body) (Go.len_bytes (body ++ attrs)) = Some attrs.
Proof.
  unfold Go.slice. rewrite len_bytes_app.
  assert (0 <= Go.len_bytes body) by (unfold Go.len_bytes; lia).
  assert (0 <= Go.len_bytes attrs) by (unfold Go.len_bytes; lia).
  replace ((0 <=? Go.len_bytes body)
           && (Go.len_bytes body <=? Go.len_bytes body + Go.len_bytes attrs)
           && (Go.len_bytes body + Go.len_bytes attrs <=? Go.len_bytes body + Go.len_bytes attrs))
    with true by (symmetry; rewrite !andb_true_iff, !Z.leb_le; lia).
  f_equal. replace (Go.len_bytes body + Go.len_bytes attrs - Go.len_bytes body)
    with (Go.len_bytes attrs) by lia.
  unfold Go.len_bytes. rewrite !Nat2Z.id, drop_app_length. apply firstn_all.
Qed.

Section PublishFlow.

Variables (wrapper : SnsClientWrapper.t) (p : sns.PublishInput) (message : string) (size : Z).
Hypothesis Hmessage : sns.Message p = Some message.
Hypothesis Hnonempty : message <> EmptyString.
Hypothesis Hsize :
  messages.MessageSize (Some message)
    (messages.MapFromSnsMessageAttributeValues (sns.MessageAttributes p)) = (size, None).

Lemma publish_inline :
  SnsClientWrapper.alwaysSendToS3 wrapper = false ->
  size <= hefty.MaxAwsMessageLengthBytes ->
  hefty.PublishHeftyMessage wrapper (Some p) = hefty.Publish (Some p).
Proof.
  intros Hflag H. unfold hefty.PublishHeftyMessage.
  rewrite Hmessage, (len_nonempty message Hnonempty), Hsize, Hflag.
  apply Z.leb_le in H. now rewrite H.
Qed.

Lemma publish_reject :
  size > hefty.MaxHeftyMessageLengthBytes ->
  hefty.PublishHeftyMessage wrapper (Some p) = Ret (Some p, (None, Some (Flow.tooLarge size))).
Proof.
  intros H. unfold hefty.PublishHeftyMessage.
  rewrite Hmessage, (len_nonempty message Hnonempty), Hsize.
  assert (H1 : (size <=? hefty.MaxAwsMessageLengthBytes) = false)
    by (apply Z.leb_gt; unfold hefty.MaxAwsMessageLengthBytes, hefty.MaxHeftyMessageLengthBytes in *; lia).
  assert (H2 : (size >? hefty.MaxHeftyMessageLengthBytes) = true)
    by (apply Z.gtb_gt; lia).
  now rewrite H1, H2, andb_false_r.
Qed.

Hypothesis Hoffload :
  SnsClientWrapper.alwaysSendToS3 wrapper = true \/ hefty.MaxAwsMessageLengthBytes < size.
Hypothesis Hmax : size <= hefty.MaxHeftyMessageLengthBytes.

Lemma offload_tests :
  negb (SnsClientWrapper.alwaysSendToS3 wrapper) && (size <=? hefty.MaxAwsMessageLengthBytes)
    = false /\
  (size >? hefty.MaxHeftyMessageLengthBytes) = false.
Proof.
  split.
  - destruct Hoffload as [-> | H]; [reflexivity|].
    apply andb_false_iff. right. apply Z.leb_gt. exact H.
  - rewrite Z.gtb_ltb. apply Z.ltb_ge. lia.
Qed.

Lemma publish_offload arn :
  sns.TopicArn p = Some arn -> List.length (Go.Split arn ":") = 6%nat ->
  hefty.PublishHeftyMessage wrapper (Some p) = SnsFlow.offload wrapper p message size arn.
Proof.
  intros Harn Htokens. unfold hefty.PublishHeftyMessage.
  rewrite Hmessage, (len_nonempty message Hnonempty), Hsize.
  destruct offload_tests as [-> ->].
  unfold messages.Serialize. cbn [messages.hBody messages.NewHeftyMessage sns.Message hefty.set_Message
                                    messages.hMessageAttributes Go.ToString].
  rewrite slice_body, slice_attrs.
  unfold hefty.newSnsReferenceMessage. cbn [sns.TopicArn hefty.set_Message].
  rewrite Harn, Htokens.
  reflexivity.
Qed.

End PublishFlow.

Ltac run_step h :=
  cbn [run mbind prog_bind bind trigger Event];
  match goal with
  | |- context [h ?A ?c ?w] =>
      let a := fresh "a" in let w' := fresh "w" in let E := fresh "E" in
      destruct (h A c w) as [a w'] eqn:E
  end.

Section OffloadRun.

Context {W : Type} (h : handler W).
Variables (client : SqsClientWrapper.t) (p : sqs.SendMessageInput) (size : Z) (url : string).

Lemma run_offload (w : W) :
  exists uuid w1 aup w2,
    h _ UuidNewString w = (uuid, w1) /\
    let refMsg := Flow.reference client p size url uuid in
    let bucket := SqsClientWrapper.bucket client in
    let key := hefty.S3Key refMsg in
    let q := Flow.referenceInput refMsg p in
    h _ (S3Upload bucket key (Flow.payload p size)) w1 = (aup, w2) /\
    match aup with
    | Some e =>
        run h (Flow.offload client p size url) w =
          (Some (Some p, (None, Some (uploadError e))), w2,
           [EvUuidNewString uuid; EvS3Upload bucket key (Flow.payload p size) (Some e)])
    | None =>
        exists a w3,
          h _ (SqsSendMessage (Some q)) w2 = (a, w3) /\
          run h (Flow.offload client p size url) w =
            (sendOutcome q (Flow.bodyHash p size) (Flow.attributesHash p size) a, w3,
             [EvUuidNewString uuid; EvS3Upload bucket key (Flow.payload p size) None;
              EvSqsSendMessage (Some q) a])
    end.
Proof.
  unfold Flow.offload.
  run_step h. run_step h.
  exists a, w0, a0, w1. split; [reflexivity|]. split; [first [exact E0 | reflexivity]|].
  destruct a0 as [e|].
  - reflexivity.
  - run_step h. exists a0, w2. split; [first [exact E1 | reflexivity]|].
    destruct a0 as [[out|] [e|]]; reflexivity.
Qed.

End OffloadRun.

(** A call at an unknown position of a short trace is one of its
    calls. *)
Ltac index_trace i :=
  cbn [trace snd] in *;
  repeat (destruct i as [|i]; simplify_eq/=).

Section Sqs.

Context {W : Type} (h : handler W).
Variables (client : SqsClientWrapper.t) (p : sqs.SendMessageInput) (size : Z).

Lemma offload_sends_only_references url w :
  sqs.QueueUrl p = Some url ->
  sendsOnlyReferences client p size (trace (run h (Flow.offload client p size url) w)) /\
  uploads (SqsClientWrapper.bucket client) (Flow.payload p size)
    (trace (run h (Flow.offload client p size url) w)).
Proof.
  intros Hurl.
  destruct (run_offload h client p size url w) as (uuid & w1 & aup & w2 & _ & _ & H).
  cbv zeta in H. destruct aup as [e|].
  - rewrite H. split.
    + intros i q a E. index_trace i.
    + eexists _, _. cbn [trace snd]. right; left. reflexivity.
  - destruct H as (a & w3 & _ & H). rewrite H. split.
    + intros i q a' E. index_trace i.
      exists url, uuid, 1%nat. split; [exact Hurl|]. split; [reflexivity|].
      split; [lia | reflexivity].
    + eexists _, _. cbn [trace snd]. right; left. reflexivity.
Qed.

Lemma nothing_sent (r : option sqs.SendMessageInput * ret sqs.SendMessageOutput) w :
  sendsOnlyReferences client p size (trace (run h (Ret r) w)).
Proof. intros i q a E. index_trace i. Qed.

End Sqs.

Section Sns.

Context {W : Type} (h : handler W).
Variables (wrapper : SnsClientWrapper.t) (p : sns.PublishInput) (message : string) (size : Z).

Lemma run_publish_offload arn (w : W) :
  exists uuid w1 aup w2,
    h _ UuidNewString w = (uuid, w1) /\
    let refMsg := SnsFlow.reference wrapper p message arn uuid in
    let bucket := SnsClientWrapper.bucket wrapper in
    let key := types.S3Key refMsg in
    let payload := SnsFlow.payload p message size in
    h _ (S3Upload bucket key payload) w1 = (aup, w2) /\
    match aup with
    | Some e =>
        run h (SnsFlow.offload wrapper p message size arn) w =
          (Some (Some (SnsFlow.wrapped p message), (None, Some (publishError e))), w2,
           [EvUuidNewString uuid; EvS3Upload bucket key payload (Some e)])
    | None =>
        exists a w3,
          h _ (SnsPublish (Some (SnsFlow.published refMsg p))) w2 = (a, w3) /\
          run h (SnsFlow.offload wrapper p message size arn) w =
            (Some (Some (SnsFlow.wrapped p message), a), w3,
             [EvUuidNewString uuid; EvS3Upload bucket key payload None;
              EvSnsPublish (Some (SnsFlow.published refMsg p)) a])
    end.
Proof.
  unfold SnsFlow.offload.
  run_step h. run_step h.
  exists a, w0, a0, w1. split; [reflexivity|]. split; [first [exact E0 | reflexivity]|].
  destruct a0 as [e|].
  - reflexivity.
  - run_step h. exists a0, w2. split; [first [exact E1 | reflexivity]|].
    destruct a0 as [out err]. reflexivity.
Qed.

Lemma offload_publishes_only_references arn w :
  sns.TopicArn p = Some arn ->
  publishesOnlyReferences wrapper p message size
    (trace (run h (SnsFlow.offload wrapper p message size arn) w)) /\
  uploads (SnsClientWrapper.bucket wrapper) (SnsFlow.payload p message size)
    (trace (run h (SnsFlow.offload wrapper p message size arn) w)).
Proof.
  intros Harn.
  destruct (run_publish_offload arn w) as (uuid & w1 & aup & w2 & _ & _ & H).
  cbv zeta in H. destruct aup as [e|].
  - rewrite H. split.
    + intros i q a E. index_trace i.
    + eexists _, _. cbn [trace snd]. right; left. reflexivity.
  - destruct H as (a & w3 & _ & H). rewrite H. split.
    + intros i q a' E. index_trace i.
      exists arn, uuid, 1%nat. split; [exact Harn|]. split; [reflexivity|].
      split; [lia | reflexivity].
    + eexists _, _. cbn [trace snd]. right; left. reflexivity.
Qed.

Lemma nothing_published (r : option sns.PublishInput * ret sns.PublishOutput) w :
  publishesOnlyReferences wrapper p message size (trace (run h (Ret r) w)).
Proof. intros i q a E. index_trace i. Qed.

End Sns.

Section PublishNoReference.

Variables (wrapper : SnsClientWrapper.t) (p : sns.PublishInput) (message : string) (size : Z).
Hypothesis Hmessage : sns.Message p = Some message.
Hypothesis Hnonempty : message <> EmptyString.
Hypothesis Hsize :
  messages.MessageSize (Some message)
    (messages.MapFromSnsMessageAttributeValues (sns.MessageAttributes p)) = (size, None).
Hypothesis Hoffload :
  SnsClientWrapper.alwaysSendToS3 wrapper = true \/ hefty.MaxAwsMessageLengthBytes < size.
Hypothesis Hmax : size <= hefty.MaxHeftyMessageLengthBytes.

Lemma publish_no_reference :
  (sns.TopicArn p = None \/
   exists arn, sns.TopicArn p = Some arn /\ List.length (Go.Split arn ":") <> 6%nat) ->
  exists e,
    hefty.PublishHeftyMessage wrapper (Some p) =
      Ret (Some (SnsFlow.wrapped p message),
           (None, Some (Errorf "unable to create reference message from topicArn. %v"
                          [ArgError e]))).
Proof.
  intros H. unfold hefty.PublishHeftyMessage.
  rewrite Hmessage, (len_nonempty message Hnonempty), Hsize.
  destruct (offload_tests wrapper size Hoffload Hmax) as [-> ->].
  unfold messages.Serialize.
  cbn [messages.hBody messages.NewHeftyMessage sns.Message hefty.set_Message
       messages.hMessageAttributes Go.ToString].
  rewrite slice_body, slice_attrs.
  unfold hefty.newSnsReferenceMessage. cbn [sns.TopicArn hefty.set_Message].
  destruct H as [-> | (arn & -> & Hn)].
  - eexists. reflexivity.
  - assert (E : (Z.of_nat (List.length (Go.Split arn ":")) =? hefty.expectedTokenCount) = false)
      by (apply Z.eqb_neq; unfold hefty.expectedTokenCount; lia).
    rewrite E. eexists. reflexivity.
Qed.

End PublishNoReference.

(** C1, counterexample. With the override set, the SNS wrapper offloads
    the message [hi], of size 2: it uploads a payload and publishes a
    reference. *)
Lemma override_offloads_small_message :
  messages.MessageSize (Some "hi") ∅ = (2, None) /\
  map is_blob_put
    (trace (run Sample.respond (hefty.PublishHeftyMessage Sample.wrapper (Some Sample.notice))
              Sample.idle)) = [false; true; false] /\
  ~ small_messages_are_published_inline.
Proof.
  split; [vm_compute; reflexivity|]. split; [vm_compute; reflexivity|].
  intros H.
  specialize (H Sample.wrapper Sample.notice "hi" 2 eq_refl ltac:(discriminate)
                ltac:(vm_compute; reflexivity) ltac:(vm_compute; discriminate)).
  apply (f_equal (fun prog => List.length (trace (run Sample.respond prog Sample.idle)))) in H.
  vm_compute in H. discriminate.
Qed.

(** C1, amended. A message with a body whose size has been computed is
    sent inline through the native send when the size is at most the
    inline limit of 262144 bytes and, for the SNS wrapper, the override
    that sends every message to S3 is not set; the send fails with the
    error for a message too large, and nothing is sent, when the size
    exceeds the ceiling of 26214400 bytes; in every other case the message
    is offloaded: whatever reaches the queue or the topic is a reference to
    the payload, uploaded before, and the upload is attempted whenever the
    destination parses. *)
Theorem threshold_law :
  hefty.MaxSqsMessageLengthBytes = 262144 /\ hefty.MaxHeftyMessageLengthBytes = 26214400 /\
  (forall (client : SqsClientWrapper.t) (p : sqs.SendMessageInput) (body : string) (size : Z),
     sqs.MessageBody p = Some body -> body <> EmptyString ->
     hefty.msgSize p = Ret (size, None) ->
     (size <= hefty.MaxSqsMessageLengthBytes ->
        hefty.SendHeftyMessage client (Some p) = hefty.SendMessage (Some p)) /\
     (size > hefty.MaxHeftyMessageLengthBytes ->
        hefty.SendHeftyMessage client (Some p) = Ret (Some p, (None, Some (Flow.tooLarge size)))) /\
     (hefty.MaxSqsMessageLengthBytes < size <= hefty.MaxHeftyMessageLengthBytes ->
        forall (W : Type) (h : handler W) (w : W),
          let tr := trace (run h (hefty.SendHeftyMessage client (Some p)) w) in
          sendsOnlyReferences client p size tr /\
          (forall url, sqs.QueueUrl p = Some url -> List.length (Go.Split url "/") = 5%nat ->
             uploads (SqsClientWrapper.bucket client) (Flow.payload p size) tr))) /\
  (forall (wrapper : SnsClientWrapper.t) (p : sns.PublishInput) (message : string) (size : Z),
     sns.Message p = Some message -> message <> EmptyString ->
     messages.MessageSize (Some message)
       (messages.MapFromSnsMessageAttributeValues (sns.MessageAttributes p)) = (size, None) ->
     (SnsClientWrapper.alwaysSendToS3 wrapper = false ->
      size <= hefty.MaxAwsMessageLengthBytes ->
        hefty.PublishHeftyMessage wrapper (Some p) = hefty.Publish (Some p)) /\
     (size > hefty.MaxHeftyMessageLengthBytes ->
        hefty.PublishHeftyMessage wrapper (Some p) = Ret (Some p, (None, Some (Flow.tooLarge size)))) /\
     (SnsClientWrapper.alwaysSendToS3 wrapper = true \/ hefty.MaxAwsMessageLengthBytes < size ->
      size <= hefty.MaxHeftyMessageLengthBytes ->
        forall (W : Type) (h : handler W) (w : W),
          let tr := trace (run h (hefty.PublishHeftyMessage wrapper (Some p)) w) in
          publishesOnlyReferences wrapper p message size tr /\
          (forall arn, sns.TopicArn p = Some arn -> List.length (Go.Split arn ":") = 6%nat ->
             uploads (SnsClientWrapper.bucket wrapper) (SnsFlow.payload p message size) tr))).
Proof.
  split; [reflexivity|]. split; [reflexivity|]. split.
  - intros client p body size Hbody Hne Hsize. split; [|split].
    + apply (send_inline client p body size Hbody Hne Hsize).
    + apply (send_reject client p body size Hbody Hne Hsize).
    + intros Hb W h w tr. subst tr.
      destruct (sqs.QueueUrl p) as [url|] eqn:Hurl.
      * destruct (decide (List.length (Go.Split url "/") = 5%nat)) as [Hn|Hn].
        -- rewrite (send_offload client p body size Hbody Hne Hsize Hb url Hurl Hn).
           destruct (offload_sends_only_references h client p size url w Hurl) as [H1 H2].
           split; [exact H1|]. intros url' E _. now simplify_eq.
        -- destruct (send_no_reference client p body size Hbody Hne Hsize Hb) as [e ->].
           { right. exists url. split; [exact Hurl | exact Hn]. }
           split; [apply nothing_sent|]. intros url' E Hn'. now simplify_eq.
      * destruct (send_no_reference client p body size Hbody Hne Hsize Hb) as [e ->].
        { left. exact Hurl. }
        split; [apply nothing_sent|]. intros url' E. discriminate E.
  - intros wrapper p message size Hm Hne Hsize. split; [|split].
    + apply (publish_inline wrapper p message size Hm Hne Hsize).
    + apply (publish_reject wrapper p message size Hm Hne Hsize).
    + intros Ho Hmax W h w tr. subst tr.
      destruct (sns.TopicArn p) as [arn|] eqn:Harn.
      * destruct (decide (List.length (Go.Split arn ":") = 6%nat)) as [Hn|Hn].
        -- rewrite (publish_offload wrapper p message size Hm Hne Hsize Ho Hmax arn Harn Hn).
           destruct (offload_publishes_only_references h wrapper p message size arn w Harn)
             as [H1 H2].
           split; [exact H1|]. intros arn' E _. now simplify_eq.
        -- destruct (publish_no_reference wrapper p message size Hm Hne Hsize Ho Hmax) as [e ->].
           { right. exists arn. split; [exact Harn | exact Hn]. }
           split; [apply nothing_published|]. intros arn' E Hn'. now simplify_eq.
      * destruct (publish_no_reference wrapper p message size Hm Hne Hsize Ho Hmax) as [e ->].
        { left. exact Harn. }
        split; [apply nothing_published|]. intros arn' E. discriminate E.
Qed.

Lemma run_bind {W A B : Type} (h : handler W) (m : prog A) (f : A -> prog B) (w : W) :
  run h (bind m f) w =
    let '(r, w1, tr1) := run h m w in
    match r with
    | None => (None, w1, tr1)
    | Some x => let '(r2, w2, tr2) := run h (f x) w1 in (r2, w2, tr1 ++ tr2)
    end.
Proof.
  revert w. induction m as [x| |A' c k IH]; intros w; cbn [bind run].
  - destruct (run h (f x) w) as [[r2 w2] tr2]. reflexivity.
  - reflexivity.
  - destruct (h A' c w) as [a w1]. rewrite IH.
    destruct (run h (k a) w1) as [[[x|] w2] tr1]; [|reflexivity].
    destruct (run h (f x) w2) as [[r2 w3] tr2]. reflexivity.
Qed.

Section Receive.

Variable Unmarshal : list byte -> hefty.referenceMsg * option error.
Variable Deserialize : list byte -> hefty.largeSqsMsg * option error.
Context {W : Type} (h : handler W).

(** A message with the marker: one download, from the place the
    reference names, and the substitution of what it holds. *)
Lemma run_substitute (m : sqsTypes.Message) (w w' : W) (m' : sqsTypes.Message + error)
    (tr : list event) :
  run h (hefty.substitute Unmarshal Deserialize m) w = (Some m', w', tr) ->
  exists body,
    sqsTypes.Body m = Some body /\
    match Unmarshal (list_byte_of_string body) with
    | (_, Some e) =>
        tr = [] /\
        m' = inr (Errorf "unable to unmarshal reference message. %v" [ArgError e])
    | (refMsg, None) =>
        exists a, tr = [EvS3Download (hefty.S3Bucket refMsg) (hefty.S3Key refMsg) a] /\
          match a with
          | (_, Some e) => m' = inr (Errorf "unable to get message from s3. %v" [ArgError e])
          | (buf, None) =>
              match Deserialize buf with
              | (_, Some e) =>
                  m' = inr (Errorf "unable to decode bytes into large message type. %v"
                              [ArgError e])
              | (largeMsg, None) =>
                  exists receiptHandle,
                    sqsTypes.ReceiptHandle m = Some receiptHandle /\
                    m' = inl (substituted m refMsg largeMsg receiptHandle)
              end
          end
    end.
Proof.
  unfold hefty.substitute. intros H.
  destruct (sqsTypes.Body m) as [body|]; [|discriminate].
  exists body. split; [reflexivity|].
  destruct (Unmarshal (list_byte_of_string body)) as [refMsg [e|]].
  - cbn [run] in H. simplify_eq. split; reflexivity.
  - cbn [run mbind prog_bind bind trigger Event] in H.
    destruct (h _ (S3Download (hefty.S3Bucket refMsg) (hefty.S3Key refMsg)) w)
      as [[buf [e|]] w1].
    + cbn [run] in H. simplify_eq. eexists. split; reflexivity.
    + destruct (Deserialize buf) as [largeMsg [e|]] eqn:D.
      * cbn [run] in H. simplify_eq. eexists. split; [reflexivity|].
        cbn beta iota. rewrite D. reflexivity.
      * destruct (sqsTypes.ReceiptHandle m) as [rh|]; cbn [run] in H; [|discriminate].
        simplify_eq. eexists. split; [reflexivity|].
        cbn beta iota. rewrite D. exists rh. split; reflexivity.
Qed.

Lemma marked_lookup (m : sqsTypes.Message) :
  marked m = match sqsTypes.MessageAttributes m !! hefty.heftyClientVersionMessageKey with
             | Some _ => true
             | None => false
             end.
Proof.
  unfold marked. destruct (_ !! _) as [v|].
  - apply bool_decide_eq_true. eauto.
  - apply bool_decide_eq_false. intros [v Hv]. discriminate.
Qed.


End Receive.

Section Delete.

Variables (client : SqsClientWrapper.t) (p : sqs.DeleteMessageInput).

Lemma delete_without_handle :
  sqs.ReceiptHandle p = None ->
  hefty.DeleteHeftyMessage client (Some p) = hefty.DeleteMessage p.
Proof. intros H. unfold hefty.DeleteHeftyMessage. now rewrite H. Qed.

Variable handle : string.
Hypothesis Hhandle : sqs.ReceiptHandle p = Some handle.

Lemma delete_undecodable :
  Base64.DecodeString handle = None ->
  hefty.DeleteHeftyMessage client (Some p) = Ret (p, (None, Some DeleteFlow.undecodable)).
Proof. intros H. unfold hefty.DeleteHeftyMessage. now rewrite Hhandle, H. Qed.

Variable decoded : list byte.
Hypothesis Hdecoded : Base64.DecodeString handle = Some decoded.

Lemma delete_native :
  Go.HasPrefix (string_of_list_byte decoded) hefty.receiptHandlePrefix = false ->
  hefty.DeleteHeftyMessage client (Some p) = hefty.DeleteMessage p.
Proof.
  intros H. unfold hefty.DeleteHeftyMessage. now rewrite Hhandle, Hdecoded, H.
Qed.

Hypothesis Hprefix :
  Go.HasPrefix (string_of_list_byte decoded) hefty.receiptHandlePrefix = true.

Lemma delete_malformed :
  List.length (Go.Split (string_of_list_byte decoded) "|") <> 4%nat ->
  hefty.DeleteHeftyMessage client (Some p) = Ret (p, (None, Some DeleteFlow.malformed)).
Proof.
  intros H. unfold hefty.DeleteHeftyMessage. rewrite Hhandle, Hdecoded, Hprefix.
  cbn [negb].
  assert (E : (Z.of_nat (List.length (Go.Split (string_of_list_byte decoded) "|"))
               =? hefty.expectedReceiptHandleTokenCount) = false)
    by (apply Z.eqb_neq; unfold hefty.expectedReceiptHandleTokenCount; lia).
  now rewrite E.
Qed.

Lemma delete_offloaded t0 receiptHandle s3Bucket s3Key :
  Go.Split (string_of_list_byte decoded) "|" = [t0; receiptHandle; s3Bucket; s3Key] ->
  hefty.DeleteHeftyMessage client (Some p) =
    DeleteFlow.offloaded p receiptHandle s3Bucket s3Key.
Proof.
  intros H. unfold hefty.DeleteHeftyMessage. rewrite Hhandle, Hdecoded, Hprefix, H.
  reflexivity.
Qed.

End Delete.

Lemma wire_decodes receiptHandle s3Bucket s3Key :
  Base64.DecodeString (hefty.newReceiptHandle receiptHandle s3Bucket s3Key) =
    Some (list_byte_of_string (DeleteFlow.wire receiptHandle s3Bucket s3Key)).
Proof. unfold hefty.newReceiptHandle. apply DecodeString_EncodeToString. Qed.

Lemma wire_has_prefix receiptHandle s3Bucket s3Key :
  Go.HasPrefix (DeleteFlow.wire receiptHandle s3Bucket s3Key) hefty.receiptHandlePrefix = true.
Proof. apply HasPrefix_app. Qed.

Lemma Split_at_separator s sep t :
  contains s sep = false ->
  Go.Split (s +:+ String sep EmptyString +:+ t) sep = s :: Go.Split t sep.
Proof. apply Split_cons. Qed.

Lemma wire_tokens receiptHandle s3Bucket s3Key :
  contains receiptHandle "|" = false -> contains s3Bucket "|" = false ->
  contains s3Key "|" = false ->
  Go.Split (DeleteFlow.wire receiptHandle s3Bucket s3Key) "|" =
    [hefty.receiptHandlePrefix; receiptHandle; s3Bucket; s3Key].
Proof.
  intros H1 H2 H3. unfold DeleteFlow.wire.
  rewrite !Split_at_separator by (assumption || reflexivity).
  now rewrite Split_without.
Qed.

(** C4. The receipt handle of an offloaded message is the base64 of the
    four tokens marker, queue handle, bucket and key separated by [|],
    which decoding gives back; for a queue handle, a bucket and a key
    without [|], the delete of the wrapped handle finds the marker and
    exactly these three values, deletes the blob at the bucket and key and
    the queue message under the queue handle; a decoded handle with the
    marker that does not split into 4 tokens makes the delete fail with
    the error for a malformed handle, and nothing is called. *)
Theorem receipt_handle_round_trip :
  (forall receiptHandle s3Bucket s3Key,
     Base64.DecodeString (hefty.newReceiptHandle receiptHandle s3Bucket s3Key) =
       Some (list_byte_of_string (DeleteFlow.wire receiptHandle s3Bucket s3Key))) /\
  (forall receiptHandle s3Bucket s3Key,
     valid receiptHandle -> valid s3Bucket -> valid s3Key ->
     Go.HasPrefix (DeleteFlow.wire receiptHandle s3Bucket s3Key) hefty.receiptHandlePrefix = true /\
     Go.Split (DeleteFlow.wire receiptHandle s3Bucket s3Key) "|" =
       [hefty.receiptHandlePrefix; receiptHandle; s3Bucket; s3Key] /\
     forall (client : SqsClientWrapper.t) (p : sqs.DeleteMessageInput),
       sqs.ReceiptHandle p = Some (hefty.newReceiptHandle receiptHandle s3Bucket s3Key) ->
       hefty.DeleteHeftyMessage client (Some p) =
         DeleteFlow.offloaded p receiptHandle s3Bucket s3Key) /\
  (forall (client : SqsClientWrapper.t) (p : sqs.DeleteMessageInput) handle decoded,
     sqs.ReceiptHandle p = Some handle ->
     Base64.DecodeString handle = Some decoded ->
     Go.HasPrefix (string_of_list_byte decoded) hefty.receiptHandlePrefix = true ->
     List.length (Go.Split (string_of_list_byte decoded) "|") <> 4%nat ->
     hefty.DeleteHeftyMessage client (Some p) = Ret (p, (None, Some DeleteFlow.malformed))).
Proof.
  split; [exact wire_decodes|]. split.
  - intros rh b k H1 H2 H3.
    split; [apply wire_has_prefix|]. split; [now apply wire_tokens|].
    intros client p Hp.
    apply (delete_offloaded client p _ Hp _ (wire_decodes rh b k)) with (t0 := hefty.receiptHandlePrefix).
    + rewrite string_of_list_byte_of_string. apply wire_has_prefix.
    + rewrite string_of_list_byte_of_string. now apply wire_tokens.
  - intros client p handle decoded Hp Hd Hpre Hn.
    apply (delete_malformed client p handle Hp decoded Hd Hpre Hn).
Qed.

(** Scenario D: the handle wrapped from [rh1], [bucketX] and [key/123]
    unwraps to exactly these three values. *)
Lemma receipt_handle_round_trip_witness :
  Go.Split (DeleteFlow.wire "rh1" "bucketX" "key/123") "|" =
    [hefty.receiptHandlePrefix; "rh1"; "bucketX"; "key/123"] /\
  hefty.DeleteHeftyMessage Sample.client (Some Sample.wrapped) =
    DeleteFlow.offloaded Sample.wrapped "rh1" "bucketX" "key/123".
Proof.
  destruct receipt_handle_round_trip as (_ & H & _).
  destruct (H "rh1" "bucketX" "key/123" eq_refl eq_refl eq_refl) as (_ & T & G).
  split; [exact T|]. apply G. reflexivity.
Defined.

(** C5, counterexample. The handle [rh1] is not base64; the delete
    returns the decoding error and calls nothing. *)
Lemma undecodable_handle_is_an_error :
  Base64.DecodeString "rh1" = None /\
  run Sample.respond (hefty.DeleteHeftyMessage Sample.client (Some Sample.plain)) Sample.idle =
    (Some (Sample.plain, (None, Some DeleteFlow.undecodable)), Sample.idle, []) /\
  ~ undecodable_handles_go_to_the_queue.
Proof.
  split; [reflexivity|]. split; [reflexivity|].
  intros H. specialize (H Sample.client Sample.plain "rh1" eq_refl eq_refl).
  discriminate H.
Qed.

(** C5, amended. A delete without a receipt handle, and a delete whose
    handle decodes from base64 to a text without the marker prefix, go to
    the queue's delete with the input of the caller unchanged; a handle
    that does not decode makes the delete fail with the decoding error,
    and the queue's delete is not called. *)
Theorem native_handles_pass_through :
  (forall (client : SqsClientWrapper.t) (p : sqs.DeleteMessageInput),
     sqs.ReceiptHandle p = None ->
     hefty.DeleteHeftyMessage client (Some p) = hefty.DeleteMessage p) /\
  (forall (client : SqsClientWrapper.t) (p : sqs.DeleteMessageInput) handle decoded,
     sqs.ReceiptHandle p = Some handle ->
     Base64.DecodeString handle = Some decoded ->
     Go.HasPrefix (string_of_list_byte decoded) hefty.receiptHandlePrefix = false ->
     hefty.DeleteHeftyMessage client (Some p) = hefty.DeleteMessage p) /\
  (forall (client : SqsClientWrapper.t) (p : sqs.DeleteMessageInput) handle,
     sqs.ReceiptHandle p = Some handle ->
     Base64.DecodeString handle = None ->
     hefty.DeleteHeftyMessage client (Some p) = Ret (p, (None, Some DeleteFlow.undecodable))) /\
  (forall (W : Type) (h : handler W) (w : W) (p : sqs.DeleteMessageInput),
     run h (hefty.DeleteMessage p) w =
       let '(a, w1) := h _ (SqsDeleteMessage p) w in
       (Some (p, a), w1, [EvSqsDeleteMessage p a])).
Proof.
  split; [exact delete_without_handle|]. split; [|split].
  - intros client p handle decoded Hp Hd Hpre.
    apply (delete_native client p handle Hp decoded Hd Hpre).
  - intros client p handle Hp Hd. apply (delete_undecodable client p handle Hp Hd).
  - intros W h w p. unfold hefty.DeleteMessage.
    cbn [run mbind prog_bind bind trigger Event].
    destruct (h _ (SqsDeleteMessage p) w) as [a w1]. reflexivity.
Qed.

Lemma native_handles_pass_through_witness :
  hefty.DeleteHeftyMessage Sample.client (Some Sample.native) = hefty.DeleteMessage Sample.native.
Proof.
  destruct native_handles_pass_through as (_ & H & _).
  apply (H Sample.client Sample.native "AQEBwJnKyrHigUMZj6ry"
           (default [] (Base64.DecodeString "AQEBwJnKyrHigUMZj6ry")));
    vm_compute; reflexivity.
Defined.

(** C9. The delete of an offloaded receipt handle unwraps the handle,
    deletes the blob at the bucket and key it names, and then deletes the
    queue message under the queue handle it names; when the blob delete
    fails, its error is returned and the queue's delete is not called. *)
Theorem delete_blob_then_queue
    (client : SqsClientWrapper.t) (p : sqs.DeleteMessageInput) (handle : string)
    (decoded : list byte) (t0 receiptHandle s3Bucket s3Key : string) :
  sqs.ReceiptHandle p = Some handle ->
  Base64.DecodeString handle = Some decoded ->
  Go.HasPrefix (string_of_list_byte decoded) hefty.receiptHandlePrefix = true ->
  Go.Split (string_of_list_byte decoded) "|" = [t0; receiptHandle; s3Bucket; s3Key] ->
  forall (W : Type) (h : handler W) (w : W),
    run h (hefty.DeleteHeftyMessage client (Some p)) w =
      let '(err, w1) := h _ (S3DeleteObject s3Bucket s3Key) w in
      match err with
      | Some e =>
          (Some (p, (None, Some (DeleteFlow.blobDeleteError e))), w1,
           [EvS3DeleteObject s3Bucket s3Key (Some e)])
      | None =>
          let p' := hefty.set_ReceiptHandle (Some receiptHandle) p in
          let '(a, w2) := h _ (SqsDeleteMessage p') w1 in
          (Some (p', a), w2,
           [EvS3DeleteObject s3Bucket s3Key None; EvSqsDeleteMessage p' a])
      end.
Proof.
  intros Hp Hd Hpre Ht W h w.
  rewrite (delete_offloaded client p handle Hp decoded Hd Hpre _ _ _ _ Ht).
  unfold DeleteFlow.offloaded, hefty.DeleteMessage.
  cbn [run mbind prog_bind bind trigger Event].
  destruct (h _ (S3DeleteObject s3Bucket s3Key) w) as [[e|] w1]; [reflexivity|].
  cbn [run mbind prog_bind bind trigger Event].
  destruct (h _ (SqsDeleteMessage _) w1) as [a w2]. reflexivity.
Qed.

Lemma delete_blob_then_queue_witness :
  run Sample.respond (hefty.DeleteHeftyMessage Sample.client (Some Sample.wrapped)) Sample.idle =
    (Some (hefty.set_ReceiptHandle (Some "rh1") Sample.wrapped,
           (Some sqs.Build_DeleteMessageOutput, None)),
     Sample.set_deleted ["rh1"] Sample.idle,
     [EvS3DeleteObject "bucketX" "key/123" None;
      EvSqsDeleteMessage (hefty.set_ReceiptHandle (Some "rh1") Sample.wrapped)
        (Some sqs.Build_DeleteMessageOutput, None)]).
Proof.
  rewrite (delete_blob_then_queue Sample.client Sample.wrapped
             (hefty.newReceiptHandle "rh1" "bucketX" "key/123")
             (list_byte_of_string (DeleteFlow.wire "rh1" "bucketX" "key/123"))
             hefty.receiptHandlePrefix "rh1" "bucketX" "key/123"
             eq_refl (wire_decodes _ _ _) eq_refl eq_refl).
  vm_compute. reflexivity.
Defined.

Lemma identifier_is_plain :
  Json.encodeString types.referenceMsgIdentifierKey =
    Json.quote +:+ types.referenceMsgIdentifierKey +:+ Json.quote.
Proof. vm_compute. reflexivity. Qed.

(** The compact JSON of a reference message built by [NewReferenceMsg]
    starts with the prefix. *)
Lemma compact_reference_has_prefix s3Region s3Bucket s3Key md5Body md5Attr :
  exists rest,
    Json.Marshal (types.ReferenceMsg_fields
                    (types.NewReferenceMsg s3Region s3Bucket s3Key md5Body md5Attr)) =
      types.jsonReferenceMsgPrefix +:+ rest.
Proof.
  unfold Json.Marshal, types.ReferenceMsg_fields, types.NewReferenceMsg, types.jsonReferenceMsgPrefix.
  cbn [Json.members types.Identifier types.S3Region types.S3Bucket types.S3Key
       types.Md5DigestMsgBody types.Md5DigestMsgAttr].
  rewrite identifier_is_plain.
  eexists. rewrite !append_assoc. reflexivity.
Qed.

(** The indented JSON of any reference message does not: after the
    opening brace comes a line feed. *)
Lemma indented_reference_has_no_prefix (refMsg : hefty.referenceMsg) :
  types.IsReferenceMsg (Json.MarshalIndent (hefty.referenceMsg_fields refMsg)) = false.
Proof. reflexivity. Qed.

Lemma len_zeros n : Go.len (Sample.zeros n) = Z.of_nat n.
Proof.
  unfold Go.len, Sample.zeros, string_of_list_byte. f_equal.
  induction n as [|n IH]; [reflexivity|].
  cbn [repeat List.map string_of_list_ascii String.length]. now rewrite IH.
Qed.

Lemma zeros_nonempty n : (0 < n)%nat -> Sample.zeros n <> EmptyString.
Proof. destruct n; [lia|]. discriminate. Qed.

Lemma msgSize_without_attributes (p : sqs.SendMessageInput) (body : string) :
  sqs.MessageBody p = Some body -> sqs.MessageAttributes p = ∅ ->
  Go.len body <= Go.MaxInt ->
  hefty.msgSize p = Ret (Go.len body, None).
Proof.
  intros Hb Ha Hmax. unfold hefty.msgSize. rewrite Hb, Ha, map_to_list_empty.
  cbn [hefty.msgSize_range]. unfold Go.int_add. rewrite Z.add_0_l, int_wrap_small; [reflexivity|].
  pose proof (len_nonneg body). lia.
Qed.

Lemma scenarioA_body : sqs.MessageBody Sample.scenarioA = Some Sample.bodyA.
Proof. reflexivity. Qed.

Lemma scenarioA_nonempty : Sample.bodyA <> EmptyString.
Proof. apply zeros_nonempty. lia. Qed.

Lemma scenarioA_size : hefty.msgSize Sample.scenarioA = Ret (300000, None).
Proof.
  rewrite (msgSize_without_attributes _ Sample.bodyA scenarioA_body eq_refl).
  - unfold Sample.bodyA. rewrite len_zeros. reflexivity.
  - unfold Sample.bodyA. rewrite len_zeros. unfold Go.MaxInt. lia.
Qed.

Lemma scenarioA_between :
  hefty.MaxSqsMessageLengthBytes < 300000 <= hefty.MaxHeftyMessageLengthBytes.
Proof. unfold hefty.MaxSqsMessageLengthBytes, hefty.MaxHeftyMessageLengthBytes. lia. Qed.

(** The send of scenario A against the in-memory collaborators. *)
Lemma scenarioA_run :
  run Sample.respond (hefty.SendHeftyMessage Sample.client (Some Sample.scenarioA)) Sample.idle =
    let q := Flow.referenceInput Sample.referenceA Sample.scenarioA in
    let payload := Flow.payload Sample.scenarioA 300000 in
    let key := hefty.S3Key Sample.referenceA in
    let w := Sample.set_store (<[("bucketX", key) := payload]> ∅) Sample.idle in
    (Some (Some q, (Some (hefty.set_MD5 (Flow.bodyHash Sample.scenarioA 300000)
                            (Flow.attributesHash Sample.scenarioA 300000) Sample.sent), None)),
     Sample.set_queue [q] w,
     [EvUuidNewString "123e4567-e89b-12d3-a456-426614174000";
      EvS3Upload "bucketX" key payload None;
      EvSqsSendMessage (Some q) (Some Sample.sent, None)]).
Proof.
  rewrite (send_offload Sample.client Sample.scenarioA Sample.bodyA 300000 scenarioA_body
             scenarioA_nonempty scenarioA_size scenarioA_between Sample.queueUrl eq_refl eq_refl).
  reflexivity.
Qed.

(** C6, counterexample. The body of the queue message that the send of
    scenario A puts on the queue is not recognized. *)
Lemma sent_reference_is_not_recognized :
  (exists uuid a body,
     trace (run Sample.respond (hefty.SendHeftyMessage Sample.client (Some Sample.scenarioA))
              Sample.idle) !! 2%nat =
       Some (EvSqsSendMessage
               (Some (Flow.referenceInput
                        (Flow.reference Sample.client Sample.scenarioA 300000 Sample.queueUrl uuid)
                        Sample.scenarioA)) a) /\
     sqs.MessageBody
       (Flow.referenceInput
          (Flow.reference Sample.client Sample.scenarioA 300000 Sample.queueUrl uuid)
          Sample.scenarioA) = Some body /\
     types.IsReferenceMsg body = false) /\
  ~ sent_references_are_recognized.
Proof.
  split.
  - exists "123e4567-e89b-12d3-a456-426614174000", (Some Sample.sent, None).
    eexists. rewrite scenarioA_run. split; [reflexivity|]. split; reflexivity.
  - intros H.
    specialize (H Sample.referenceA Sample.scenarioA _ eq_refl).
    discriminate H.
Qed.

(** C6, amended. [IsReferenceMsg] holds of a text exactly when the text
    starts with the fixed prefix, the opening brace followed by the
    identifier member without white space; the compact JSON of a reference
    message built by [NewReferenceMsg] starts with it; the indented JSON
    that [SendHeftyMessage] puts on the queue does not, and the receive
    side goes by the marker attribute instead. *)
Theorem reference_detection :
  (forall msg, types.IsReferenceMsg msg = true <->
               exists rest, msg = types.jsonReferenceMsgPrefix +:+ rest) /\
  (forall s3Region s3Bucket s3Key md5Body md5Attr,
     types.IsReferenceMsg
       (Json.Marshal (types.ReferenceMsg_fields
                        (types.NewReferenceMsg s3Region s3Bucket s3Key md5Body md5Attr)))
     = true) /\
  (forall (refMsg : hefty.referenceMsg) (p : sqs.SendMessageInput),
     exists body,
       sqs.MessageBody (Flow.referenceInput refMsg p) = Some body /\
       types.IsReferenceMsg body = false).
Proof.
  split; [|split].
  - intros msg. apply HasPrefix_spec.
  - intros. apply HasPrefix_spec. apply compact_reference_has_prefix.
  - intros refMsg p. eexists. split; [reflexivity|].
    apply indented_reference_has_no_prefix.
Qed.

Section Between.

Variables (client : SqsClientWrapper.t) (p : sqs.SendMessageInput) (body : string) (size : Z).
Hypothesis Hbody : sqs.MessageBody p = Some body.
Hypothesis Hnonempty : body <> EmptyString.
Hypothesis Hsize : hefty.msgSize p = Ret (size, None).
Hypothesis Hbetween :
  hefty.MaxSqsMessageLengthBytes < size <= hefty.MaxHeftyMessageLengthBytes.
Context {W : Type} (h : handler W) (w : W).

(** A send of a size between the limits either stops before any call,
    for want of a queue name, or runs the offload. *)
Lemma between_run :
  (exists e, run h (hefty.SendHeftyMessage client (Some p)) w =
               run h (Ret (Some p, (None, Some e))) w) \/
  (exists url, sqs.QueueUrl p = Some url /\ List.length (Go.Split url "/") = 5%nat /\
               run h (hefty.SendHeftyMessage client (Some p)) w =
                 run h (Flow.offload client p size url) w).
Proof.
  destruct (sqs.QueueUrl p) as [url|] eqn:Hurl.
  - destruct (decide (List.length (Go.Split url "/") = 5%nat)) as [Hn|Hn].
    + right. exists url. split; [reflexivity|]. split; [exact Hn|].
      now rewrite (send_offload client p body size Hbody Hnonempty Hsize Hbetween url Hurl Hn).
    + left. destruct (send_no_reference client p body size Hbody Hnonempty Hsize Hbetween)
        as [e ->]; [|eauto].
      right. exists url. split; [exact Hurl | exact Hn].
  - left. destruct (send_no_reference client p body size Hbody Hnonempty Hsize Hbetween)
      as [e ->]; [|eauto].
    left. exact Hurl.
Qed.


Lemma between_uploads url :
  sqs.QueueUrl p = Some url -> List.length (Go.Split url "/") = 5%nat ->
  uploads (SqsClientWrapper.bucket client) (Flow.payload p size)
    (trace (run h (hefty.SendHeftyMessage client (Some p)) w)).
Proof.
  intros Hurl Hn.
  rewrite (send_offload client p body size Hbody Hnonempty Hsize Hbetween url Hurl Hn).
  now apply offload_sends_only_references.
Qed.

End Between.

Section Reports.

Context {W : Type} (h : handler W) (w : W).

Lemma reports_SendMessage q : reports (run h (hefty.SendMessage q) w).
Proof.
  unfold hefty.SendMessage. cbn [run mbind prog_bind bind trigger Event].
  destruct (h _ (SqsSendMessage q) w) as [[out err] w1].
  split; [|split]; cbn [trace result fst snd].
  - intros ev [<-|[]]. reflexivity.
  - intros q' out' err' E ev e [<-|[]] He. simplify_eq/=. exists e. split; [reflexivity|].
    left. reflexivity.
  - intros i j ? ? ? ? ? ? Hi Hj. index_trace i.
Qed.

Lemma reports_Ret r : reports (run h (Ret r) w).
Proof.
  split; [|split]; cbn [run trace result fst snd].
  - intros ev [].
  - intros ? ? ? _ ev e [].
  - intros i j ? ? ? ? ? ? Hi. index_trace i.
Qed.

Lemma reports_offload client p size url :
  reports (run h (Flow.offload client p size url) w).
Proof.
  destruct (run_offload h client p size url w) as (uuid & w1 & aup & w2 & _ & _ & H).
  cbv zeta in H. destruct aup as [e0|].
  - rewrite H. clear H. split; [|split]; cbn [trace result fst snd].
    + intros ev [<-|[<-|[]]]; reflexivity.
    + intros q out err E ev e [<-|[<-|[]]] He;
        cbn [answered_error] in He; try discriminate He.
      simplify_eq. eexists. split; [reflexivity|]. right. eexists. reflexivity.
    + intros i j ? ? ? ? ? ? Hi Hj. index_trace i.
  - destruct H as ([out err] & w3 & _ & H). rewrite H. clear H.
    split; [|split]; cbn [trace result fst snd].
    + intros ev [<-|[<-|[<-|[]]]]; reflexivity.
    + intros q out' err' E ev e [<-|[<-|[<-|[]]]] He;
        cbn [answered_error snd] in He; try discriminate He.
      subst err. cbn [sendOutcome] in E. destruct out; simplify_eq.
      all: exists e; split; [reflexivity|]; left; reflexivity.
    + intros i j ? ? ? ? out' ? Hi Hj. index_trace j. destruct out'; reflexivity.
Qed.

End Reports.

(** C8. A send hides no error and compensates nothing. When the upload
    of an offloaded send succeeds and the send to the queue fails, the
    queue's answer and error are returned as they are; no call of any send
    is a blob delete, so that the uploaded object stays where it is; and
    every error a collaborator answers with is carried by the error the
    send returns, as is the error of the size calculation. *)
Theorem send_reports_every_error :
  (forall (client : SqsClientWrapper.t) (params : option sqs.SendMessageInput)
          (W : Type) (h : handler W) (w : W),
     reports (run h (hefty.SendHeftyMessage client params) w)) /\
  (forall (client : SqsClientWrapper.t) (p : sqs.SendMessageInput) (body : string)
          (size : Z) (e : error),
     sqs.MessageBody p = Some body -> body <> EmptyString ->
     hefty.msgSize p = Ret (size, Some e) ->
     hefty.SendHeftyMessage client (Some p) =
       Ret (Some p, (None, Some (Errorf "unable to check message size. %v" [ArgError e])))).
Proof.
  split.
  - intros client [p|] W h w; [|apply reports_SendMessage].
    destruct (sqs.MessageBody p) as [body|] eqn:Hbody;
      [|unfold hefty.SendHeftyMessage; rewrite Hbody; apply reports_SendMessage].
    destruct (decide (body = EmptyString)) as [->|Hne];
      [unfold hefty.SendHeftyMessage; rewrite Hbody; apply reports_SendMessage|].
    destruct (hefty.msgSize_range (map_to_list (sqs.MessageAttributes p))
                (Go.int_add 0 (Go.len body))) as [size [e|]] eqn:Hrange.
    + unfold hefty.SendHeftyMessage, hefty.msgSize.
      rewrite Hbody, (len_nonempty body Hne). cbn [mbind prog_bind bind]. rewrite Hrange.
      apply reports_Ret.
    + assert (Hsize : hefty.msgSize p = Ret (size, None))
        by (unfold hefty.msgSize; now rewrite Hbody, Hrange).
      destruct (Z_le_gt_dec size hefty.MaxSqsMessageLengthBytes) as [Hle|Hgt].
      { rewrite (send_inline client p body size Hbody Hne Hsize Hle). apply reports_SendMessage. }
      destruct (Z_le_gt_dec size hefty.MaxHeftyMessageLengthBytes) as [Hle|Hgt'].
      * destruct (between_run client p body size Hbody Hne Hsize ltac:(lia) h w)
          as [[e ->] | (url & _ & _ & ->)]; [apply reports_Ret | apply reports_offload].
      * rewrite (send_reject client p body size Hbody Hne Hsize Hgt'). apply reports_Ret.
  - intros client p body size e Hbody Hne Hsize. unfold hefty.SendHeftyMessage.
    rewrite Hbody, (len_nonempty body Hne), Hsize. reflexivity.
Qed.

Section ReceiveRun.

Variable Unmarshal : list byte -> hefty.referenceMsg * option error.
Variable Deserialize : list byte -> hefty.largeSqsMsg * option error.
Context {W : Type} (h : handler W).
Variables (client : SqsClientWrapper.t) (p : sqs.ReceiveMessageInput).


Lemma ReceiveHeftyMessage_requested :
  hefty.ReceiveHeftyMessage Unmarshal Deserialize client (Some p) = receiveFrom Unmarshal Deserialize (requested p).
Proof.
  unfold hefty.ReceiveHeftyMessage, requested.
  destruct (sqs.MessageAttributeNames p); reflexivity.
Qed.


End ReceiveRun.



Lemma attributesHash_is_AttributeDigest (p : sqs.SendMessageInput) (size : Z) :
  Flow.attributesHash p size = messages.AttributeDigest (sqs.MessageAttributes p).
Proof. reflexivity. Qed.

Section Digests.

Variables (client : SqsClientWrapper.t) (p : sqs.SendMessageInput) (body : string) (size : Z).
Hypothesis Hbody : sqs.MessageBody p = Some body.
Hypothesis Hnonempty : body <> EmptyString.
Hypothesis Hsize : hefty.msgSize p = Ret (size, None).
Hypothesis Hbetween :
  hefty.MaxSqsMessageLengthBytes < size <= hefty.MaxHeftyMessageLengthBytes.
Context {W : Type} (h : handler W) (w : W).

(** What an offloaded send leaves in the input of the caller and
    returns: the input as it was with an error when nothing reached the
    queue, the reference input once the send to the queue was made. *)
Lemma between_outcome q r :
  result (run h (hefty.SendHeftyMessage client (Some p)) w) = Some (q, r) ->
  (q = Some p /\ exists e, r = (None, Some e)) \/
  (exists url uuid a,
     sqs.QueueUrl p = Some url /\
     q = Some (Flow.referenceInput (Flow.reference client p size url uuid) p) /\
     trace (run h (hefty.SendHeftyMessage client (Some p)) w) !! 2%nat =
       Some (EvSqsSendMessage q a) /\
     Some (q, r) = sendOutcome (Flow.referenceInput (Flow.reference client p size url uuid) p)
                     (Flow.bodyHash p size) (Flow.attributesHash p size) a).
Proof.
  destruct (between_run client p body size Hbody Hnonempty Hsize Hbetween h w)
    as [[e ->] | (url & Hurl & _ & ->)].
  - cbn [run result fst]. intros H. simplify_eq. left. eauto.
  - destruct (run_offload h client p size url w) as (uuid & w1 & aup & w2 & _ & _ & H).
    cbv zeta in H. destruct aup as [e|].
    + rewrite H. cbn [result fst]. intros E. simplify_eq. left. eauto.
    + destruct H as (a & w3 & _ & ->). cbn [result trace fst snd]. intros E.
      right. exists url, uuid, a. split; [exact Hurl|].
      assert (q = Some (Flow.referenceInput (Flow.reference client p size url uuid) p))
        as -> by (destruct a as [[o|] [e|]]; cbn [sendOutcome] in E; simplify_eq; reflexivity).
      split; [reflexivity|]. split; [reflexivity|]. now rewrite E.
Qed.



End Digests.

Section SnsDigests.

Variables (wrapper : SnsClientWrapper.t) (p : sns.PublishInput) (message : string) (size : Z).
Hypothesis Hmessage : sns.Message p = Some message.
Hypothesis Hnonempty : message <> EmptyString.
Hypothesis Hsize :
  messages.MessageSize (Some message)
    (messages.MapFromSnsMessageAttributeValues (sns.MessageAttributes p)) = (size, None).
Hypothesis Hoffload :
  SnsClientWrapper.alwaysSendToS3 wrapper = true \/ hefty.MaxAwsMessageLengthBytes < size.
Hypothesis Hmax : size <= hefty.MaxHeftyMessageLengthBytes.
Context {W : Type} (h : handler W) (w : W).

Lemma offloaded_publish_run :
  (exists e, run h (hefty.PublishHeftyMessage wrapper (Some p)) w =
               run h (Ret (Some (SnsFlow.wrapped p message), (None, Some e))) w) \/
  (exists arn, sns.TopicArn p = Some arn /\ List.length (Go.Split arn ":") = 6%nat /\
               run h (hefty.PublishHeftyMessage wrapper (Some p)) w =
                 run h (SnsFlow.offload wrapper p message size arn) w).
Proof.
  destruct (sns.TopicArn p) as [arn|] eqn:Harn.
  - destruct (decide (List.length (Go.Split arn ":") = 6%nat)) as [Hn|Hn].
    + right. exists arn. split; [reflexivity|]. split; [exact Hn|].
      now rewrite (publish_offload wrapper p message size Hmessage Hnonempty Hsize Hoffload
                     Hmax arn Harn Hn).
    + left. destruct (publish_no_reference wrapper p message size Hmessage Hnonempty Hsize
                        Hoffload Hmax) as [e ->]; [|eauto].
      right. exists arn. split; [exact Harn | exact Hn].
  - left. destruct (publish_no_reference wrapper p message size Hmessage Hnonempty Hsize
                      Hoffload Hmax) as [e ->]; [|eauto].
    left. exact Harn.
Qed.


(** Whatever the outcome of an offloaded publish, the input of the
    caller ends with the wrapped message and its own attributes. *)
Lemma offloaded_publish_leaves_wrapped q r :
  result (run h (hefty.PublishHeftyMessage wrapper (Some p)) w) = Some (q, r) ->
  q = Some (SnsFlow.wrapped p message).
Proof.
  destruct offloaded_publish_run as [[e ->] | (arn & Harn & _ & ->)].
  - cbn [run result fst]. intros H. now simplify_eq.
  - destruct (run_publish_offload h wrapper p message size arn w)
      as (uuid & w1 & aup & w2 & _ & _ & H).
    cbv zeta in H. destruct aup as [e|].
    + rewrite H. cbn [result fst]. intros E. now simplify_eq.
    + destruct H as (a & w3 & _ & ->). cbn [result fst]. intros E. now simplify_eq.
Qed.

End SnsDigests.




(** C10. An offloaded send of the SQS wrapper that returns either
  failed before it touched its input, or leaves in the caller's input
  the reference as tab-indented JSON for body and the marker as the
  only attribute: the input is the one the queue was sent. An offloaded
  publish of the SNS wrapper that returns leaves the caller's
  attributes and topic as they were, and leaves as message the envelope
  that wraps the original message, not the original message: the
  deferred restore reads the body of the hefty message, which was built
  after the message had been wrapped. For the message [hi] the caller
  finds the envelope of [hi] after the call. *)
Theorem send_and_publish_leave_their_input_changed :
  (forall (client : SqsClientWrapper.t) (p : sqs.SendMessageInput) (body : string) (size : Z),
     sqs.MessageBody p = Some body -> body <> EmptyString ->
     hefty.msgSize p = Ret (size, None) ->
     hefty.MaxSqsMessageLengthBytes < size <= hefty.MaxHeftyMessageLengthBytes ->
     forall (W : Type) (h : handler W) (w : W) q r,
       result (run h (hefty.SendHeftyMessage client (Some p)) w) = Some (q, r) ->
       (q = Some p /\ exists e, r = (None, Some e)) \/
       (exists refMsg q' a,
          q = Some q' /\
          trace (run h (hefty.SendHeftyMessage client (Some p)) w) !! 2%nat =
            Some (EvSqsSendMessage q a) /\
          sqs.MessageBody q' = Some (Json.MarshalIndent (hefty.referenceMsg_fields refMsg)) /\
          sqs.MessageAttributes q' =
            {[hefty.heftyClientVersionMessageKey := hefty.heftyMarker]})) /\
  (forall (wrapper : SnsClientWrapper.t) (p : sns.PublishInput) (message : string) (size : Z),
     sns.Message p = Some message -> message <> EmptyString ->
     messages.MessageSize (Some message)
       (messages.MapFromSnsMessageAttributeValues (sns.MessageAttributes p)) = (size, None) ->
     SnsClientWrapper.alwaysSendToS3 wrapper = true \/ hefty.MaxAwsMessageLengthBytes < size ->
     size <= hefty.MaxHeftyMessageLengthBytes ->
     forall (W : Type) (h : handler W) (w : W) q r,
       result (run h (hefty.PublishHeftyMessage wrapper (Some p)) w) = Some (q, r) ->
       exists q',
         q = Some q' /\
         sns.Message q' = Some (SnsFlow.envelope message) /\
         sns.MessageAttributes q' = sns.MessageAttributes p /\
         sns.TopicArn q' = sns.TopicArn p) /\
  (exists q,
     result (run Sample.respond (hefty.PublishHeftyMessage Sample.wrapper (Some Sample.notice))
               Sample.idle) = Some (Some q, (Some {| sns.MessageId := Some "message-1" |}, None)) /\
     sns.Message q =
       Some ("{" +:+ Json.quote +:+ "Message" +:+ Json.quote +:+ ":"
                 +:+ Json.quote +:+ "hi" +:+ Json.quote +:+ "}") /\
     sns.Message q <> sns.Message Sample.notice).
Proof.
  split; [|split].
  - intros client p body size Hbody Hne Hsize Hb W h w q r Hr.
    destruct (between_outcome client p body size Hbody Hne Hsize Hb h w q r Hr)
      as [H | (url & uuid & a & _ & -> & H2 & _)]; [left; exact H|].
    right. eexists _, _, a. split; [reflexivity|]. split; [exact H2|]. split; reflexivity.
  - intros wrapper p message size Hm Hne Hsize Ho Hmax W h w q r Hr.
    rewrite (offloaded_publish_leaves_wrapped wrapper p message size Hm Hne Hsize Ho Hmax
               h w q r Hr).
    eexists. split; [reflexivity|]. repeat split.
  - eexists. split; [vm_compute; reflexivity|]. split; [vm_compute; reflexivity|].
    vm_compute. discriminate.
Qed.

Lemma send_and_publish_leave_their_input_changed_witness :
  result (run Sample.respond (hefty.PublishHeftyMessage Sample.wrapper (Some Sample.notice))
            Sample.idle) =
    Some (Some (SnsFlow.wrapped Sample.notice "hi"),
          (Some {| sns.MessageId := Some "message-1" |}, None)) /\
  exists q',
    Some (SnsFlow.wrapped Sample.notice "hi") = Some q' /\
    sns.Message q' = Some (SnsFlow.envelope "hi") /\
    sns.MessageAttributes q' = sns.MessageAttributes Sample.notice /\
    sns.TopicArn q' = sns.TopicArn Sample.notice.
Proof.
  destruct send_and_publish_leave_their_input_changed as (_ & H & _).
  assert (E : result (run Sample.respond
                        (hefty.PublishHeftyMessage Sample.wrapper (Some Sample.notice))
                        Sample.idle) =
              Some (Some (SnsFlow.wrapped Sample.notice "hi"),
                    (Some {| sns.MessageId := Some "message-1" |}, None)))
    by (vm_compute; reflexivity).
  split; [exact E|].
  apply (H Sample.wrapper Sample.notice "hi" 2 eq_refl ltac:(discriminate) eq_refl
           (or_introl eq_refl) ltac:(vm_compute; discriminate) _ Sample.respond Sample.idle
           _ _ E).
Defined.

Lemma threshold_law_witness :
  hefty.SendHeftyMessage Sample.client (Some Sample.scenarioB) =
    hefty.SendMessage (Some Sample.scenarioB) /\
  sendsOnlyReferences Sample.client Sample.scenarioA 300000
    (trace (run Sample.respond (hefty.SendHeftyMessage Sample.client (Some Sample.scenarioA))
              Sample.idle)) /\
  publishesOnlyReferences Sample.wrapper Sample.notice "hi" 2
    (trace (run Sample.respond (hefty.PublishHeftyMessage Sample.wrapper (Some Sample.notice))
              Sample.idle)).
Proof.
  destruct threshold_law as (_ & _ & Hsqs & Hsns).
  split; [|split].
  - destruct (Hsqs Sample.client Sample.scenarioB "hi" 10 eq_refl ltac:(discriminate)
                ltac:(vm_compute; reflexivity)) as (H & _).
    apply H. vm_compute. discriminate.
  - destruct (Hsqs Sample.client Sample.scenarioA Sample.bodyA 300000 scenarioA_body scenarioA_nonempty
                scenarioA_size) as (_ & _ & H).
    apply (H scenarioA_between _ Sample.respond Sample.idle).
  - destruct (Hsns Sample.wrapper Sample.notice "hi" 2 eq_refl ltac:(discriminate)
                ltac:(vm_compute; reflexivity)) as (_ & _ & H).
    apply (H (or_introl eq_refl) ltac:(vm_compute; discriminate) _ Sample.respond Sample.idle).
Defined.

Lemma msgSize_is_sum_of_lengths_witness :
  hefty.msgSize Sample.scenarioB =
    Ret (Go.int_wrap (Spec.size "hi" (sqs.MessageAttributes Sample.scenarioB)), None) /\
  Spec.size "hi" (sqs.MessageAttributes Sample.scenarioB) = 10 /\
  exists k v,
    sqs.MessageAttributes Sample.scenarioU !! k = Some v /\ Spec.supported v = false /\
    hefty.msgSize Sample.scenarioU = Ret (-1, Some (unexpectedDataType v)).
Proof.
  split; [|split].
  - destruct (msgSize_is_sum_of_lengths Sample.scenarioB "hi" eq_refl) as (H & _).
    apply H. vm_compute. reflexivity.
  - vm_compute. reflexivity.
  - destruct (msgSize_is_sum_of_lengths Sample.scenarioU "hi" eq_refl) as (_ & H & _).
    apply H. vm_compute. reflexivity.
Defined.

Lemma scenarioA_queue_down :
  run Sample.respond (hefty.SendHeftyMessage Sample.client (Some Sample.scenarioA))
    Sample.queue_down =
    let q := Flow.referenceInput Sample.referenceA Sample.scenarioA in
    let payload := Flow.payload Sample.scenarioA 300000 in
    let key := hefty.S3Key Sample.referenceA in
    (Some (Some q, (None, Some (ClientError "queue send failed"))),
     Sample.set_store (<[("bucketX", key) := payload]> ∅) Sample.queue_down,
     [EvUuidNewString "123e4567-e89b-12d3-a456-426614174000";
      EvS3Upload "bucketX" key payload None;
      EvSqsSendMessage (Some q) (None, Some (ClientError "queue send failed"))]).
Proof.
  rewrite (send_offload Sample.client Sample.scenarioA Sample.bodyA 300000 scenarioA_body
             scenarioA_nonempty scenarioA_size scenarioA_between Sample.queueUrl eq_refl eq_refl).
  reflexivity.
Qed.

Lemma send_reports_every_error_witness :
  hefty.SendHeftyMessage Sample.client (Some Sample.scenarioU) =
    Ret (Some Sample.scenarioU,
         (None, Some (Errorf "unable to check message size. %v"
                        [ArgError (unexpectedDataType Sample.flag)]))) /\
  reports (run Sample.respond (hefty.SendHeftyMessage Sample.client (Some Sample.scenarioA))
             Sample.queue_down) /\
  let x := run Sample.respond (hefty.SendHeftyMessage Sample.client (Some Sample.scenarioA))
             Sample.queue_down in
  result x = Some (Some (Flow.referenceInput Sample.referenceA Sample.scenarioA),
                   (None, Some (ClientError "queue send failed"))) /\
  Sample.store x.1.2 !! ("bucketX", hefty.S3Key Sample.referenceA) =
    Some (Flow.payload Sample.scenarioA 300000).
Proof.
  destruct send_reports_every_error as (H1 & H2).
  split; [|split].
  - apply (H2 Sample.client Sample.scenarioU "hi" (-1)); [reflexivity | discriminate |].
    vm_compute. reflexivity.
  - apply H1.
  - rewrite scenarioA_queue_down. cbv zeta. split; [reflexivity|].
    cbn [fst snd Sample.set_store Sample.store]. apply lookup_insert_eq.
Defined.

Lemma sample_receive :
  run Sample.respond
    (hefty.ReceiveHeftyMessage Sample.Unmarshal Sample.Deserialize Sample.client
       (Some Sample.request)) Sample.stocked
  = (Some (requested Sample.request,
           (Some {| sqs.Messages :=
              [substituted Sample.marker Sample.reference
                 {| hefty.Body := Some "a large body"; hefty.MessageAttributes := ∅ |} "rh1";
               Sample.hello] |}, None)),
     Sample.stocked,
     [EvSqsReceiveMessage (requested Sample.request)
        (Some {| sqs.Messages := [Sample.marker; Sample.hello] |}, None);
      EvS3Download "bucketX" (hefty.S3Key Sample.reference)
        (list_byte_of_string "a large body", None)]).
Proof. vm_compute. reflexivity. Qed.


(** * Further properties *)
(** ** Queue URLs and topic ARNs *)

Lemma Split_length s sep : List.length (Go.Split s sep) = S (occurrences s sep).
Proof.
  induction s as [|c s IH]; [reflexivity|].
  cbn [Go.Split occurrences]. destruct (Ascii.eqb c sep).
  - cbn [List.length]. now rewrite IH.
  - destruct (Go.Split s sep) as [|t ts]; [discriminate IH|exact IH].
Qed.

Lemma contains_occurrences s c : contains s c = false <-> occurrences s c = O.
Proof.
  induction s as [|d s IH]; [easy|].
  cbn [contains occurrences]. destruct (Ascii.eqb d c); [easy|]. exact IH.
Qed.

Lemma Split_last s sep : List.last (Go.Split s sep) EmptyString = afterLast s sep.
Proof.
  induction s as [|c s IH]; [reflexivity|].
  cbn [Go.Split afterLast contains]. destruct (Ascii.eqb c sep) eqn:E.
  - cbn [orb]. rewrite <- IH.
    destruct (Go.Split s sep) eqn:S; [|reflexivity].
    pose proof (Split_length s sep) as L. rewrite S in L. discriminate L.
  - cbn [orb]. destruct (contains s sep) eqn:C.
    + rewrite <- IH. destruct (Go.Split s sep) as [|t [|t' ts]] eqn:S.
      * pose proof (Split_length s sep) as L. rewrite S in L. discriminate L.
      * pose proof (Split_length s sep) as L. rewrite S in L. cbn in L.
        assert (occurrences s sep = O) by lia.
        apply contains_occurrences in H. congruence.
      * reflexivity.
    + rewrite (Split_without s sep C). reflexivity.
Qed.

Lemma nth_last {A : Type} (l : list A) (d : A) (n : nat) :
  List.length l = S n -> nth n l d = List.last l d.
Proof.
  revert n. induction l as [|x l IH]; intros n H; [discriminate|].
  destruct l as [|y l].
  - cbn in H. assert (n = O) by lia. subst. reflexivity.
  - destruct n as [|n]; [cbn in H; lia|].
    change (nth n (y :: l) d = List.last (y :: l) d).
    apply IH. cbn [List.length] in *. lia.
Qed.

Lemma occurrences_app s t c : occurrences (s +:+ t) c = (occurrences s c + occurrences t c)%nat.
Proof.
  induction s as [|d s IH]; [now rewrite append_Empty|].
  rewrite append_String. cbn [occurrences]. rewrite IH. now destruct (Ascii.eqb d c).
Qed.

(** X1. [newSqsReferenceMessage] succeeds exactly when the queue URL
    holds exactly four slashes. The key of the reference is then the text
    after the last slash of the URL, a slash and a fresh UUID, the other
    fields are the region, the bucket and the two digests given, and the
    identifier is left empty. In every other case no UUID is drawn: a
    URL with another number of slashes gives the error that reports the
    number of pieces, one more than there are slashes, and a [nil] URL
    the error [queueUrl is nil]. *)
Theorem newSqsReferenceMessage_by_slashes
    (queueUrl : option string) (bucketName region bodyHash attributesHash : string) :
  hefty.newSqsReferenceMessage queueUrl bucketName region bodyHash attributesHash =
    match queueUrl with
    | None => Ret (None, Some (ErrorsNew "queueUrl is nil"))
    | Some url =>
        if Nat.eqb (occurrences url "/") 4 then
          uuid ← trigger UuidNewString;
          Ret (Some {| hefty.Identifier := EmptyString;
                       hefty.S3Region := region;
                       hefty.S3Bucket := bucketName;
                       hefty.S3Key := afterLast url "/" +:+ "/" +:+ uuid;
                       hefty.SqsMd5HashBody := bodyHash;
                       hefty.SqsMd5HashMsgAttr := attributesHash |}, None)
        else
          Ret (None, Some (Errorf
                 "expected 5 tokens when splitting queueUrl by '/' but only received %d"
                 [ArgInt (Z.of_nat (occurrences url "/") + 1)]))
    end.
Proof.
  destruct queueUrl as [url|]; [|reflexivity].
  unfold hefty.newSqsReferenceMessage.
  pose proof (Split_length url "/") as L.
  destruct (Nat.eqb_spec (occurrences url "/") 4) as [E|E].
  - rewrite E in L.
    rewrite (nth_last _ _ 4 L), Split_last, L. reflexivity.
  - rewrite L.
    assert (T : (Z.of_nat (S (occurrences url "/")) =? 5) = false)
      by (apply Z.eqb_neq; lia).
    rewrite T. cbn [negb].
    replace (Z.of_nat (S (occurrences url "/"))) with (Z.of_nat (occurrences url "/") + 1)
      by lia.
    reflexivity.
Qed.

Lemma Split_tokens6 (t0 t1 t2 t3 t4 t5 : string) (sep : ascii) :
  contains t0 sep = false -> contains t1 sep = false -> contains t2 sep = false ->
  contains t3 sep = false -> contains t4 sep = false -> contains t5 sep = false ->
  Go.Split (t0 +:+ String sep EmptyString +:+ t1 +:+ String sep EmptyString +:+ t2
               +:+ String sep EmptyString +:+ t3 +:+ String sep EmptyString +:+ t4
               +:+ String sep EmptyString +:+ t5) sep
    = [t0; t1; t2; t3; t4; t5].
Proof.
  intros H0 H1 H2 H3 H4 H5.
  rewrite !Split_at_separator by assumption. now rewrite Split_without.
Qed.

(** X2. [newSnsReferenceMessage] succeeds exactly when the topic ARN
    holds exactly five colons; it then draws one UUID and builds the
    reference with the identifier key, the region and the bucket given
    and the two digests. For an ARN of six pieces without colon the key
    is the fifth piece, the account of [arn:aws:sns:region:account:topic],
    a slash and the UUID: neither the topic nor the region of the ARN
    enters the reference. In every other case no UUID is drawn and an
    error is returned. *)
Theorem newSnsReferenceMessage_by_colons :
  (forall (topicArn : option string) (bucketName region msgBodyHash msgAttrHash : string),
     hefty.newSnsReferenceMessage topicArn bucketName region msgBodyHash msgAttrHash =
       match topicArn with
       | None => Ret (None, Some (ErrorsNew "topicArn is nil"))
       | Some arn =>
           if Nat.eqb (occurrences arn ":") 5 then
             uuid ← trigger UuidNewString;
             Ret (Some (types.NewReferenceMsg region bucketName
                          (nth 4 (Go.Split arn ":") EmptyString +:+ "/" +:+ uuid)
                          msgBodyHash msgAttrHash), None)
           else
             Ret (None, Some (Errorf
                    "expected %d tokens when splitting topicArn by ':' but received %d"
                    [ArgInt 6; ArgInt (Z.of_nat (occurrences arn ":") + 1)]))
       end) /\
  (forall (t0 partition service region' account topic bucketName region
           msgBodyHash msgAttrHash : string),
     contains t0 ":" = false -> contains partition ":" = false ->
     contains service ":" = false -> contains region' ":" = false ->
     contains account ":" = false -> contains topic ":" = false ->
     hefty.newSnsReferenceMessage
       (Some (t0 +:+ ":" +:+ partition +:+ ":" +:+ service +:+ ":" +:+ region' +:+ ":"
                 +:+ account +:+ ":" +:+ topic))
       bucketName region msgBodyHash msgAttrHash =
       (uuid ← trigger UuidNewString;
        Ret (Some {| types.Identifier := types.referenceMsgIdentifierKey;
                     types.S3Region := region;
                     types.S3Bucket := bucketName;
                     types.S3Key := account +:+ "/" +:+ uuid;
                     types.Md5DigestMsgBody := msgBodyHash;
                     types.Md5DigestMsgAttr := msgAttrHash |}, None))).
Proof.
  split.
  - intros [arn|] bucketName region h1 h2; [|reflexivity].
    unfold hefty.newSnsReferenceMessage, hefty.expectedTokenCount.
    pose proof (Split_length arn ":") as L. rewrite L.
    destruct (Nat.eqb_spec (occurrences arn ":") 5) as [E|E].
    + rewrite E. reflexivity.
    + assert (T : (Z.of_nat (S (occurrences arn ":")) =? 6) = false)
        by (apply Z.eqb_neq; lia).
      rewrite T. cbn [negb].
      replace (Z.of_nat (S (occurrences arn ":"))) with (Z.of_nat (occurrences arn ":") + 1)
        by lia.
      reflexivity.
  - intros t0 t1 t2 t3 t4 t5 bucketName region h1 h2 H0 H1 H2 H3 H4 H5.
    unfold hefty.newSnsReferenceMessage.
    rewrite (Split_tokens6 t0 t1 t2 t3 t4 t5 ":" H0 H1 H2 H3 H4 H5).
    reflexivity.
Qed.

Lemma newSnsReferenceMessage_by_colons_witness :
  hefty.newSnsReferenceMessage (Some Sample.topicArn) "bucketX" "eu-west-1" "b" "a" =
    (uuid ← trigger UuidNewString;
     Ret (Some {| types.Identifier := types.referenceMsgIdentifierKey;
                  types.S3Region := "eu-west-1";
                  types.S3Bucket := "bucketX";
                  types.S3Key := "765908583888" +:+ "/" +:+ uuid;
                  types.Md5DigestMsgBody := "b";
                  types.Md5DigestMsgAttr := "a" |}, None)).
Proof.
  destruct newSnsReferenceMessage_by_colons as [_ H].
  apply (H "arn" "aws" "sns" "us-west-2" "765908583888" "MyTopic"); reflexivity.
Defined.

(** X3. The text under a wrapped receipt handle has four pieces and
    one more for every [|] in the queue's handle, the bucket and the key.
    When any of the three holds a [|], the delete of the wrapped handle
    fails with the error for the number of tokens and calls neither the
    blob store nor the queue: such a message cannot be deleted through
    the wrapper. *)
Theorem piped_handle_cannot_be_deleted :
  (forall receiptHandle s3Bucket s3Key : string,
     List.length (Go.Split (DeleteFlow.wire receiptHandle s3Bucket s3Key) "|") =
       (4 + occurrences receiptHandle "|" + occurrences s3Bucket "|"
          + occurrences s3Key "|")%nat) /\
  (forall (client : SqsClientWrapper.t) (p : sqs.DeleteMessageInput)
          (receiptHandle s3Bucket s3Key : string),
     sqs.ReceiptHandle p = Some (hefty.newReceiptHandle receiptHandle s3Bucket s3Key) ->
     contains receiptHandle "|" || contains s3Bucket "|" || contains s3Key "|" = true ->
     forall (W : Type) (h : handler W) (w : W),
       run h (hefty.DeleteHeftyMessage client (Some p)) w =
         (Some (p, (None, Some DeleteFlow.malformed)), w, [])).
Proof.
  assert (L : forall rh b k,
    List.length (Go.Split (DeleteFlow.wire rh b k) "|") =
      (4 + occurrences rh "|" + occurrences b "|" + occurrences k "|")%nat).
  { intros rh b k. rewrite Split_length. unfold DeleteFlow.wire.
    rewrite !occurrences_app. cbn. lia. }
  split; [exact L|].
  intros client p rh b k Hp Hpipe W h w.
  rewrite (delete_malformed client p _ Hp _ (wire_decodes rh b k)); [reflexivity| |].
  - rewrite string_of_list_byte_of_string. apply wire_has_prefix.
  - rewrite string_of_list_byte_of_string, L.
    assert (occurrences rh "|" <> O \/ occurrences b "|" <> O \/ occurrences k "|" <> O)
      as [H|[H|H]]; [|lia..].
    apply orb_true_iff in Hpipe as [Hpipe|Hpipe];
      [apply orb_true_iff in Hpipe as [Hpipe|Hpipe]|].
    + left. intros E. apply contains_occurrences in E. congruence.
    + right. left. intros E. apply contains_occurrences in E. congruence.
    + right. right. intros E. apply contains_occurrences in E. congruence.
Qed.

Lemma piped_handle_cannot_be_deleted_witness :
  run Sample.respond
    (hefty.DeleteHeftyMessage Sample.client
       (Some {| sqs.dQueueUrl := Some Sample.queueUrl;
                sqs.ReceiptHandle := Some (hefty.newReceiptHandle "rh|1" "bucketX" "key/123") |}))
    Sample.idle =
  (Some ({| sqs.dQueueUrl := Some Sample.queueUrl;
            sqs.ReceiptHandle := Some (hefty.newReceiptHandle "rh|1" "bucketX" "key/123") |},
         (None, Some DeleteFlow.malformed)), Sample.idle, []).
Proof.
  destruct piped_handle_cannot_be_deleted as [_ H].
  apply (H Sample.client _ "rh|1" "bucketX" "key/123"); reflexivity.
Defined.

(** ** The calls of a send and of a publish *)

Lemma send_cases (client : SqsClientWrapper.t) (params : option sqs.SendMessageInput) :
  hefty.SendHeftyMessage client params = hefty.SendMessage params \/
  (exists e, hefty.SendHeftyMessage client params = Ret (params, (None, Some e))) \/
  (exists p size url,
     params = Some p /\
     hefty.SendHeftyMessage client params = Flow.offload client p size url).
Proof.
  destruct params as [p|]; [|left; reflexivity].
  destruct (sqs.MessageBody p) as [body|] eqn:Hbody;
    [|left; unfold hefty.SendHeftyMessage; now rewrite Hbody].
  destruct (decide (body = EmptyString)) as [->|Hne];
    [left; unfold hefty.SendHeftyMessage; now rewrite Hbody|].
  destruct (hefty.msgSize_range (map_to_list (sqs.MessageAttributes p))
              (Go.int_add 0 (Go.len body))) as [size [e|]] eqn:Hrange.
  - right. left. eexists. unfold hefty.SendHeftyMessage, hefty.msgSize.
    rewrite Hbody, (len_nonempty body Hne). cbn [mbind prog_bind bind]. rewrite Hrange.
    reflexivity.
  - assert (Hsize : hefty.msgSize p = Ret (size, None))
      by (unfold hefty.msgSize; now rewrite Hbody, Hrange).
    destruct (Z_le_gt_dec size hefty.MaxSqsMessageLengthBytes) as [Hle|Hgt].
    { left. apply (send_inline client p body size Hbody Hne Hsize Hle). }
    destruct (Z_le_gt_dec size hefty.MaxHeftyMessageLengthBytes) as [Hle|Hgt'].
    + assert (Hb : hefty.MaxSqsMessageLengthBytes < size <= hefty.MaxHeftyMessageLengthBytes)
        by lia.
      destruct (sqs.QueueUrl p) as [url|] eqn:Hurl.
      * destruct (decide (List.length (Go.Split url "/") = 5%nat)) as [Hn|Hn].
        -- right. right. exists p, size, url. split; [reflexivity|].
           apply (send_offload client p body size Hbody Hne Hsize Hb url Hurl Hn).
        -- right. left.
           destruct (send_no_reference client p body size Hbody Hne Hsize Hb) as [e ->];
             [|eauto].
           right. exists url. split; [exact Hurl | exact Hn].
      * right. left.
        destruct (send_no_reference client p body size Hbody Hne Hsize Hb) as [e ->];
          [|eauto].
        left. exact Hurl.
    + right. left. eexists. apply (send_reject client p body size Hbody Hne Hsize Hgt').
Qed.

Lemma run_SendMessage {W : Type} (h : handler W) (w : W) params :
  run h (hefty.SendMessage params) w =
    let '(a, w1) := h _ (SqsSendMessage params) w in
    (Some (params, a), w1, [EvSqsSendMessage params a]).
Proof.
  unfold hefty.SendMessage. cbn [run mbind prog_bind bind trigger Event].
  destruct (h _ (SqsSendMessage params) w) as [a w1]. reflexivity.
Qed.

Lemma run_Publish {W : Type} (h : handler W) (w : W) params :
  run h (hefty.Publish params) w =
    let '(a, w1) := h _ (SnsPublish params) w in
    (Some (params, a), w1, [EvSnsPublish params a]).
Proof.
  unfold hefty.Publish. cbn [run mbind prog_bind bind trigger Event].
  destruct (h _ (SnsPublish params) w) as [a w1]. reflexivity.
Qed.

(** X4. A send or a publish without input, without body or with an
    empty body is handed to the SDK as it is: the one call made is the
    native send, or publish, with the input of the caller, and its answer
    is returned. No size is computed, whatever the attributes and the
    destination are, so that an attribute of a type that is not supported
    is not reported and nothing is uploaded. *)
Theorem unsized_messages_go_to_the_sdk :
  (forall (client : SqsClientWrapper.t) (params : option sqs.SendMessageInput),
     unsized (sqs.MessageBody <$> params) ->
     forall (W : Type) (h : handler W) (w : W),
       run h (hefty.SendHeftyMessage client params) w =
         let '(a, w1) := h _ (SqsSendMessage params) w in
         (Some (params, a), w1, [EvSqsSendMessage params a])) /\
  (forall (wrapper : SnsClientWrapper.t) (params : option sns.PublishInput),
     unsized (sns.Message <$> params) ->
     forall (W : Type) (h : handler W) (w : W),
       run h (hefty.PublishHeftyMessage wrapper params) w =
         let '(a, w1) := h _ (SnsPublish params) w in
         (Some (params, a), w1, [EvSnsPublish params a])).
Proof.
  split.
  - intros client params H W h w. rewrite <- run_SendMessage. f_equal.
    unfold hefty.SendHeftyMessage.
    destruct params as [p|]; [|reflexivity]. cbn [fmap option_fmap option_map] in H.
    destruct H as [H|[H|H]]; [discriminate| |]; simplify_eq; now rewrite H.
  - intros wrapper params H W h w. rewrite <- run_Publish. f_equal.
    unfold hefty.PublishHeftyMessage.
    destruct params as [p|]; [|reflexivity]. cbn [fmap option_fmap option_map] in H.
    destruct H as [H|[H|H]]; [discriminate| |]; simplify_eq; now rewrite H.
Qed.

Lemma unsized_messages_go_to_the_sdk_witness :
  run Sample.respond
    (hefty.SendHeftyMessage Sample.client
       (Some {| sqs.MessageBody := Some EmptyString;
                sqs.MessageAttributes := <["k" := Sample.flag]> ∅;
                sqs.QueueUrl := None |}))
    Sample.idle =
  (Some (Some {| sqs.MessageBody := Some EmptyString;
                 sqs.MessageAttributes := <["k" := Sample.flag]> ∅;
                 sqs.QueueUrl := None |},
         (Some Sample.sent, None)),
   Sample.set_queue [{| sqs.MessageBody := Some EmptyString;
                        sqs.MessageAttributes := <["k" := Sample.flag]> ∅;
                        sqs.QueueUrl := None |}] Sample.idle,
   [EvSqsSendMessage (Some {| sqs.MessageBody := Some EmptyString;
                              sqs.MessageAttributes := <["k" := Sample.flag]> ∅;
                              sqs.QueueUrl := None |})
      (Some Sample.sent, None)]).
Proof.
  destruct unsized_messages_go_to_the_sdk as [H _].
  rewrite H; [reflexivity|]. right. right. reflexivity.
Defined.

(** X5. The calls of a send, for every input and every behaviour of
    the collaborators, are none, or the native send alone, or a UUID and
    an upload that fails, or a UUID, an upload that succeeds and one send:
    at most one upload and one send, no send after a failed upload, and
    never a receive, a download or a delete. The send panics in one case
    only: the queue answers the send of the reference with neither an
    output nor an error, and the digests are written into the missing
    output. *)
Theorem send_calls (client : SqsClientWrapper.t) (params : option sqs.SendMessageInput)
    (W : Type) (h : handler W) (w : W) :
  sendCalls (trace (run h (hefty.SendHeftyMessage client params) w)) /\
  (result (run h (hefty.SendHeftyMessage client params) w) = None <->
   exists uuid bucket key body q,
     trace (run h (hefty.SendHeftyMessage client params) w) =
       [EvUuidNewString uuid; EvS3Upload bucket key body None;
        EvSqsSendMessage q (None, None)]).
Proof.
  destruct (send_cases client params) as [-> | [[e ->] | (p & size & url & -> & ->)]].
  - rewrite run_SendMessage. destruct (h _ (SqsSendMessage params) w) as [a w1].
    cbn [trace result fst snd]. split; [constructor|].
    split; [discriminate|]. intros (? & ? & ? & ? & ? & H). discriminate H.
  - cbn [run trace result fst snd]. split; [constructor|].
    split; [discriminate|]. intros (? & ? & ? & ? & ? & H). discriminate H.
  - destruct (run_offload h client p size url w) as (uuid & w1 & aup & w2 & _ & _ & H).
    cbv zeta in H. destruct aup as [e|].
    + rewrite H. cbn [trace result fst snd]. split; [constructor|].
      split; [discriminate|]. intros (? & ? & ? & ? & ? & E). discriminate E.
    + destruct H as (a & w3 & _ & ->). cbn [trace result fst snd]. split; [constructor|].
      destruct a as [[out|] [e|]]; cbn [sendOutcome].
      * split; [discriminate|]. intros (? & ? & ? & ? & ? & E). discriminate E.
      * split; [discriminate|]. intros (? & ? & ? & ? & ? & E). discriminate E.
      * split; [discriminate|]. intros (? & ? & ? & ? & ? & E). discriminate E.
      * split; [|reflexivity]. intros _. eexists _, _, _, _, _. reflexivity.
Qed.

Lemma send_calls_witness :
  result (run mute (hefty.SendHeftyMessage Sample.client (Some Sample.scenarioA)) tt) = None.
Proof.
  apply (send_calls Sample.client (Some Sample.scenarioA) unit mute tt).
  rewrite (send_offload Sample.client Sample.scenarioA Sample.bodyA 300000 scenarioA_body
             scenarioA_nonempty scenarioA_size scenarioA_between Sample.queueUrl eq_refl eq_refl).
  eexists _, _, _, _, _. reflexivity.
Defined.

Lemma publish_cases (wrapper : SnsClientWrapper.t) (params : option sns.PublishInput) :
  hefty.PublishHeftyMessage wrapper params = hefty.Publish params \/
  (exists q e, hefty.PublishHeftyMessage wrapper params = Ret (q, (None, Some e))) \/
  (exists p message size arn,
     params = Some p /\
     hefty.PublishHeftyMessage wrapper params = SnsFlow.offload wrapper p message size arn).
Proof.
  destruct params as [p|]; [|left; reflexivity].
  destruct (sns.Message p) as [message|] eqn:Hm;
    [|left; unfold hefty.PublishHeftyMessage; now rewrite Hm].
  destruct (decide (message = EmptyString)) as [->|Hne];
    [left; unfold hefty.PublishHeftyMessage; now rewrite Hm|].
  destruct (messages.MessageSize (Some message)
              (messages.MapFromSnsMessageAttributeValues (sns.MessageAttributes p)))
    as [size [e|]] eqn:Hsize.
  - right. left. eexists _, _. unfold hefty.PublishHeftyMessage.
    rewrite Hm, (len_nonempty message Hne), Hsize. reflexivity.
  - destruct (Z_le_gt_dec size hefty.MaxHeftyMessageLengthBytes) as [Hmax|Hgt].
    + assert (Hcase : (SnsClientWrapper.alwaysSendToS3 wrapper = false /\
                       size <= hefty.MaxAwsMessageLengthBytes) \/
                      (SnsClientWrapper.alwaysSendToS3 wrapper = true \/
                       hefty.MaxAwsMessageLengthBytes < size)).
      { destruct (SnsClientWrapper.alwaysSendToS3 wrapper); [right; left; reflexivity|].
        destruct (Z_le_gt_dec size hefty.MaxAwsMessageLengthBytes); [left|right; right]; auto.
        lia. }
      destruct Hcase as [[Ha Hle]|Ho].
      { left. apply (publish_inline wrapper p message size Hm Hne Hsize Ha Hle). }
      destruct (sns.TopicArn p) as [arn|] eqn:Harn.
      * destruct (decide (List.length (Go.Split arn ":") = 6%nat)) as [Hn|Hn].
        -- right. right. exists p, message, size, arn. split; [reflexivity|].
           apply (publish_offload wrapper p message size Hm Hne Hsize Ho Hmax arn Harn Hn).
        -- right. left.
           destruct (publish_no_reference wrapper p message size Hm Hne Hsize Ho Hmax)
             as [e ->]; [|eauto].
           right. exists arn. split; [exact Harn | exact Hn].
      * right. left.
        destruct (publish_no_reference wrapper p message size Hm Hne Hsize Ho Hmax)
          as [e ->]; [|eauto].
        left. exact Harn.
    + right. left. eexists _, _.
      apply (publish_reject wrapper p message size Hm Hne Hsize Hgt).
Qed.

(** X6. The calls of a publish, for every input and every behaviour of
    the collaborators, are none, or the native publish alone, or a UUID
    and an upload that fails, or a UUID, an upload that succeeds and one
    publish; no call is a delete, so that a blob uploaded before a publish
    that fails stays in the store. The publish returns in every case,
    and when the topic was called its output and error are returned as
    they are; every error a collaborator answers with is carried by the
    error returned. *)
Theorem publish_calls (wrapper : SnsClientWrapper.t) (params : option sns.PublishInput)
    (W : Type) (h : handler W) (w : W) :
  publishCalls (trace (run h (hefty.PublishHeftyMessage wrapper params) w)) /\
  exists q r,
    result (run h (hefty.PublishHeftyMessage wrapper params) w) = Some (q, r) /\
    (forall (i : nat) q' a,
       trace (run h (hefty.PublishHeftyMessage wrapper params) w) !! i
         = Some (EvSnsPublish q' a) -> r = a) /\
    (forall ev e,
       In ev (trace (run h (hefty.PublishHeftyMessage wrapper params) w)) ->
       answered_error ev = Some e ->
       exists e', r.2 = Some e' /\ carries e' e).
Proof.
  destruct (publish_cases wrapper params)
    as [-> | [(q & e & ->) | (p & message & size & arn & -> & ->)]].
  - rewrite run_Publish. destruct (h _ (SnsPublish params) w) as [a w1].
    cbn [trace result fst snd]. split; [constructor|].
    exists params, a. split; [reflexivity|]. split.
    + intros i q' a' E. index_trace i. reflexivity.
    + intros ev e [<-|[]] He. cbn [answered_error] in He.
      exists e. split; [exact He|]. left. reflexivity.
  - cbn [run trace result fst snd]. split; [constructor|].
    exists q, (None, Some e). split; [reflexivity|]. split.
    + intros i q' a' E. destruct i; discriminate E.
    + intros ev e0 [].
  - destruct (run_publish_offload h wrapper p message size arn w)
      as (uuid & w1 & aup & w2 & _ & _ & H).
    cbv zeta in H. destruct aup as [e|].
    + rewrite H. cbn [trace result fst snd]. split; [constructor|].
      eexists _, _. split; [reflexivity|]. split.
      * intros i q' a' E. index_trace i.
      * intros ev e0 [<-|[<-|[]]] He; cbn [answered_error] in He; [discriminate|].
        simplify_eq. eexists. split; [reflexivity|]. right. eexists. reflexivity.
    + destruct H as (a & w3 & _ & ->). cbn [trace result fst snd]. split; [constructor|].
      eexists _, _. split; [reflexivity|]. split.
      * intros i q' a' E. index_trace i. reflexivity.
      * intros ev e0 [<-|[<-|[<-|[]]]] He; cbn [answered_error] in He; try discriminate.
        exists e0. split; [exact He|]. left. reflexivity.
Qed.

(** ** The receive, message by message *)

Section ReceiveAll.

Variable Unmarshal : list byte -> hefty.referenceMsg * option error.
Variable Deserialize : list byte -> hefty.largeSqsMsg * option error.
Context {W : Type} (h : handler W).

Lemma run_substitute_outcome (m : sqsTypes.Message) (w w' : W)
    (r : sqsTypes.Message + error) (tr : list event) :
  run h (hefty.substitute Unmarshal Deserialize m) w = (Some r, w', tr) ->
  match r with
  | inl m' => exists ev, tr = [ev] /\ fetched Unmarshal Deserialize m ev m'
  | inr e => failing Unmarshal Deserialize m tr e
  end.
Proof.
  intros H. destruct (run_substitute Unmarshal Deserialize h m w w' r tr H)
    as (body & Hbody & S).
  destruct (Unmarshal (list_byte_of_string body)) as [refMsg [e0|]] eqn:U.
  - destruct S as [-> ->]. exists body. split; [exact Hbody|]. rewrite U. split; reflexivity.
  - destruct S as ([buf [e0|]] & -> & S).
    + subst r. exists body. split; [exact Hbody|]. rewrite U. eexists. split; reflexivity.
    + destruct (Deserialize buf) as [largeMsg [e0|]] eqn:D.
      * subst r. exists body. split; [exact Hbody|]. rewrite U.
        eexists. split; [reflexivity|]. exists e0. rewrite D. split; reflexivity.
      * destruct S as (rh & Hrh & ->). eexists. split; [reflexivity|].
        exists body, refMsg, buf, largeMsg, rh. auto 10.
Qed.

Lemma run_receive_range_outcome (msgs : list sqsTypes.Message) :
  forall (w w' : W) (r : list sqsTypes.Message + error) (tr : list event),
    run h (hefty.receive_range Unmarshal Deserialize msgs) w = (Some r, w', tr) ->
    match r with
    | inl msgs' => received Unmarshal Deserialize msgs tr msgs'
    | inr e =>
        exists pre m post pre' tr_pre tr_m,
          msgs = pre ++ m :: post /\
          received Unmarshal Deserialize pre tr_pre pre' /\
          marked m = true /\
          failing Unmarshal Deserialize m tr_m e /\
          tr = tr_pre ++ tr_m
    end.
Proof.
  induction msgs as [|m rest IH]; intros w w' r tr H.
  - cbn [hefty.receive_range run] in H. simplify_eq. constructor.
  - cbn [hefty.receive_range] in H. unfold mbind, prog_bind in H.
    assert (Hm := marked_lookup m).
    destruct (sqsTypes.MessageAttributes m !! hefty.heftyClientVersionMessageKey) as [v|].
    + rewrite run_bind in H.
      destruct (run h (hefty.substitute Unmarshal Deserialize m) w) as [[[r1|] w1] tr1] eqn:Hs;
        [|discriminate].
      apply run_substitute_outcome in Hs.
      destruct r1 as [m1|e].
      * destruct Hs as (ev & -> & Hf).
        rewrite run_bind in H.
        destruct (run h (hefty.receive_range Unmarshal Deserialize rest) w1)
          as [[[r2|] w2] tr2] eqn:Hr; [|discriminate].
        apply IH in Hr. cbn [run] in H.
        destruct r2 as [rest'|e]; simplify_eq; rewrite app_nil_r.
        -- now constructor.
        -- destruct Hr as (pre & m0 & post & pre' & tr_pre & tr_m & -> & Hpre & Hm0 & Hf0 & ->).
           exists (m :: pre), m0, post, (m1 :: pre'), (ev :: tr_pre), tr_m.
           split; [reflexivity|]. split; [now constructor|]. auto.
      * cbn [run] in H. simplify_eq. rewrite app_nil_r.
        exists [], m, rest, [], [], tr1. split; [reflexivity|]. split; [constructor|]. auto.
    + rewrite run_bind in H.
      destruct (run h (hefty.receive_range Unmarshal Deserialize rest) w)
        as [[[r2|] w2] tr2] eqn:Hr; [|discriminate].
      apply IH in Hr. cbn [run] in H.
      destruct r2 as [rest'|e]; simplify_eq; rewrite app_nil_r.
      * now constructor.
      * destruct Hr as (pre & m0 & post & pre' & tr_pre & tr_m & -> & Hpre & Hm0 & Hf0 & ->).
        exists (m :: pre), m0, post, (m :: pre'), tr_pre, tr_m.
        split; [reflexivity|]. split; [now constructor|]. auto.
Qed.

Lemma received_downloads msgs tr msgs' :
  received Unmarshal Deserialize msgs tr msgs' ->
  forallb is_blob_get tr = true /\
  List.length tr = List.length (filter (fun m => marked m = true) msgs) /\
  List.length msgs' = List.length msgs.
Proof.
  induction 1 as [|m rest tr rest' Hm _ (IH1 & IH2 & IH3)
                  |m ev m' rest tr rest' Hm Hf _ (IH1 & IH2 & IH3)].
  - repeat split.
  - rewrite filter_cons. case_decide; [congruence|]. cbn [List.length]. auto.
  - rewrite filter_cons. case_decide; [|congruence].
    destruct Hf as (? & ? & ? & ? & ? & _ & _ & -> & _).
    cbn [List.length forallb is_blob_get andb]. auto.
Qed.

Variables (client : SqsClientWrapper.t) (p : sqs.ReceiveMessageInput).

(** The run of a receive, in full. *)
Lemma run_receive (w : W) :
  exists a w1,
    h _ (SqsReceiveMessage (requested p)) w = (a, w1) /\
    match a with
    | (out, Some e) =>
        run h (hefty.ReceiveHeftyMessage Unmarshal Deserialize client (Some p)) w =
          (Some (requested p, (out, Some e)), w1, [EvSqsReceiveMessage (requested p) a])
    | (None, None) =>
        run h (hefty.ReceiveHeftyMessage Unmarshal Deserialize client (Some p)) w =
          (None, w1, [EvSqsReceiveMessage (requested p) a])
    | (Some o, None) =>
        match sqs.Messages o with
        | [] =>
            run h (hefty.ReceiveHeftyMessage Unmarshal Deserialize client (Some p)) w =
              (Some (requested p, (Some o, None)), w1, [EvSqsReceiveMessage (requested p) a])
        | msgs =>
            let '(r, w2, tr) :=
              run h (hefty.receive_range Unmarshal Deserialize msgs) w1 in
            run h (hefty.ReceiveHeftyMessage Unmarshal Deserialize client (Some p)) w =
              (match r with
               | None => None
               | Some (inl msgs') => Some (requested p, (Some {| sqs.Messages := msgs' |}, None))
               | Some (inr e) => Some (requested p, (None, Some e))
               end, w2, EvSqsReceiveMessage (requested p) a :: tr)
        end
    end.
Proof.
  rewrite ReceiveHeftyMessage_requested. unfold receiveFrom, mbind, prog_bind.
  rewrite run_bind. unfold trigger. cbn [run Event].
  destruct (h _ (SqsReceiveMessage (requested p)) w) as [[o [e|]] w1].
  { exists (o, Some e), w1. split; [reflexivity|]. cbn beta iota. now destruct o. }
  destruct o as [o|]; [|exists (None, None), w1; split; reflexivity].
  exists (Some o, None), w1. split; [reflexivity|].
  destruct (sqs.Messages o) as [|m rest] eqn:Hmsgs.
  - cbn [List.length Z.of_nat Z.eqb run app]. reflexivity.
  - assert (Hz : (Z.of_nat (List.length (m :: rest)) =? 0) = false)
      by (apply Z.eqb_neq; cbn [List.length]; lia).
    rewrite Hz, run_bind.
    destruct (run h (hefty.receive_range Unmarshal Deserialize (m :: rest)) w1)
      as [[[r|] w2] tr2]; [|reflexivity].
    destruct r as [msgs'|e]; cbn [run]; now rewrite app_nil_r.
Qed.

End ReceiveAll.

(** X7. A receive that succeeds has called the queue once and then
    made one download for each delivered message with the marker, in the
    order of the delivery and none for the others. Each download goes to
    the bucket and key named by the reference in the body of its own
    message, whatever the bucket of the wrapper is, and the message handed
    over holds what the bytes of that very download decode to, with the
    digests of the reference and the wrapped receipt handle. *)
Theorem receive_fetches_in_order
    (Unmarshal : list byte -> hefty.referenceMsg * option error)
    (Deserialize : list byte -> hefty.largeSqsMsg * option error)
    (client : SqsClientWrapper.t) (p : sqs.ReceiveMessageInput)
    (W : Type) (h : handler W) (w w' : W) q (out : sqs.ReceiveMessageOutput) tr :
  run h (hefty.ReceiveHeftyMessage Unmarshal Deserialize client (Some p)) w =
    (Some (q, (Some out, None)), w', tr) ->
  exists delivered tr',
    tr = EvSqsReceiveMessage (requested p) (Some delivered, None) :: tr' /\
    received Unmarshal Deserialize (sqs.Messages delivered) tr' (sqs.Messages out).
Proof.
  intros H.
  destruct (run_receive Unmarshal Deserialize h client p w) as ([o [e|]] & w1 & Hq & R).
  { destruct o; rewrite R in H; discriminate H. }
  destruct o as [o|]; [|rewrite R in H; discriminate H].
  exists o. destruct (sqs.Messages o) as [|m rest] eqn:Hmsgs.
  - rewrite R in H. simplify_eq. exists []. split; [reflexivity|]. rewrite Hmsgs. constructor.
  - destruct (run h (hefty.receive_range Unmarshal Deserialize (m :: rest)) w1)
      as [[r w2] tr2] eqn:Hr.
    rewrite R in H. destruct r as [[msgs'|e]|]; simplify_eq.
    exists tr2. split; [reflexivity|].
    apply (run_receive_range_outcome Unmarshal Deserialize h _ _ _ _ _ Hr).
Qed.

Lemma receive_fetches_in_order_witness :
  exists delivered tr',
    [EvSqsReceiveMessage (requested Sample.request)
       (Some {| sqs.Messages := [Sample.marker; Sample.hello] |}, None);
     EvS3Download "bucketX" (hefty.S3Key Sample.reference)
       (list_byte_of_string "a large body", None)] =
      EvSqsReceiveMessage (requested Sample.request) (Some delivered, None) :: tr' /\
    received Sample.Unmarshal Sample.Deserialize (sqs.Messages delivered) tr'
      [substituted Sample.marker Sample.reference
         {| hefty.Body := Some "a large body"; hefty.MessageAttributes := ∅ |} "rh1";
       Sample.hello].
Proof.
  exact (receive_fetches_in_order _ _ _ _ _ Sample.respond _ _ _ _ _ sample_receive).
Defined.

(** X8. A receive that returns an error has either got it from the
    queue, and returns the answer of the queue as it is after that one
    call, or has met a message with the marker that it cannot fetch: the
    body is not a reference, the download fails or the bytes do not
    decode. It then returns no output at all, so that the messages
    replaced before and the messages without marker are withheld with it,
    and it stops there: the calls are the downloads of the messages before
    the failing one and at most one for the failing one, and none for the
    messages after it. *)
Theorem failed_fetch_withholds_the_delivery
    (Unmarshal : list byte -> hefty.referenceMsg * option error)
    (Deserialize : list byte -> hefty.largeSqsMsg * option error)
    (client : SqsClientWrapper.t) (p : sqs.ReceiveMessageInput)
    (W : Type) (h : handler W) (w w' : W) q out (e : error) tr :
  run h (hefty.ReceiveHeftyMessage Unmarshal Deserialize client (Some p)) w =
    (Some (q, (out, Some e)), w', tr) ->
  tr = [EvSqsReceiveMessage (requested p) (out, Some e)] \/
  out = None /\
  exists delivered pre m post pre' tr_pre tr_m,
    tr = EvSqsReceiveMessage (requested p) (Some delivered, None) :: tr_pre ++ tr_m /\
    sqs.Messages delivered = pre ++ m :: post /\
    received Unmarshal Deserialize pre tr_pre pre' /\
    marked m = true /\
    failing Unmarshal Deserialize m tr_m e.
Proof.
  intros H.
  destruct (run_receive Unmarshal Deserialize h client p w) as ([o [e0|]] & w1 & Hq & R).
  { left. destruct o; rewrite R in H; now simplify_eq. }
  destruct o as [o|]; [|rewrite R in H; discriminate H].
  destruct (sqs.Messages o) as [|m rest] eqn:Hmsgs; [rewrite R in H; discriminate H|].
  destruct (run h (hefty.receive_range Unmarshal Deserialize (m :: rest)) w1)
    as [[r w2] tr2] eqn:Hr.
  rewrite R in H. destruct r as [[msgs'|e1]|]; simplify_eq.
  right. split; [reflexivity|].
  destruct (run_receive_range_outcome Unmarshal Deserialize h _ _ _ _ _ Hr)
    as (pre & m0 & post & pre' & tr_pre & tr_m & E & Hpre & Hm0 & Hf & ->).
  exists o, pre, m0, post, pre', tr_pre, tr_m. rewrite Hmsgs. auto 10.
Qed.

Lemma sample_receive_emptied :
  run Sample.respond
    (hefty.ReceiveHeftyMessage Sample.Unmarshal Sample.Deserialize Sample.client
       (Some Sample.request)) emptied
  = (Some (requested Sample.request,
           (None, Some (Errorf "unable to get message from s3. %v"
                          [ArgError (ClientError "no such key")]))),
     emptied,
     [EvSqsReceiveMessage (requested Sample.request)
        (Some {| sqs.Messages := [Sample.marker; Sample.hello] |}, None);
      EvS3Download "bucketX" (hefty.S3Key Sample.reference)
        ([], Some (ClientError "no such key"))]).
Proof. vm_compute. reflexivity. Qed.

Lemma failed_fetch_withholds_the_delivery_witness :
  exists delivered pre m post pre' tr_pre tr_m,
    [EvSqsReceiveMessage (requested Sample.request)
       (Some {| sqs.Messages := [Sample.marker; Sample.hello] |}, None);
     EvS3Download "bucketX" (hefty.S3Key Sample.reference)
       ([], Some (ClientError "no such key"))] =
      EvSqsReceiveMessage (requested Sample.request) (Some delivered, None)
        :: tr_pre ++ tr_m /\
    sqs.Messages delivered = pre ++ m :: post /\
    received Sample.Unmarshal Sample.Deserialize pre tr_pre pre' /\
    marked m = true /\
    failing Sample.Unmarshal Sample.Deserialize m tr_m
      (Errorf "unable to get message from s3. %v" [ArgError (ClientError "no such key")]).
Proof.
  destruct (failed_fetch_withholds_the_delivery _ _ _ _ _ Sample.respond _ _ _ _ _ _
              sample_receive_emptied) as [H | [_ H]]; [discriminate H | exact H].
Defined.

Section ReceiveReturns.

Variable Unmarshal : list byte -> hefty.referenceMsg * option error.
Variable Deserialize : list byte -> hefty.largeSqsMsg * option error.
Context {W : Type} (h : handler W).

Lemma substitute_returns (m : sqsTypes.Message) (w : W) :
  is_Some (sqsTypes.Body m) -> is_Some (sqsTypes.ReceiptHandle m) ->
  is_Some (result (run h (hefty.substitute Unmarshal Deserialize m) w)).
Proof.
  intros [body Hb] [rh Hrh]. unfold hefty.substitute. rewrite Hb, Hrh.
  destruct (Unmarshal (list_byte_of_string body)) as [refMsg [e|]]; [now eexists|].
  cbn [run mbind prog_bind bind trigger Event].
  destruct (h _ (S3Download (hefty.S3Bucket refMsg) (hefty.S3Key refMsg)) w)
    as [[buf [e|]] w1]; [now eexists|].
  destruct (Deserialize buf) as [largeMsg [e|]]; now eexists.
Qed.

Lemma receive_range_returns (msgs : list sqsTypes.Message) :
  Forall (fun m => marked m = true ->
                   is_Some (sqsTypes.Body m) /\ is_Some (sqsTypes.ReceiptHandle m)) msgs ->
  forall w : W, is_Some (result (run h (hefty.receive_range Unmarshal Deserialize msgs) w)).
Proof.
  induction 1 as [|m rest Hm _ IH]; intros w; [now eexists|].
  cbn [hefty.receive_range]. unfold mbind, prog_bind.
  rewrite marked_lookup in Hm.
  destruct (sqsTypes.MessageAttributes m !! hefty.heftyClientVersionMessageKey) as [v|].
  - destruct (Hm eq_refl) as [Hb Hrh]. rewrite run_bind.
    destruct (substitute_returns m w Hb Hrh) as [r Hr].
    destruct (run h (hefty.substitute Unmarshal Deserialize m) w) as [[r1 w1] tr1].
    cbn [result fst] in Hr. subst r1. destruct r as [m'|e]; [|now eexists].
    rewrite run_bind. destruct (IH w1) as [r Hr].
    destruct (run h (hefty.receive_range Unmarshal Deserialize rest) w1) as [[r2 w2] tr2].
    cbn [result fst] in Hr. subst r2. now eexists.
  - rewrite run_bind. destruct (IH w) as [r Hr].
    destruct (run h (hefty.receive_range Unmarshal Deserialize rest) w) as [[r2 w2] tr2].
    cbn [result fst] in Hr. subst r2. now eexists.
Qed.

End ReceiveReturns.

(** X9. A receive returns, and leaves in the input of the caller the
    request it made, whenever the queue answers with an error or with an
    output in which every message with the marker has a body and a
    receipt handle. It panics without a call on a [nil] input, which the
    send and the publish hand to the SDK, and after the one call to the
    queue when the queue answers with neither an output nor an error. *)
Theorem receive_returns
    (Unmarshal : list byte -> hefty.referenceMsg * option error)
    (Deserialize : list byte -> hefty.largeSqsMsg * option error)
    (client : SqsClientWrapper.t) (W : Type) (h : handler W) (w : W) :
  (forall p : sqs.ReceiveMessageInput,
     wellFormed (h _ (SqsReceiveMessage (requested p)) w).1 ->
     exists r,
       result (run h (hefty.ReceiveHeftyMessage Unmarshal Deserialize client (Some p)) w)
         = Some (requested p, r)) /\
  (forall p : sqs.ReceiveMessageInput,
     (h _ (SqsReceiveMessage (requested p)) w).1 = (None, None) ->
     result (run h (hefty.ReceiveHeftyMessage Unmarshal Deserialize client (Some p)) w) = None) /\
  run h (hefty.ReceiveHeftyMessage Unmarshal Deserialize client None) w = (None, w, []).
Proof.
  split; [|split; [|reflexivity]].
  - intros p Hwf.
    destruct (run_receive Unmarshal Deserialize h client p w) as ([o [e|]] & w1 & Hq & R).
    { destruct o; rewrite R; now eexists. }
    rewrite Hq in Hwf. cbn [fst wellFormed] in Hwf.
    destruct o as [o|]; [|destruct Hwf].
    destruct (sqs.Messages o) as [|m rest] eqn:Hmsgs; [rewrite R; now eexists|].
    destruct (receive_range_returns Unmarshal Deserialize h (m :: rest) Hwf w1) as [r Hr].
    destruct (run h (hefty.receive_range Unmarshal Deserialize (m :: rest)) w1)
      as [[r1 w2] tr2].
    cbn [result fst] in Hr. subst r1. rewrite R. destruct r; now eexists.
  - intros p Hq.
    destruct (run_receive Unmarshal Deserialize h client p w) as (a & w1 & Ha & R).
    rewrite Ha in Hq. cbn [fst] in Hq. subst a. now rewrite R.
Qed.

Lemma receive_returns_witness :
  exists r,
    result (run Sample.respond
              (hefty.ReceiveHeftyMessage Sample.Unmarshal Sample.Deserialize Sample.client
                 (Some Sample.request)) emptied)
      = Some (requested Sample.request, r).
Proof.
  destruct (receive_returns Sample.Unmarshal Sample.Deserialize Sample.client _
              Sample.respond emptied) as [H _].
  apply H. cbn.
  constructor; [intros _; split; eexists; reflexivity|].
  constructor; [intros _; split; eexists; reflexivity|].
  constructor.
Defined.

Section Polling.

Variable Unmarshal : list byte -> hefty.referenceMsg * option error.
Variable Deserialize : list byte -> hefty.largeSqsMsg * option error.
Context {W : Type} (h : handler W).
Variable client : SqsClientWrapper.t.

Lemma receive_leaves_request (p : sqs.ReceiveMessageInput) (w w' : W) q r tr :
  run h (hefty.ReceiveHeftyMessage Unmarshal Deserialize client (Some p)) w
    = (Some (q, r), w', tr) ->
  q = requested p.
Proof.
  intros H.
  destruct (run_receive Unmarshal Deserialize h client p w) as ([o [e|]] & w1 & Hq & R).
  { destruct o; rewrite R in H; now simplify_eq. }
  destruct o as [o|]; [|rewrite R in H; discriminate H].
  destruct (sqs.Messages o) as [|m rest] eqn:Hmsgs; [rewrite R in H; now simplify_eq|].
  destruct (run h (hefty.receive_range Unmarshal Deserialize (m :: rest)) w1)
    as [[r1 w2] tr2].
  rewrite R in H. destruct r1 as [[msgs'|e]|]; now simplify_eq.
Qed.

Lemma run_poll (n : nat) :
  forall (p : sqs.ReceiveMessageInput) (w w' : W) q tr,
    run h (poll Unmarshal Deserialize client n p) w = (Some q, w', tr) ->
    sqs.MessageAttributeNames q =
      sqs.MessageAttributeNames p ++ repeat hefty.heftyClientVersionMessageKey n /\
    sqs.rQueueUrl q = sqs.rQueueUrl p.
Proof.
  induction n as [|n IH]; intros p w w' q tr H.
  - cbn [poll run] in H. simplify_eq. cbn [repeat]. now rewrite app_nil_r.
  - cbn [poll] in H. unfold mbind, prog_bind in H. rewrite run_bind in H.
    destruct (run h (hefty.ReceiveHeftyMessage Unmarshal Deserialize client (Some p)) w)
      as [[[[p' r]|] w1] tr1] eqn:Hr; [|discriminate H].
    apply receive_leaves_request in Hr. subst p'.
    destruct (run h (poll Unmarshal Deserialize client n (requested p)) w1)
      as [[q' w2] tr2] eqn:Hp.
    simplify_eq. destruct (IH _ _ _ _ _ Hp) as [Hn Hu].
    rewrite Hn, Hu. unfold requested.
    cbn [hefty.set_MessageAttributeNames sqs.MessageAttributeNames sqs.rQueueUrl repeat].
    split; [|reflexivity]. rewrite <- app_assoc. reflexivity.
Qed.

End Polling.

(** X10. A receive that returns, with messages or with an error, has
    added the name of the marker attribute to the attribute names in the
    input of the caller, also when the name is among them already. A
    caller that polls [n] times with the same input ends with [n] more
    names than it started with, and with its queue URL as it was. *)
Theorem polling_grows_the_request
    (Unmarshal : list byte -> hefty.referenceMsg * option error)
    (Deserialize : list byte -> hefty.largeSqsMsg * option error)
    (client : SqsClientWrapper.t) (W : Type) (h : handler W) :
  (forall (p : sqs.ReceiveMessageInput) (w w' : W) q r tr,
     run h (hefty.ReceiveHeftyMessage Unmarshal Deserialize client (Some p)) w
       = (Some (q, r), w', tr) ->
     sqs.MessageAttributeNames q =
       sqs.MessageAttributeNames p ++ [hefty.heftyClientVersionMessageKey]) /\
  (forall (n : nat) (p : sqs.ReceiveMessageInput) (w w' : W) q tr,
     run h (poll Unmarshal Deserialize client n p) w = (Some q, w', tr) ->
     sqs.MessageAttributeNames q =
       sqs.MessageAttributeNames p ++ repeat hefty.heftyClientVersionMessageKey n /\
     sqs.rQueueUrl q = sqs.rQueueUrl p).
Proof.
  split.
  - intros p w w' q r tr H.
    now rewrite (receive_leaves_request Unmarshal Deserialize h client p w w' q r tr H).
  - intros n. apply run_poll.
Qed.

Lemma sample_poll :
  exists tr,
    run Sample.respond (poll Sample.Unmarshal Sample.Deserialize Sample.client 3 Sample.request)
      emptied
    = (Some {| sqs.rQueueUrl := Some Sample.queueUrl;
               sqs.MessageAttributeNames :=
                 ["hefty-client-version"; "hefty-client-version"; "hefty-client-version"] |},
       emptied, tr).
Proof. eexists. vm_compute. reflexivity. Qed.

Lemma polling_grows_the_request_witness :
  sqs.MessageAttributeNames
    {| sqs.rQueueUrl := Some Sample.queueUrl;
       sqs.MessageAttributeNames :=
         ["hefty-client-version"; "hefty-client-version"; "hefty-client-version"] |} =
    sqs.MessageAttributeNames Sample.request ++ repeat hefty.heftyClientVersionMessageKey 3.
Proof.
  destruct sample_poll as [tr H].
  destruct (polling_grows_the_request Sample.Unmarshal Sample.Deserialize Sample.client _
              Sample.respond) as [_ G].
  exact (proj1 (G 3%nat Sample.request emptied emptied _ tr H)).
Defined.

Lemma received_lookup Unmarshal Deserialize msgs tr msgs' :
  received Unmarshal Deserialize msgs tr msgs' ->
  forall (i : nat) m, msgs !! i = Some m ->
    if marked m
    then exists m' ev, msgs' !! i = Some m' /\ In ev tr /\
                       fetched Unmarshal Deserialize m ev m'
    else msgs' !! i = Some m.
Proof.
  induction 1 as [|m0 rest tr rest' Hm _ IH|m0 ev m1 rest tr rest' Hm Hf _ IH];
    intros i m Hi.
  - destruct i; discriminate Hi.
  - destruct i as [|i].
    + cbn in Hi. simplify_eq. rewrite Hm. reflexivity.
    + cbn in Hi. specialize (IH i m Hi). destruct (marked m); [|exact IH].
      destruct IH as (m' & ev & H1 & H2 & H3). exists m', ev. auto.
  - destruct i as [|i].
    + cbn in Hi. simplify_eq. rewrite Hm. exists m1, ev.
      split; [reflexivity|]. split; [left; reflexivity | exact Hf].
    + cbn in Hi. specialize (IH i m Hi). destruct (marked m); [|exact IH].
      destruct IH as (m' & ev' & H1 & H2 & H3). exists m', ev'.
      split; [exact H1|]. split; [right; exact H2 | exact H3].
Qed.

(** X11. Receive and delete fit together. In a receive that succeeds,
    a delivered message without the marker is handed over at its place as
    it is, with the receipt handle of the queue. A delivered message with
    the marker is handed over at its place with a receipt handle that
    wraps the handle of the queue and the bucket and key from which its
    blob was downloaded in this receive; when none of the three holds a
    [|], the delete of that handle deletes the blob at this very bucket
    and key and then the queue message under the handle of the queue. *)
Theorem received_handle_deletes_the_blob_fetched
    (Unmarshal : list byte -> hefty.referenceMsg * option error)
    (Deserialize : list byte -> hefty.largeSqsMsg * option error)
    (client : SqsClientWrapper.t) (p : sqs.ReceiveMessageInput)
    (W : Type) (h : handler W) (w w' : W) q (out delivered : sqs.ReceiveMessageOutput)
    a tr (i : nat) (m : sqsTypes.Message) :
  run h (hefty.ReceiveHeftyMessage Unmarshal Deserialize client (Some p)) w =
    (Some (q, (Some out, None)), w', EvSqsReceiveMessage (requested p) (Some delivered, a) :: tr) ->
  sqs.Messages delivered !! i = Some m ->
  if marked m then
    exists m' body receiptHandle buf,
      sqs.Messages out !! i = Some m' /\
      sqsTypes.Body m = Some body /\
      sqsTypes.ReceiptHandle m = Some receiptHandle /\
      let refMsg := (Unmarshal (list_byte_of_string body)).1 in
      In (EvS3Download (hefty.S3Bucket refMsg) (hefty.S3Key refMsg) (buf, None)) tr /\
      sqsTypes.ReceiptHandle m' =
        Some (hefty.newReceiptHandle receiptHandle (hefty.S3Bucket refMsg) (hefty.S3Key refMsg)) /\
      (valid receiptHandle -> valid (hefty.S3Bucket refMsg) -> valid (hefty.S3Key refMsg) ->
       forall (client' : SqsClientWrapper.t) (d : sqs.DeleteMessageInput),
         sqs.ReceiptHandle d = sqsTypes.ReceiptHandle m' ->
         hefty.DeleteHeftyMessage client' (Some d) =
           DeleteFlow.offloaded d receiptHandle (hefty.S3Bucket refMsg) (hefty.S3Key refMsg))
  else sqs.Messages out !! i = Some m.
Proof.
  intros H Hi.
  destruct (run_receive Unmarshal Deserialize h client p w) as ([o [e|]] & w1 & Hq & R).
  { destruct o; rewrite R in H; discriminate H. }
  destruct o as [o|]; [|rewrite R in H; discriminate H].
  assert (Hrec : delivered = o /\
                 received Unmarshal Deserialize (sqs.Messages o) tr (sqs.Messages out)).
  { destruct (sqs.Messages o) as [|m0 rest] eqn:Hmsgs.
    - rewrite R in H. simplify_eq. split; [reflexivity|]. rewrite Hmsgs. constructor.
    - destruct (run h (hefty.receive_range Unmarshal Deserialize (m0 :: rest)) w1)
        as [[r w2] tr2] eqn:Hr.
      rewrite R in H. destruct r as [[msgs'|e]|]; simplify_eq.
      split; [reflexivity|].
      apply (run_receive_range_outcome Unmarshal Deserialize h _ _ _ _ _ Hr). }
  destruct Hrec as [-> Hrec].
  pose proof (received_lookup _ _ _ _ _ Hrec i m Hi) as L.
  destruct (marked m); [|exact L].
  destruct L as (m' & ev & H1 & H2 & Hf).
  destruct Hf as (body & refMsg & buf & largeMsg & rh & Hb & Hu & -> & Hd & Hrh & ->).
  exists (substituted m refMsg largeMsg rh), body, rh, buf.
  split; [exact H1|]. split; [exact Hb|]. split; [exact Hrh|].
  rewrite Hu. cbn [fst]. split; [exact H2|]. split; [reflexivity|].
  intros V1 V2 V3 client' d Hd'.
  cbn [substituted sqsTypes.ReceiptHandle] in Hd'.
  apply (delete_offloaded client' d _ Hd' _ (wire_decodes _ _ _))
    with (t0 := hefty.receiptHandlePrefix).
  - rewrite string_of_list_byte_of_string. apply wire_has_prefix.
  - rewrite string_of_list_byte_of_string. now apply wire_tokens.
Qed.

Lemma received_handle_deletes_the_blob_fetched_witness :
  (exists buf,
     In (EvS3Download "bucketX" (hefty.S3Key Sample.reference) (buf, None))
       [EvS3Download "bucketX" (hefty.S3Key Sample.reference)
          (list_byte_of_string "a large body", None)]) /\
  hefty.DeleteHeftyMessage Sample.client
    (Some {| sqs.dQueueUrl := Some Sample.queueUrl;
             sqs.ReceiptHandle :=
               Some (hefty.newReceiptHandle "rh1" "bucketX" (hefty.S3Key Sample.reference)) |}) =
    DeleteFlow.offloaded
      {| sqs.dQueueUrl := Some Sample.queueUrl;
         sqs.ReceiptHandle :=
           Some (hefty.newReceiptHandle "rh1" "bucketX" (hefty.S3Key Sample.reference)) |}
      "rh1" "bucketX" (hefty.S3Key Sample.reference).
Proof.
  destruct (received_handle_deletes_the_blob_fetched _ _ _ _ _ Sample.respond _ _ _ _ _ _ _
              0%nat Sample.marker sample_receive eq_refl)
    as (m' & body & rh & buf & Hm' & Hb & Hrh & Hin & Hh & Hdel).
  injection Hm' as <-. injection Hb as <-. injection Hrh as <-.
  split; [exists buf; exact Hin|].
  apply (Hdel eq_refl eq_refl eq_refl Sample.client). reflexivity.
Defined.

(** ** The calls of a delete *)

Lemma delete_cases (client : SqsClientWrapper.t) (p : sqs.DeleteMessageInput) :
  hefty.DeleteHeftyMessage client (Some p) = hefty.DeleteMessage p \/
  (exists e, hefty.DeleteHeftyMessage client (Some p) = Ret (p, (None, Some e))) \/
  (exists receiptHandle s3Bucket s3Key,
     hefty.DeleteHeftyMessage client (Some p) =
       DeleteFlow.offloaded p receiptHandle s3Bucket s3Key).
Proof.
  destruct (sqs.ReceiptHandle p) as [handle|] eqn:Hp;
    [|left; now apply delete_without_handle].
  destruct (Base64.DecodeString handle) as [decoded|] eqn:Hd;
    [|right; left; eexists; now apply (delete_undecodable client p handle Hp)].
  destruct (Go.HasPrefix (string_of_list_byte decoded) hefty.receiptHandlePrefix) eqn:Hpre;
    [|left; now apply (delete_native client p handle Hp decoded Hd)].
  destruct (Go.Split (string_of_list_byte decoded) "|") as [|t0 [|t1 [|t2 [|t3 [|t4 ts]]]]] eqn:Ht.
  5: { right. right. exists t1, t2, t3.
       apply (delete_offloaded client p handle Hp decoded Hd Hpre t0 t1 t2 t3 Ht). }
  all: right; left; eexists;
    apply (delete_malformed client p handle Hp decoded Hd Hpre); rewrite Ht; discriminate.
Qed.

Lemma run_DeleteMessage {W : Type} (h : handler W) (w : W) d :
  run h (hefty.DeleteMessage d) w =
    let '(a, w1) := h _ (SqsDeleteMessage d) w in
    (Some (d, a), w1, [EvSqsDeleteMessage d a]).
Proof.
  unfold hefty.DeleteMessage. cbn [run mbind prog_bind bind trigger Event].
  destruct (h _ (SqsDeleteMessage d) w) as [a w1]. reflexivity.
Qed.

(** X12. The calls of a delete, for every input that is not [nil] and
    every behaviour of the collaborators, are none, or the queue delete
    alone, or a blob delete that fails, or a blob delete that succeeds and
    the queue delete: the queue is never called after a blob delete that
    failed, and nothing is sent, uploaded or downloaded. The delete
    returns in every case; when the queue was called, its answer is
    returned as it is and the input of the caller is the one the queue
    was called with, and in every other case the input is left as it was.
    On a [nil] input the delete panics without a call. *)
Theorem delete_calls (client : SqsClientWrapper.t) (W : Type) (h : handler W) (w : W) :
  (forall p : sqs.DeleteMessageInput,
     deleteCalls (trace (run h (hefty.DeleteHeftyMessage client (Some p)) w)) /\
     exists d r,
       result (run h (hefty.DeleteHeftyMessage client (Some p)) w) = Some (d, r) /\
       sqs.dQueueUrl d = sqs.dQueueUrl p /\
       (forall (i : nat) d' a,
          trace (run h (hefty.DeleteHeftyMessage client (Some p)) w) !! i
            = Some (EvSqsDeleteMessage d' a) -> d' = d /\ r = a) /\
       ((forall ev, In ev (trace (run h (hefty.DeleteHeftyMessage client (Some p)) w)) ->
                    is_queue_delete ev = false) -> d = p)) /\
  run h (hefty.DeleteHeftyMessage client None) w = (None, w, []).
Proof.
  split; [|reflexivity]. intros p.
  destruct (delete_cases client p) as [-> | [[e ->] | (rh & b & k & ->)]].
  - rewrite run_DeleteMessage. destruct (h _ (SqsDeleteMessage p) w) as [a w1].
    cbn [trace result fst snd]. split; [constructor|].
    exists p, a. split; [reflexivity|]. split; [reflexivity|]. split.
    + intros i d' a' E. index_trace i. split; reflexivity.
    + reflexivity.
  - cbn [run trace result fst snd]. split; [constructor|].
    exists p, (None, Some e). split; [reflexivity|]. split; [reflexivity|]. split.
    + intros i d' a' E. destruct i; discriminate E.
    + reflexivity.
  - unfold DeleteFlow.offloaded. cbn [run mbind prog_bind bind trigger Event].
    destruct (h _ (S3DeleteObject b k) w) as [[e|] w1].
    + cbn [run trace result fst snd]. split; [constructor|].
      exists p, (None, Some (DeleteFlow.blobDeleteError e)).
      split; [reflexivity|]. split; [reflexivity|]. split.
      * intros i d' a' E. index_trace i.
      * reflexivity.
    + rewrite run_DeleteMessage.
      destruct (h _ (SqsDeleteMessage (hefty.set_ReceiptHandle (Some rh) p)) w1) as [a w2].
      cbn [trace result fst snd]. split; [constructor|].
      exists (hefty.set_ReceiptHandle (Some rh) p), a.
      split; [reflexivity|]. split; [reflexivity|]. split.
      * intros i d' a' E. index_trace i. split; reflexivity.
      * intros H. specialize (H _ (or_intror (or_introl eq_refl))). discriminate H.
Qed.

(** ** Error messages *)

Lemma error_identifier_is_plain :
  Json.encodeString messages.errorMsgIdentifierKey =
    Json.quote +:+ messages.errorMsgIdentifierKey +:+ Json.quote.
Proof. vm_compute. reflexivity. Qed.

Lemma error_json_has_prefix (text : string) (refMsg : option types.ReferenceMsg) :
  exists rest,
    string_of_list_byte
      (messages.ToJson (Some {| messages.Identifier := messages.errorMsgIdentifierKey;
                                messages.Error := text;
                                messages.ReferenceMsg := refMsg |})).1 =
      messages.jsonErrorMsgPrefix +:+ rest.
Proof.
  unfold messages.ToJson, messages.jsonErrorMsgPrefix.
  cbn [fst Json.members messages.Identifier messages.Error messages.ReferenceMsg].
  rewrite string_of_list_byte_of_string, error_identifier_is_plain.
  eexists. rewrite !append_assoc. reflexivity.
Qed.

Lemma prefixes_differ msg :
  Go.HasPrefix msg messages.jsonErrorMsgPrefix = true ->
  Go.HasPrefix msg types.jsonReferenceMsgPrefix = false.
Proof.
  unfold messages.jsonErrorMsgPrefix, types.jsonReferenceMsgPrefix, Json.newline, Json.quote.
  push_append. destruct msg as [|c0 [|c1 msg]]; cbn [Go.HasPrefix]; [discriminate| |].
  - destruct (Ascii.eqb c0 "{"); discriminate.
  - destruct (Ascii.eqb c0 "{"); [|discriminate].
    destruct (Ascii.eqb_spec c1 "010"%char) as [->|]; [reflexivity|discriminate].
Qed.

(** X13. An error message built by [NewErrorMsg] and encoded by
    [ToJson] is recognized by [IsErrorMsg], whatever the text of the error
    and with or without a reference message, and the encoding has no
    error; [NewErrorMsg] on a [nil] error panics. No text is recognized
    both by [IsErrorMsg] and by [IsReferenceMsg]: the one prefix goes on
    with a line feed after the opening brace and the other with a quote,
    so that an encoded error message is never taken for a reference. *)
Theorem error_messages_are_recognized :
  (forall (ErrorText : error -> string) (e : error) (refMsg : option types.ReferenceMsg),
     exists msg,
       messages.NewErrorMsg ErrorText (Some e) refMsg = Some msg /\
       messages.Error msg = ErrorText e /\
       (messages.ToJson (Some msg)).2 = None /\
       messages.IsErrorMsg (string_of_list_byte (messages.ToJson (Some msg)).1) = true /\
       types.IsReferenceMsg (string_of_list_byte (messages.ToJson (Some msg)).1) = false) /\
  (forall (ErrorText : error -> string) (refMsg : option types.ReferenceMsg),
     messages.NewErrorMsg ErrorText None refMsg = None) /\
  (forall msg : string,
     messages.IsErrorMsg msg = true -> types.IsReferenceMsg msg = false).
Proof.
  split; [|split; [reflexivity|exact prefixes_differ]].
  intros ErrorText e refMsg. eexists. split; [reflexivity|].
  split; [reflexivity|]. split; [reflexivity|].
  assert (H : messages.IsErrorMsg
                (string_of_list_byte
                   (messages.ToJson
                      (Some {| messages.Identifier := messages.errorMsgIdentifierKey;
                               messages.Error := ErrorText e;
                               messages.ReferenceMsg := refMsg |})).1) = true).
  { apply HasPrefix_spec. apply error_json_has_prefix. }
  split; [exact H | apply prefixes_differ, H].
Qed.

Lemma error_messages_are_recognized_witness :
  types.IsReferenceMsg
    (string_of_list_byte
       (messages.ToJson
          (Some {| messages.Identifier := messages.errorMsgIdentifierKey;
                   messages.Error := "no such key";
                   messages.ReferenceMsg := None |})).1) = false.
Proof.
  destruct error_messages_are_recognized as (_ & _ & H).
  apply H. vm_compute. reflexivity.
Defined.

(** ** The text published for a reference *)

Lemma mild_app s t : mild (s +:+ t) = mild s && mild t.
Proof.
  induction s as [|c s IH]; push_append; [reflexivity|].
  cbn [mild]. rewrite IH. now rewrite andb_assoc.
Qed.

Lemma plain_mild s : plain s = true -> mild s = true.
Proof.
  induction s as [|c s IH]; [reflexivity|]. cbn [plain mild].
  intros H. apply andb_true_iff in H as [-> H]. now rewrite IH.
Qed.

Lemma escape_plain s : plain s = true -> Json.escape_from O O s = s.
Proof.
  induction s as [|c s IH]; [reflexivity|]. cbn [plain Json.escape_from].
  intros H. apply andb_true_iff in H as [Hc H]. unfold plainByte in Hc.
  apply andb_true_iff in Hc as [H1 H2]. rewrite H1, H2, (IH H). reflexivity.
Qed.

Lemma plainByte_cases c :
  plainByte c = true ->
  Ascii.eqb c "\" = false /\ Ascii.eqb c "010" = false /\ Ascii.eqb c "034" = false.
Proof.
  destruct c as [[] [] [] [] [] [] [] []]; vm_compute; intros H;
    first [discriminate H | repeat split].
Qed.

Lemma contains_app s t c : contains (s +:+ t) c = contains s c || contains t c.
Proof.
  induction s as [|d s IH]; push_append; [reflexivity|].
  cbn [contains]. rewrite IH. now rewrite orb_assoc.
Qed.

Lemma mild_without s :
  mild s = true -> contains s "\" = false /\ contains s "010" = false.
Proof.
  induction s as [|c s IH]; [split; reflexivity|]. cbn [mild contains].
  intros H. apply andb_true_iff in H as [Hc H]. destruct (IH H) as [-> ->].
  apply orb_true_iff in Hc as [Hc|Hc].
  - destruct (plainByte_cases c Hc) as (-> & -> & _). split; reflexivity.
  - apply Ascii.eqb_eq in Hc. subst c. split; reflexivity.
Qed.

(** The escaped form of a mild text holds no line feed. *)
Lemma escape_mild_no_newline s :
  mild s = true -> contains (Json.escape_from O O s) "010" = false.
Proof.
  induction s as [|c s IH]; [reflexivity|]. cbn [mild]. intros H.
  apply andb_true_iff in H as [Hc H]. specialize (IH H).
  apply orb_true_iff in Hc as [Hc|Hc].
  - cbn [Json.escape_from]. pose proof Hc as Hp. unfold plainByte in Hc.
    apply andb_true_iff in Hc as [-> ->].
    cbn [contains]. destruct (plainByte_cases c Hp) as (_ & -> & _). exact IH.
  - apply Ascii.eqb_eq in Hc. subst c.
    change (Json.escape_from 0 0 (String "034" s))
      with (String "\" (String "034" EmptyString) +:+ Json.escape_from 0 0 s).
    push_append. cbn [contains]. exact IH.
Qed.

(** A pattern whose first byte does not occur is never found. *)
Lemma ReplaceAll_absent s c old' new :
  contains s c = false -> Go.ReplaceAll_from O s (String c old') new = s.
Proof.
  induction s as [|d s IH]; [reflexivity|]. cbn [contains]. intros H.
  apply orb_false_iff in H as [Hd H]. cbn [Go.ReplaceAll_from Go.HasPrefix].
  rewrite Hd, (IH H). reflexivity.
Qed.

Lemma ReplaceAll_past a x c old' new :
  contains a c = false ->
  Go.ReplaceAll_from O (a +:+ x) (String c old') new =
    a +:+ Go.ReplaceAll_from O x (String c old') new.
Proof.
  induction a as [|d a IH]; push_append; [reflexivity|]. cbn [contains]. intros H.
  apply orb_false_iff in H as [Hd H].
  cbn [Go.ReplaceAll_from Go.HasPrefix]. rewrite Hd, (IH H). reflexivity.
Qed.

(** Replacing the escaped quotes of the escaped form of a mild text
    gives the text back. *)
Lemma unescape_mild s r :
  mild s = true ->
  Go.ReplaceAll_from O (Json.escape_from O O s +:+ r) (String "\" Json.quote) Json.quote =
    s +:+ Go.ReplaceAll_from O r (String "\" Json.quote) Json.quote.
Proof.
  induction s as [|c s IH]; [intros _; now push_append|]. cbn [mild]. intros H.
  apply andb_true_iff in H as [Hc H]. specialize (IH H).
  apply orb_true_iff in Hc as [Hc|Hc].
  - cbn [Json.escape_from]. pose proof Hc as Hp. unfold plainByte in Hc.
    apply andb_true_iff in Hc as [-> ->]. push_append.
    destruct (plainByte_cases c Hp) as (Hb & _ & _).
    cbn [Go.ReplaceAll_from Go.HasPrefix]. rewrite Hb, IH. reflexivity.
  - apply Ascii.eqb_eq in Hc. subst c.
    change (Json.escape_from 0 0 (String "034" s))
      with (String "\" (String "034" EmptyString) +:+ Json.escape_from 0 0 s).
    push_append. unfold Json.quote.
    cbn [Go.ReplaceAll_from Go.HasPrefix Ascii.eqb Bool.eqb String.length Nat.sub].
    push_append. fold Json.quote. rewrite IH. reflexivity.
Qed.

Lemma encode_plain s :
  plain s = true -> Json.encodeString s = Json.quote +:+ s +:+ Json.quote.
Proof. intros H. unfold Json.encodeString. now rewrite (escape_plain s H). Qed.

Lemma plain_reference_json (refMsg : types.ReferenceMsg) :
  plainReference refMsg = true ->
  mild (Json.Marshal (types.ReferenceMsg_fields refMsg)) = true.
Proof.
  unfold plainReference, types.ReferenceMsg_fields. cbn [fmap list_fmap snd forallb].
  intros H.
  apply andb_true_iff in H as [H0 H]. apply andb_true_iff in H as [H1 H].
  apply andb_true_iff in H as [H2 H]. apply andb_true_iff in H as [H3 H].
  apply andb_true_iff in H as [H4 H]. apply andb_true_iff in H as [H5 _].
  unfold Json.Marshal. cbn [Json.members].
  rewrite !encode_plain by assumption.
  rewrite !mild_app.
  rewrite (plain_mild _ H0), (plain_mild _ H1), (plain_mild _ H2), (plain_mild _ H3),
    (plain_mild _ H4), (plain_mild _ H5).
  reflexivity.
Qed.

(** X14. The text that the SNS wrapper publishes for a reference whose
    fields are plain (ASCII from the space on, without double quote,
    backslash, [&], [<] and [>]) is the compact JSON of the reference put
    as it is between [{"default":"] and ["}]: the three replacements undo
    the escaping of the inner quotes, so that the quotes of the reference
    stand unescaped inside the string. The text published, for any
    reference, starts with the member [default] and is not recognized by
    [IsReferenceMsg]. *)
Theorem published_text_of_a_reference :
  (forall refMsg : types.ReferenceMsg,
     plainReference refMsg = true ->
     SnsFlow.wire refMsg =
       "{" +:+ Json.quote +:+ "default" +:+ Json.quote +:+ ":" +:+ Json.quote
           +:+ Json.Marshal (types.ReferenceMsg_fields refMsg) +:+ Json.quote +:+ "}") /\
  (forall refMsg : types.ReferenceMsg, types.IsReferenceMsg (SnsFlow.wire refMsg) = false).
Proof.
  split.
  - intros refMsg H. apply plain_reference_json in H.
    set (J := Json.Marshal (types.ReferenceMsg_fields refMsg)) in *.
    unfold SnsFlow.wire. fold J.
    unfold Json.Marshal, types.SNSMessage_fields. cbn [Json.members types.snsMessage].
    unfold Json.encodeString.
    destruct (mild_without J H) as [Hb Hn].
    pose proof (escape_mild_no_newline J H) as He.
    assert (E1 : Go.ReplaceAll
                   ("{" +:+ (Json.quote +:+ "default" +:+ Json.quote +:+ ":"
                               +:+ Json.quote +:+ Json.escape_from 0 0 J +:+ Json.quote) +:+ "}")
                   Json.newline EmptyString =
                 "{" +:+ (Json.quote +:+ "default" +:+ Json.quote +:+ ":"
                            +:+ Json.quote +:+ Json.escape_from 0 0 J +:+ Json.quote) +:+ "}").
    { apply ReplaceAll_absent. rewrite !contains_app, He. reflexivity. }
    rewrite E1. clear E1.
    assert (E2 : Go.ReplaceAll
                   ("{" +:+ (Json.quote +:+ "default" +:+ Json.quote +:+ ":"
                               +:+ Json.quote +:+ Json.escape_from 0 0 J +:+ Json.quote) +:+ "}")
                   (String Json.backslash Json.quote) Json.quote =
                 "{" +:+ Json.quote +:+ "default" +:+ Json.quote +:+ ":" +:+ Json.quote
                     +:+ J +:+ Json.quote +:+ "}").
    { unfold Go.ReplaceAll.
      replace ("{" +:+ (Json.quote +:+ "default" +:+ Json.quote +:+ ":"
                          +:+ Json.quote +:+ Json.escape_from 0 0 J +:+ Json.quote) +:+ "}")
        with (("{" +:+ Json.quote +:+ "default" +:+ Json.quote +:+ ":" +:+ Json.quote)
                +:+ (Json.escape_from 0 0 J +:+ (Json.quote +:+ "}")))
        by (now rewrite !append_assoc).
      rewrite ReplaceAll_past by reflexivity.
      rewrite (unescape_mild J _ H).
      rewrite (ReplaceAll_absent (Json.quote +:+ "}")) by reflexivity.
      now rewrite !append_assoc. }
    rewrite E2. clear E2.
    apply ReplaceAll_absent. rewrite !contains_app, Hb. reflexivity.
  - intros refMsg. reflexivity.
Qed.

Lemma published_text_of_a_reference_witness :
  SnsFlow.wire plainSample =
    "{" +:+ Json.quote +:+ "default" +:+ Json.quote +:+ ":" +:+ Json.quote
        +:+ Json.Marshal (types.ReferenceMsg_fields plainSample) +:+ Json.quote +:+ "}".
Proof.
  destruct published_text_of_a_reference as [H _]. apply H. reflexivity.
Defined.

(** ** The size and the order of the attributes *)

Lemma attributesSize_Permutation kvs1 kvs2 :
  kvs1 ≡ₚ kvs2 -> Spec.attributesSize kvs1 = Spec.attributesSize kvs2.
Proof.
  induction 1 as [|kv l1 l2 _ IH|kv1 kv2 l|l1 l2 l3 _ IH1 _ IH2].
  - reflexivity.
  - rewrite !attributesSize_cons, IH. reflexivity.
  - rewrite !attributesSize_cons. lia.
  - congruence.
Qed.

Lemma supported_Permutation (kvs1 kvs2 : list (string * MessageAttributeValue)) :
  kvs1 ≡ₚ kvs2 -> forallb Spec.supported kvs1.*2 = forallb Spec.supported kvs2.*2.
Proof.
  induction 1 as [|kv l1 l2 _ IH|kv1 kv2 l|l1 l2 l3 _ IH1 _ IH2].
  - reflexivity.
  - cbn [fmap list_fmap forallb]. now rewrite IH.
  - cbn [fmap list_fmap forallb]. rewrite !andb_assoc.
    now rewrite (andb_comm (Spec.supported kv2.2)).
  - congruence.
Qed.

(** X15. The size that [msgSize] computes does not depend on the
    order in which the loop visits the attributes of the map: visited in
    any order, the attributes give the same size and an error in the same
    cases. When there is an error, the size is -1 and the error names the
    dataType of an attribute that is not supported; which one it names is
    all that the order decides. *)
Theorem msgSize_in_any_order (params : sqs.SendMessageInput) (body : string)
    (kvs : list (string * MessageAttributeValue)) :
  sqs.MessageBody params = Some body ->
  kvs ≡ₚ map_to_list (sqs.MessageAttributes params) ->
  exists size err,
    hefty.msgSize params = Ret (size, err) /\
    (hefty.msgSize_range kvs (Go.int_add 0 (Go.len body))).1 = size /\
    match err, (hefty.msgSize_range kvs (Go.int_add 0 (Go.len body))).2 with
    | None, None => True
    | Some e, Some e' =>
        size = -1 /\
        (exists k v, sqs.MessageAttributes params !! k = Some v /\ Spec.supported v = false /\
                     e = unexpectedDataType v) /\
        (exists k v, sqs.MessageAttributes params !! k = Some v /\ Spec.supported v = false /\
                     e' = unexpectedDataType v)
    | _, _ => False
    end.
Proof.
  intros Hbody Hperm. unfold hefty.msgSize. rewrite Hbody.
  set (l := map_to_list (sqs.MessageAttributes params)) in *.
  assert (Hin : forall (l' : list (string * MessageAttributeValue)) v, l' ≡ₚ l ->
            In v l'.*2 -> exists k, sqs.MessageAttributes params !! k = Some v).
  { intros l' v Hl Hv. apply list_elem_of_In, list_elem_of_fmap in Hv as [[k v'] [-> Hv]].
    exists k. apply elem_of_map_to_list. fold l. now rewrite <- Hl. }
  unfold Go.int_add. rewrite Z.add_0_l.
  destruct (forallb Spec.supported l.*2) eqn:Hs.
  - rewrite (msgSize_range_supported l _ Hs).
    rewrite <- (supported_Permutation _ _ Hperm) in Hs.
    rewrite (msgSize_range_supported kvs _ Hs).
    eexists _, _. split; [reflexivity|]. cbn [fst snd].
    split; [|exact I]. now rewrite (attributesSize_Permutation _ _ Hperm).
  - destruct (msgSize_range_unsupported l (Go.int_wrap (Go.len body)) Hs)
      as (v & Hv & Hsv & ->).
    rewrite <- (supported_Permutation _ _ Hperm) in Hs.
    destruct (msgSize_range_unsupported kvs (Go.int_wrap (Go.len body)) Hs)
      as (v' & Hv' & Hsv' & ->).
    eexists _, _. split; [reflexivity|]. cbn [fst snd].
    split; [reflexivity|]. split; [reflexivity|].
    destruct (Hin l v (reflexivity _) Hv) as [k Hk].
    destruct (Hin kvs v' Hperm Hv') as [k' Hk'].
    split; [exists k, v | exists k', v']; auto.
Qed.

Lemma tagged_attributes :
  map_to_list (sqs.MessageAttributes tagged) ≡ₚ
    [("b", {| sqsTypes.DataType := Some "Binary";
              sqsTypes.StringValue := None;
              sqsTypes.BinaryValue := ["001"%byte; "002"%byte; "003"%byte] |});
     ("a", {| sqsTypes.DataType := Some "Number";
              sqsTypes.StringValue := Some "12";
              sqsTypes.BinaryValue := [] |})].
Proof.
  unfold tagged. cbn [sqs.MessageAttributes].
  rewrite map_to_list_insert by reflexivity.
  rewrite map_to_list_insert by reflexivity.
  rewrite map_to_list_empty. apply perm_swap.
Qed.

Lemma msgSize_in_any_order_witness :
  hefty.msgSize tagged = Ret (2 + (1 + 6 + 2) + (1 + 6 + 3), None).
Proof.
  destruct (msgSize_in_any_order tagged "hi" _ eq_refl (symmetry tagged_attributes))
    as (size & err & H & Hsize & Herr).
  cbn in Hsize. subst size. rewrite H. destruct err; [destruct Herr|reflexivity].
Defined.

(** ** The size of the message that carries a reference *)

Lemma len_String c s : Go.len (String c s) = 1 + Go.len s.
Proof. unfold Go.len. cbn [String.length]. lia. Qed.

Lemma escape_ascii_len c n : Go.len (Json.escape_ascii c n) <= 6.
Proof.
  unfold Json.escape_ascii.
  repeat match goal with
         | |- context [if ?b then _ else _] => destruct b
         end; rewrite ?len_app, ?len_String; change (Go.len EmptyString) with 0; lia.
Qed.

Lemma escape_len s : forall copy drop,
  Go.len (Json.escape_from copy drop s) <= 6 * Go.len s.
Proof.
  induction s as [|c s IH]; intros copy drop;
    [destruct copy, drop; cbn [Json.escape_from]; unfold Go.len; cbn [String.length]; lia|].
  rewrite len_String. cbn [Json.escape_from].
  destruct copy as [|n].
  - destruct drop as [|n].
    + destruct (Base64.char_val c <? 128).
      * destruct (Json.htmlSafe (Base64.char_val c)).
        -- rewrite len_String. specialize (IH O O). lia.
        -- rewrite len_app. pose proof (escape_ascii_len c (Base64.char_val c)).
           specialize (IH O O). lia.
      * destruct (Json.DecodeRune (Base64.char_val c) s) as [r size].
        destruct ((r =? Json.RuneError) && Nat.eqb size 1).
        -- rewrite len_app. specialize (IH O O).
           rewrite !len_String. change (Go.len EmptyString) with 0. lia.
        -- destruct ((r =? 8232) || (r =? 8233)).
           ++ rewrite len_app, !len_String. specialize (IH O (size - 1)%nat).
              change (Go.len EmptyString) with 0 in *. lia.
           ++ rewrite len_String. specialize (IH (size - 1)%nat O). lia.
    + specialize (IH O n). pose proof (len_nonneg s). lia.
  - rewrite len_String. specialize (IH n drop). lia.
Qed.

Lemma encodeString_len s : Go.len (Json.encodeString s) <= 6 * Go.len s + 2.
Proof.
  unfold Json.encodeString. rewrite !len_app. pose proof (escape_len s O O).
  change (Go.len Json.quote) with 1. lia.
Qed.

Lemma reference_json_len (refMsg : hefty.referenceMsg) :
  128 <= Go.len (Json.MarshalIndent (hefty.referenceMsg_fields refMsg))
      <= 6 * fieldsLength refMsg + 128.
Proof.
  unfold fieldsLength, Json.MarshalIndent, hefty.referenceMsg_fields.
  cbn [Json.members fold_right snd].
  rewrite !len_app.
  pose proof (encodeString_len (hefty.Identifier refMsg)).
  pose proof (encodeString_len (hefty.S3Region refMsg)).
  pose proof (encodeString_len (hefty.S3Bucket refMsg)).
  pose proof (encodeString_len (hefty.S3Key refMsg)).
  pose proof (encodeString_len (hefty.SqsMd5HashBody refMsg)).
  pose proof (encodeString_len (hefty.SqsMd5HashMsgAttr refMsg)).
  assert (Q : forall s, 2 <= Go.len (Json.encodeString s)).
  { intros s. unfold Json.encodeString. rewrite !len_app.
    pose proof (len_nonneg (Json.escape_from 0 0 s)). change (Go.len Json.quote) with 1. lia. }
  pose proof (Q (hefty.Identifier refMsg)).
  pose proof (Q (hefty.S3Region refMsg)).
  pose proof (Q (hefty.S3Bucket refMsg)).
  pose proof (Q (hefty.S3Key refMsg)).
  pose proof (Q (hefty.SqsMd5HashBody refMsg)).
  pose proof (Q (hefty.SqsMd5HashMsgAttr refMsg)).
  change (Go.len Json.quote) with 1. change (Go.len Json.newline) with 1.
  change (Go.len Json.tab) with 1. change (Go.len "{") with 1. change (Go.len "}") with 1.
  change (Go.len ",") with 1. change (Go.len ": ") with 2.
  change (Go.len "identifier") with 10. change (Go.len "s3_region") with 9.
  change (Go.len "s3_bucket") with 9. change (Go.len "s3_key") with 6.
  change (Go.len "md5_digest_msg_body") with 19.
  change (Go.len "md5_digest_msg_attr") with 19.
  lia.
Qed.

Lemma reference_size (refMsg : hefty.referenceMsg) (p : sqs.SendMessageInput) :
  6 * fieldsLength refMsg + 158 <= hefty.MaxSqsMessageLengthBytes ->
  hefty.msgSize (Flow.referenceInput refMsg p) =
    Ret (Go.len (Json.MarshalIndent (hefty.referenceMsg_fields refMsg)) + 30, None).
Proof.
  intros H. unfold hefty.MaxSqsMessageLengthBytes in H.
  pose proof (reference_json_len refMsg) as L.
  unfold hefty.msgSize, Flow.referenceInput. cbn [sqs.MessageBody sqs.MessageAttributes].
  rewrite insert_empty, map_to_list_singleton.
  unfold Go.int_add. rewrite Z.add_0_l.
  rewrite msgSize_range_supported by reflexivity.
  rewrite int_wrap_small; [reflexivity|].
  change (Spec.attributesSize [(hefty.heftyClientVersionMessageKey, hefty.heftyMarker)])
    with 30.
  unfold Go.MaxInt. lia.
Qed.

(** X16. The queue message that carries a reference, the one an
    offloaded send sends to the queue and leaves in the input of the
    caller, has a size between 158 bytes and 158 bytes plus six times the
    bytes of the six fields of the reference: the indented JSON and the
    marker attribute. When this bound is within the inline limit, a send
    of that message goes to the queue as it is: a caller that sends again
    the input an offloaded send left behind sends the reference a second
    time, without another upload. *)
Theorem reference_is_sent_inline
    (client : SqsClientWrapper.t) (refMsg : hefty.referenceMsg) (p : sqs.SendMessageInput) :
  6 * fieldsLength refMsg + 158 <= hefty.MaxSqsMessageLengthBytes ->
  (exists size,
     hefty.msgSize (Flow.referenceInput refMsg p) = Ret (size, None) /\
     158 <= size <= 6 * fieldsLength refMsg + 158) /\
  hefty.SendHeftyMessage client (Some (Flow.referenceInput refMsg p)) =
    hefty.SendMessage (Some (Flow.referenceInput refMsg p)).
Proof.
  intros H. pose proof (reference_json_len refMsg) as L.
  pose proof (reference_size refMsg p H) as Hsize.
  split.
  - eexists. split; [exact Hsize|]. lia.
  - apply (send_inline client (Flow.referenceInput refMsg p)
             (Json.MarshalIndent (hefty.referenceMsg_fields refMsg))
             (Go.len (Json.MarshalIndent (hefty.referenceMsg_fields refMsg)) + 30) eq_refl).
    + intros E. rewrite E in L. change (Go.len EmptyString) with 0 in L. lia.
    + exact Hsize.
    + lia.
Qed.

Lemma reference_is_sent_inline_witness :
  hefty.SendHeftyMessage Sample.client
    (Some (Flow.referenceInput Sample.reference Sample.scenarioA)) =
  hefty.SendMessage (Some (Flow.referenceInput Sample.reference Sample.scenarioA)).
Proof.
  apply (reference_is_sent_inline Sample.client Sample.reference Sample.scenarioA).
  vm_compute. discriminate.
Defined.
